(** * Stratus Red Team randomizer: run lifecycle, lock, history and selection

    A shallow embedding of [stratus_randomizer.py] and of the minimal
    [randomize.py], together with the properties of the run lifecycle and
    of the commands around it.

    Modelling conventions.
    - Python [str] is [string]; only code points below 128 are given a
      meaning by the character classes ([str.isspace], line boundaries,
      decimal digits), every other character is an ordinary character.
    - Python [int] is [Z]; [str(n)] is stdpp's [pretty].
    - Values read back from JSON are [pyval]s.  The files the program
      writes itself are kept as the values their JSON text denotes
      ([run_file], [hist_file]); text that does not decode is a state of
      its own, and so is a history file that is not text.
    - The host is an [Env]: the process identifier, the outcome of every
      child process, [json.loads] on the output of a child process, the
      wall clock, the pseudo-random generator and the entropy pool.
    - What can fail: a child process that exits with a non-zero code, data
      in files and tool output that has not the expected shape, arguments
      out of range.  Writing a file, opening the lock file and starting a
      child process are taken to succeed.
    - The message of an exception that the interpreter raises itself is
      abridged; the messages the program builds are exact.
    - The run directory is a map from run identifiers to files: the entry
      of an identifier stands for the file of that name in the directory.
      That is what a save writes when the identifier is a file name; where
      an identifier with a path separator would be written lies outside
      the directory and outside this model, so the statements about a
      record saved under an arbitrary identifier take it to be a file
      name, as every identifier the program generates is.  [glob] lists
      the names without a path separator, and a directory of the main
      script that does not exist yet is the empty map (its commands treat
      both alike).  [len] counts the code points of UTF-8 text.
    - The command line is taken as parsed: [argparse] is not modelled. *)

From Stdlib Require Import ZArith List String Ascii Bool Lia.
From Stdlib.Strings Require Import Byte.
From stdpp Require Import base option list strings gmap pretty sorting.

Local Open Scope string_scope.
Local Open Scope Z_scope.

Set Warnings "-register-all".

(** ** Python strings *)

Module PyStr.

Definition chars (s : string) : list ascii := list_ascii_of_string s.
Definition text (l : list ascii) : string := string_of_list_ascii l.

Definition code (c : ascii) : N := N_of_ascii c.

(** [str.isspace] on one character. *)
Definition isspace (c : ascii) : bool :=
  let n := code c in
  ((9 <=? n) && (n <=? 13) || (28 <=? n) && (n <=? 32))%N.

Fixpoint lstrip_chars (l : list ascii) : list ascii :=
  match l with
  | c :: l' => if isspace c then lstrip_chars l' else l
  | [] => []
  end.

Definition rstrip_chars (l : list ascii) : list ascii :=
  rev (lstrip_chars (rev l)).

(** [s.strip()] *)
Definition strip (s : string) : string :=
  text (rstrip_chars (lstrip_chars (chars s))).

(** [s.startswith(p)] *)
Definition startswith (p s : string) : bool := String.prefix p s.

(** [sep.join(l)] *)
Fixpoint join (sep : string) (l : list string) : string :=
  match l with
  | [] => ""
  | [x] => x
  | x :: l' => x +:+ sep +:+ join sep l'
  end.

(** Line boundaries of [str.splitlines]. *)
Definition is_linebreak (c : ascii) : bool :=
  let n := code c in
  ((10 <=? n) && (n <=? 13) || (28 <=? n) && (n <=? 30))%N.

Fixpoint splitlines_go (cur : list ascii) (l : list ascii) : list string :=
  match l with
  | [] => match cur with [] => [] | _ => [text (rev cur)] end
  | c :: l' =>
      if (code c =? 13)%N then
        match l' with
        | c' :: l'' =>
            if (code c' =? 10)%N then text (rev cur) :: splitlines_go [] l''
            else text (rev cur) :: splitlines_go [] l'
        | [] => text (rev cur) :: splitlines_go [] l'
        end
      else if is_linebreak c then text (rev cur) :: splitlines_go [] l'
      else splitlines_go (c :: cur) l'
  end.

(** [s.splitlines()] *)
Definition splitlines (s : string) : list string := splitlines_go [] (chars s).

Fixpoint take_word (l : list ascii) : list ascii :=
  match l with
  | c :: l' => if isspace c then [] else c :: take_word l'
  | [] => []
  end.

Fixpoint drop_word (l : list ascii) : list ascii :=
  match l with
  | c :: l' => if isspace c then l else drop_word l'
  | [] => []
  end.

(** [s.split(None, 1)]: the first word and, when something follows the
    white space after it, the rest of the string. *)
Definition split_first (s : string) : list string :=
  match lstrip_chars (chars s) with
  | [] => []
  | l => match lstrip_chars (drop_word l) with
         | [] => [text (take_word l)]
         | rest => [text (take_word l); text rest]
         end
  end.

(** [l[start:]] on a sequence. *)
Definition slice_from {A} (start : Z) (l : list A) : list A :=
  let len := Z.of_nat (length l) in
  let i := if start <? 0 then Z.max (len + start) 0 else Z.min start len in
  drop (Z.to_nat i) l.

(** [s.zfill(width)] for a string without sign. *)
Definition zfill (width : nat) (s : string) : string :=
  text (replicate (width - String.length s) "0"%char) +:+ s.

Definition digit_value (c : ascii) : option Z :=
  let n := code c in
  if ((48 <=? n) && (n <=? 57))%N then Some (Z.of_N n - 48) else None.

(** The digits of an integer literal: decimal digits, single underscores
    between digits. *)
Fixpoint int_digits (acc : Z) (after_digit : bool) (l : list ascii) : option Z :=
  match l with
  | [] => if after_digit then Some acc else None
  | c :: l' =>
      if (code c =? 95)%N then
        if after_digit then int_digits acc false l' else None
      else match digit_value c with
           | Some d => int_digits (10 * acc + d) true l'
           | None => None
           end
  end.

(** [int(s)]: [None] stands for [ValueError]. *)
Definition int (s : string) : option Z :=
  match chars (strip s) with
  | c :: l =>
      if (code c =? 45)%N then Z.opp <$> int_digits 0 false l
      else if (code c =? 43)%N then int_digits 0 false l
      else int_digits 0 false (c :: l)
  | [] => None
  end.

End PyStr.

Example strip_pid : PyStr.strip "  4242
" = "4242".
Proof. reflexivity. Qed.

Example int_ok : PyStr.int " -1_000 " = Some (-1000).
Proof. reflexivity. Qed.

Example int_bad : PyStr.int "12a" = None /\ PyStr.int "1__0" = None /\ PyStr.int "" = None.
Proof. repeat split; reflexivity. Qed.

Example splitlines_ex : PyStr.splitlines "a
b

c
" = ["a"; "b"; ""; "c"].
Proof. reflexivity. Qed.

Example split_first_ex :
  PyStr.split_first "aws.x.y   Some name here" = ["aws.x.y"; "Some name here"]
  /\ PyStr.split_first "aws.x.y" = ["aws.x.y"].
Proof. split; reflexivity. Qed.

Example slice_from_ex :
  PyStr.slice_from (-2) [1;2;3] = [2;3] /\ PyStr.slice_from (-5) [1;2;3] = [1;2;3]
  /\ PyStr.slice_from (-0) [1;2;3] = [1;2;3] /\ PyStr.slice_from 2 [1;2;3] = [3].
Proof. repeat split; reflexivity. Qed.

(** ** Values, time and records *)

(** What [json.loads] returns. *)
Inductive pyval :=
| PNone
| PBool (b : bool)
| PInt (n : Z)
| PFloat (repr : string)
| PStr (s : string)
| PList (l : list pyval)
| PDict (items : list (string * pyval)).

(** [d[key]] on a dict read from JSON (the last binding of a key wins). *)
Fixpoint dict_get (key : string) (items : list (string * pyval)) : option pyval :=
  match items with
  | [] => None
  | (k, v) :: items' =>
      match dict_get key items' with
      | Some v' => Some v'
      | None => if String.eqb k key then Some v else None
      end
  end.

(** [s == v] for a string [s]. *)
Definition str_eq (s : string) (v : pyval) : bool :=
  match v with PStr s' => String.eqb s s' | _ => false end.

(** Lists and dicts cannot be members of a [set]. *)
Definition hashable (v : pyval) : bool :=
  match v with PList _ | PDict _ => false | _ => true end.

(** A [datetime] in UTC. *)
Record datetime := {
  year : nat; month : nat; day : nat;
  hour : nat; minute : nat; second : nat; microsecond : nat
}.

Definition dec (width : nat) (n : nat) : string := PyStr.zfill width (pretty n).

(** [d.strftime("%Y%m%dT%H%M%SZ")], the year on four digits at least *)
Definition strftime_compact (d : datetime) : string :=
  dec 4 (year d) +:+ dec 2 (month d) +:+ dec 2 (day d) +:+ "T" +:+
  dec 2 (hour d) +:+ dec 2 (minute d) +:+ dec 2 (second d) +:+ "Z".

(** [d.isoformat()] for a datetime whose zone is UTC. *)
Definition isoformat (d : datetime) : string :=
  dec 4 (year d) +:+ "-" +:+ dec 2 (month d) +:+ "-" +:+ dec 2 (day d) +:+ "T" +:+
  dec 2 (hour d) +:+ ":" +:+ dec 2 (minute d) +:+ ":" +:+ dec 2 (second d) +:+
  (if Nat.eqb (microsecond d) 0 then "" else "." +:+ dec 6 (microsecond d)) +:+
  "+00:00".

Definition hexdigit (n : N) : ascii :=
  match n with
  | 0 => "0" | 1 => "1" | 2 => "2" | 3 => "3" | 4 => "4" | 5 => "5"
  | 6 => "6" | 7 => "7" | 8 => "8" | 9 => "9" | 10 => "a" | 11 => "b"
  | 12 => "c" | 13 => "d" | 14 => "e" | _ => "f"
  end%N%char.

(** [b.hex()] *)
Fixpoint bytes_hex (b : list byte) : string :=
  match b with
  | [] => ""
  | x :: b' =>
      String (hexdigit (Byte.to_N x / 16)) (String (hexdigit (Byte.to_N x mod 16)) (bytes_hex b'))
  end.

Inductive RunMode := TRAIN | VALIDATE.

Definition RunMode_value (m : RunMode) : string :=
  match m with TRAIN => "train" | VALIDATE => "validate" end.

Inductive RunStatus := STARTED | WARMUP_COMPLETE | DETONATED | CLEANED | FAILED.

Definition RunStatus_value (st : RunStatus) : string :=
  match st with
  | STARTED => "started"
  | WARMUP_COMPLETE => "warmup_complete"
  | DETONATED => "detonated"
  | CLEANED => "cleaned"
  | FAILED => "failed"
  end.

Record RunRecord := {
  run_id : string;
  technique : string;
  account : string;
  region : string;
  mode : string;
  tactic_filter : option string;
  started_at : string;
  status : string;
  warmup_at : option string;
  detonated_at : option string;
  cleaned_at : option string;
  error : option string
}.

Definition set_status (v : string) (r : RunRecord) : RunRecord :=
  Build_RunRecord (run_id r) (technique r) (account r) (region r) (mode r) (tactic_filter r)
    (started_at r) v (warmup_at r) (detonated_at r) (cleaned_at r) (error r).
Definition set_warmup_at (v : option string) (r : RunRecord) : RunRecord :=
  Build_RunRecord (run_id r) (technique r) (account r) (region r) (mode r) (tactic_filter r)
    (started_at r) (status r) v (detonated_at r) (cleaned_at r) (error r).
Definition set_detonated_at (v : option string) (r : RunRecord) : RunRecord :=
  Build_RunRecord (run_id r) (technique r) (account r) (region r) (mode r) (tactic_filter r)
    (started_at r) (status r) (warmup_at r) v (cleaned_at r) (error r).
Definition set_cleaned_at (v : option string) (r : RunRecord) : RunRecord :=
  Build_RunRecord (run_id r) (technique r) (account r) (region r) (mode r) (tactic_filter r)
    (started_at r) (status r) (warmup_at r) (detonated_at r) v (error r).
Definition set_error (v : option string) (r : RunRecord) : RunRecord :=
  Build_RunRecord (run_id r) (technique r) (account r) (region r) (mode r) (tactic_filter r)
    (started_at r) (status r) (warmup_at r) (detonated_at r) (cleaned_at r) v.

(** An entry of the technique catalog: the dict with keys "id" and "name". *)
Record technique_entry := { tech_id : string; tech_name : string }.

(** ** Exceptions *)

Inductive exn_class :=
| RuntimeError | ValueError | JSONDecodeError | UnicodeDecodeError | KeyError | TypeError
| AttributeError | IndexError | OSError | FileNotFoundError | BlockingIOError.

Record exn := Exn { exn_kind : exn_class; exn_msg : string }.

(** [issubclass(c, base)] among the classes above. *)
Definition subclass (c base : exn_class) : bool :=
  match c, base with
  | RuntimeError, RuntimeError | ValueError, ValueError | KeyError, KeyError
  | TypeError, TypeError | AttributeError, AttributeError | IndexError, IndexError
  | OSError, OSError | JSONDecodeError, JSONDecodeError
  | UnicodeDecodeError, UnicodeDecodeError
  | FileNotFoundError, FileNotFoundError | BlockingIOError, BlockingIOError => true
  | JSONDecodeError, ValueError | UnicodeDecodeError, ValueError => true
  | FileNotFoundError, OSError | BlockingIOError, OSError => true
  | _, _ => false
  end.

(** [except (c1, c2, ...)] *)
Definition caught_by (bases : list exn_class) (e : exn) : bool :=
  existsb (subclass (exn_kind e)) bases.

(** [except Exception] *)
Definition any_exception (e : exn) : bool := true.

(** ** The host and the state *)

Record CompletedProcess := { returncode : Z; stdout : string; stderr : string }.

Record Env := {
  getpid : Z;
  (** outcome of the n-th child process, by command line and environment overrides *)
  subprocess_run : nat -> list string -> list (string * string) -> CompletedProcess;
  (** [json.loads] on text; [None] stands for [JSONDecodeError] *)
  json_loads : string -> option pyval;
  (** the n-th reading of the wall clock *)
  clock : nat -> datetime;
  (** the n-th draw of the pseudo-random generator *)
  random_draw : nat -> nat;
  (** the n-th byte of the entropy pool *)
  entropy : nat -> byte
}.

(** A file of the run directory: a record, or anything [RunRecord.load]
    raises on (bytes that are not text, text that is not JSON, a document
    that is not a record). *)
Inductive run_file := Corrupt | Stored (r : RunRecord).
(** The history file: bytes that are not text in the encoding [read_text]
    uses, text that is not JSON, or the JSON value of the text. *)
Inductive hist_file := Unreadable | Undecodable | Json (v : pyval).
Inductive stream := Stdout | Stderr.

Record proc_call := {
  call_cmd : list string;
  call_env : list (string * string);
  call_result : CompletedProcess
}.

Record State := {
  (** files *)
  runs_dir : gmap string run_file;
  history_file : option hist_file;
  lock_file : option string;
  (** process that holds the exclusive [flock] on the lock file *)
  lock_owner : option Z;
  (** how far the host has been consumed *)
  clock_pos : nat;
  random_pos : nat;
  entropy_pos : nat;
  proc_pos : nat;
  (** memory of the running process: the [LockManager] object and the
      local variable [run_record] of [cmd_run] *)
  lock_fd : option nat;
  run_record : option RunRecord;
  (** what the process has done so far, oldest first *)
  saved : list RunRecord;
  procs : list proc_call;
  printed : list (stream * string);
  slept : list Z
}.

Definition with_runs_dir (v : gmap string run_file) (s : State) : State :=
  Build_State v (history_file s) (lock_file s) (lock_owner s) (clock_pos s) (random_pos s)
    (entropy_pos s) (proc_pos s) (lock_fd s) (run_record s) (saved s) (procs s) (printed s) (slept s).
Definition with_history_file (v : option hist_file) (s : State) : State :=
  Build_State (runs_dir s) v (lock_file s) (lock_owner s) (clock_pos s) (random_pos s)
    (entropy_pos s) (proc_pos s) (lock_fd s) (run_record s) (saved s) (procs s) (printed s) (slept s).
Definition with_lock_file (v : option string) (s : State) : State :=
  Build_State (runs_dir s) (history_file s) v (lock_owner s) (clock_pos s) (random_pos s)
    (entropy_pos s) (proc_pos s) (lock_fd s) (run_record s) (saved s) (procs s) (printed s) (slept s).
Definition with_lock_owner (v : option Z) (s : State) : State :=
  Build_State (runs_dir s) (history_file s) (lock_file s) v (clock_pos s) (random_pos s)
    (entropy_pos s) (proc_pos s) (lock_fd s) (run_record s) (saved s) (procs s) (printed s) (slept s).
Definition with_clock_pos (v : nat) (s : State) : State :=
  Build_State (runs_dir s) (history_file s) (lock_file s) (lock_owner s) v (random_pos s)
    (entropy_pos s) (proc_pos s) (lock_fd s) (run_record s) (saved s) (procs s) (printed s) (slept s).
Definition with_random_pos (v : nat) (s : State) : State :=
  Build_State (runs_dir s) (history_file s) (lock_file s) (lock_owner s) (clock_pos s) v
    (entropy_pos s) (proc_pos s) (lock_fd s) (run_record s) (saved s) (procs s) (printed s) (slept s).
Definition with_entropy_pos (v : nat) (s : State) : State :=
  Build_State (runs_dir s) (history_file s) (lock_file s) (lock_owner s) (clock_pos s) (random_pos s)
    v (proc_pos s) (lock_fd s) (run_record s) (saved s) (procs s) (printed s) (slept s).
Definition with_proc_pos (v : nat) (s : State) : State :=
  Build_State (runs_dir s) (history_file s) (lock_file s) (lock_owner s) (clock_pos s) (random_pos s)
    (entropy_pos s) v (lock_fd s) (run_record s) (saved s) (procs s) (printed s) (slept s).
Definition with_lock_fd (v : option nat) (s : State) : State :=
  Build_State (runs_dir s) (history_file s) (lock_file s) (lock_owner s) (clock_pos s) (random_pos s)
    (entropy_pos s) (proc_pos s) v (run_record s) (saved s) (procs s) (printed s) (slept s).
Definition with_run_record (v : option RunRecord) (s : State) : State :=
  Build_State (runs_dir s) (history_file s) (lock_file s) (lock_owner s) (clock_pos s) (random_pos s)
    (entropy_pos s) (proc_pos s) (lock_fd s) v (saved s) (procs s) (printed s) (slept s).
Definition with_saved (v : list RunRecord) (s : State) : State :=
  Build_State (runs_dir s) (history_file s) (lock_file s) (lock_owner s) (clock_pos s) (random_pos s)
    (entropy_pos s) (proc_pos s) (lock_fd s) (run_record s) v (procs s) (printed s) (slept s).
Definition with_procs (v : list proc_call) (s : State) : State :=
  Build_State (runs_dir s) (history_file s) (lock_file s) (lock_owner s) (clock_pos s) (random_pos s)
    (entropy_pos s) (proc_pos s) (lock_fd s) (run_record s) (saved s) v (printed s) (slept s).
Definition with_printed (v : list (stream * string)) (s : State) : State :=
  Build_State (runs_dir s) (history_file s) (lock_file s) (lock_owner s) (clock_pos s) (random_pos s)
    (entropy_pos s) (proc_pos s) (lock_fd s) (run_record s) (saved s) (procs s) v (slept s).
Definition with_slept (v : list Z) (s : State) : State :=
  Build_State (runs_dir s) (history_file s) (lock_file s) (lock_owner s) (clock_pos s) (random_pos s)
    (entropy_pos s) (proc_pos s) (lock_fd s) (run_record s) (saved s) (procs s) (printed s) v.

(** A process that starts on the files another one left: nothing in memory,
    nothing done yet. *)
Definition fresh_process (s : State) : State :=
  with_lock_fd None (with_run_record None
    (with_saved [] (with_procs [] (with_printed [] (with_slept [] s))))).

(** ** Computations: state and exceptions *)

Definition M (A : Type) : Type := State -> (exn + A) * State.

#[global] Instance M_ret : MRet M := fun A (a : A) s => (inr a, s).

#[global] Instance M_bind : MBind M := fun A B (f : A -> M B) (m : M A) s =>
  match m s with
  | (inr a, s') => f a s'
  | (inl e, s') => (inl e, s')
  end.

Definition raise {A} (kind : exn_class) (msg : string) : M A :=
  fun s => (inl (Exn kind msg), s).

(** An operation on values that touches no state: its result, or the
    exception it raises. *)
Definition throw {A} (kind : exn_class) (msg : string) : exn + A :=
  inl (Exn kind msg).

Definition lift {A} (r : exn + A) : M A := fun s => (r, s).

Definition get {A} (proj : State -> A) : M A := fun s => (inr (proj s), s).
Definition modify (f : State -> State) : M unit := fun s => (inr tt, f s).

(** [try: body except <catches> as e: handler e] *)
Definition try_except {A} (body : M A) (catches : exn -> bool) (handler : exn -> M A) : M A :=
  fun s =>
    match body s with
    | (inl e, s') => if catches e then handler e s' else (inl e, s')
    | (inr a, s') => (inr a, s')
    end.

(** [try: body finally: final] *)
Definition try_finally {A} (body : M A) (final : M unit) : M A :=
  fun s =>
    match body s with
    | (r, s') =>
        match final s' with
        | (inr _, s'') => (r, s'')
        | (inl e, s'') => (inl e, s'')
        end
    end.

Definition print (out : stream) (line : string) : M unit :=
  modify (fun s => with_printed (printed s ++ [(out, line)]) s).

Definition NL : string := String "010"%char EmptyString.

(** [str(v)] and [repr(v)] of a value read from JSON (a string is quoted
    without escapes). *)
Fixpoint py_repr (v : pyval) : string :=
  match v with
  | PNone => "None"
  | PBool true => "True"
  | PBool false => "False"
  | PInt n => pretty n
  | PFloat r => r
  | PStr s => "'" +:+ s +:+ "'"
  | PList l => "[" +:+ PyStr.join ", " (map py_repr l) +:+ "]"
  | PDict items =>
      "{" +:+
      PyStr.join ", " (map (fun kv => "'" +:+ fst kv +:+ "': " +:+ py_repr (snd kv)) items)
      +:+ "}"
  end.

Definition py_str (v : pyval) : string :=
  match v with PStr s => s | _ => py_repr v end.

(** [data[key]] for a string key *)
Definition subscript (data : pyval) (key : string) : exn + pyval :=
  match data with
  | PDict items =>
      match dict_get key items with
      | Some v => inr v
      | None => throw KeyError ("'" +:+ key +:+ "'")
      end
  | PList _ => throw TypeError "list indices must be integers or slices, not str"
  | PStr _ => throw TypeError "string indices must be integers"
  | _ => throw TypeError "object is not subscriptable"
  end.

(** [v[-n:]] *)
Definition slice_last (v : pyval) (n : Z) : exn + pyval :=
  match v with
  | PList l => inr (PList (PyStr.slice_from (- n) l))
  | PStr s => inr (PStr (PyStr.text (PyStr.slice_from (- n) (PyStr.chars s))))
  | PDict _ => throw TypeError "unhashable type: 'slice'"
  | _ => throw TypeError "object is not subscriptable"
  end.

(** [set(v)]: the members, as a list *)
Definition py_set (v : pyval) : exn + list pyval :=
  match v with
  | PList l =>
      if forallb hashable l then inr l else throw TypeError "unhashable type"
  | PStr s => inr (map (fun c => PStr (String c EmptyString)) (PyStr.chars s))
  | PDict items => inr (map (fun kv => PStr (fst kv)) items)
  | _ => throw TypeError "object is not iterable"
  end.

(** [v.append(x)]: the list after the call *)
Definition py_append (v : pyval) (x : pyval) : exn + list pyval :=
  match v with
  | PList l => inr (l ++ [x])%list
  | _ => throw AttributeError "object has no attribute 'append'"
  end.

(** The command line arguments of [run]. *)
Record Args := {
  arg_account : string;
  arg_region : string;
  arg_mode : string;
  arg_tactic : option string;
  arg_dwell_min : Z;
  arg_dwell_max : Z;
  arg_allow_repeat : bool;
  arg_avoid_last_n : Z
}.

(** ** The program *)

Section Program.

Context (e : Env).

(** *** Host primitives *)

(** [datetime.now(timezone.utc)] *)
Definition datetime_now : M datetime :=
  fun s => (inr (clock e (clock_pos s)), with_clock_pos (S (clock_pos s)) s).

(** [os.urandom(n)] *)
Definition os_urandom (n : nat) : M (list byte) :=
  fun s => (inr (map (entropy e) (seq (entropy_pos s) n)),
            with_entropy_pos (entropy_pos s + n)%nat s).

Definition randbelow (n : nat) : M nat :=
  fun s => (inr (random_draw e (random_pos s) mod n)%nat,
            with_random_pos (S (random_pos s)) s).

(** [random.choice(seq)] *)
Definition random_choice {A} (l : list A) : M A :=
  match l with
  | [] => raise IndexError "Cannot choose from an empty sequence"
  | x :: _ => i ← randbelow (length l); mret (nth i l x)
  end.

(** [random.randint(a, b)] *)
Definition random_randint (a b : Z) : M Z :=
  if a <=? b then
    i ← randbelow (Z.to_nat (b - a + 1)); mret (a + Z.of_nat i)
  else raise ValueError "empty range for randrange()".

(** [time.sleep(secs)] *)
Definition time_sleep (secs : Z) : M unit :=
  modify (fun s => with_slept (slept s ++ [secs]) s).

(** [subprocess.run(cmd, capture_output=True, text=True, env=...)] *)
Definition subprocess (cmd : list string) (env : list (string * string)) : M CompletedProcess :=
  fun s =>
    let result := subprocess_run e (proc_pos s) cmd env in
    (inr result,
     with_proc_pos (S (proc_pos s))
       (with_procs (procs s ++ [Build_proc_call cmd env result]) s)).

Definition run_cmd (cmd : list string) (check : bool) (env : list (string * string))
  : M CompletedProcess :=
  result ← subprocess cmd env;
  if check && negb (returncode result =? 0) then
    raise RuntimeError
      ("Command failed: " +:+ PyStr.join " " cmd +:+ NL +:+ "stderr: " +:+ stderr result)
  else mret result.

Definition get_aws_identity : M (pyval * pyval) :=
  result ← run_cmd ["aws"; "sts"; "get-caller-identity"; "--output"; "json"] true [];
  match json_loads e (stdout result) with
  | None => raise JSONDecodeError "Expecting value"
  | Some data =>
      acct ← lift (subscript data "Account");
      arn ← lift (subscript data "Arn");
      mret (acct, arn)
  end.

Definition truthy (o : option string) : bool :=
  match o with Some s => negb (String.eqb s "") | None => false end.

Definition parse_technique_line (techniques : list technique_entry) (line : string)
  : list technique_entry :=
  let line := PyStr.strip line in
  if PyStr.startswith "aws." line then
    match PyStr.split_first line with
    | [] => techniques
    | first :: rest =>
        techniques ++ [ {| tech_id := first;
                           tech_name := match rest with n :: _ => n | [] => "" end |} ]
    end
  else techniques.

Definition get_techniques (tactic : option string) : M (list technique_entry) :=
  let cmd := (["stratus"; "list"; "--platform"; "aws"] ++
              (if truthy tactic then ["--mitre-attack-tactic"; default "" tactic] else []))%list in
  result ← run_cmd cmd true [];
  let lines := PyStr.splitlines (PyStr.strip (stdout result)) in
  mret (fold_left parse_technique_line lines []).

(** *** Lock manager *)

(** [os.open(path, O_CREAT | O_RDWR)]: the file is created when absent. *)
Definition os_open_lock : M nat :=
  fun s =>
    (inr 3%nat,
     match lock_file s with
     | None => with_lock_file (Some "") s
     | Some _ => s
     end).

(** [fcntl.flock(fd, LOCK_EX | LOCK_NB)] *)
Definition flock_exclusive : M unit :=
  fun s =>
    match lock_owner s with
    | Some _ => (inl (Exn BlockingIOError "Resource temporarily unavailable"), s)
    | None => (inr tt, with_lock_owner (Some (getpid e)) s)
    end.

(** [os.ftruncate(fd, 0)] followed by [os.write(fd, data)] *)
Definition truncate_and_write (data : string) : M unit :=
  modify (with_lock_file (Some data)).

Definition acquire : M bool :=
  try_except
    (fd ← os_open_lock;
     modify (with_lock_fd (Some fd));;
     flock_exclusive;;
     truncate_and_write (pretty (getpid e) +:+ NL);;
     mret true)
    (caught_by [OSError; BlockingIOError])
    (fun _ =>
       fd ← get lock_fd;
       match fd with
       | Some _ => modify (with_lock_fd None)
       | None => mret tt
       end;;
       mret false).

Definition release : M unit :=
  fd ← get lock_fd;
  match fd with
  | Some _ => modify (fun s => with_lock_fd None (with_lock_owner None s))
  | None => mret tt
  end.

Definition read_lock_text : M string :=
  content ← get lock_file;
  match content with
  | Some text => mret text
  | None => raise FileNotFoundError "No such file or directory"
  end.

Definition get_holder_pid : M (option Z) :=
  try_except
    (text ← read_lock_text;
     let content := PyStr.strip text in
     if String.eqb content "" then mret None
     else match PyStr.int content with
          | Some n => mret (Some n)
          | None => raise ValueError "invalid literal for int() with base 10"
          end)
    (caught_by [FileNotFoundError; ValueError])
    (fun _ => mret None).

(** *** Run records *)

(** [save] writes the file named after the identifier of the record.  The
    entry of the run directory under an identifier stands for that file,
    which it is when the identifier is a file name ([plain_name] below). *)
Definition RunRecord_save (r : RunRecord) : M unit :=
  modify (fun s =>
    with_runs_dir (<[run_id r := Stored r]> (runs_dir s)) (with_saved (saved s ++ [r]) s)).

Definition RunRecord_load (rid : string) : M RunRecord :=
  f ← get (fun s => runs_dir s !! rid);
  match f with
  | None => raise FileNotFoundError ("Run " +:+ rid +:+ " not found")
  | Some Corrupt => raise JSONDecodeError "Expecting value"
  | Some (Stored r) => mret r
  end.

(** *** History *)

Definition read_history_json : M pyval :=
  f ← get history_file;
  match f with
  | Some (Json v) => mret v
  | Some Undecodable => raise JSONDecodeError "Expecting value"
  | Some Unreadable => raise UnicodeDecodeError "'utf-8' codec can't decode byte"
  | None => raise FileNotFoundError "No such file or directory"
  end.

Definition load_history : M pyval :=
  f ← get history_file;
  match f with
  | None => mret (PList [])
  | Some _ =>
      try_except read_history_json
        (caught_by [JSONDecodeError; KeyError])
        (fun _ => mret (PList []))
  end.

Definition save_history (history : list pyval) (max_size : Z) : M unit :=
  let history := PyStr.slice_from (- max_size) history in
  modify (with_history_file (Some (Json (PList history)))).

(** *** Technique selection *)

Definition select_technique (techniques : list technique_entry)
    (avoid_recent : bool) (recent_count : Z) : M technique_entry :=
  match techniques with
  | [] => raise ValueError "No techniques available"
  | _ =>
      candidates ←
        (if avoid_recent then
           history ← load_history;
           sl ← lift (slice_last history recent_count);
           recent ← lift (py_set sl);
           let candidates :=
             filter (fun t => negb (existsb (str_eq (tech_id t)) recent)) techniques in
           match candidates with
           | [] => mret techniques
           | _ => mret candidates
           end
         else mret techniques);
      random_choice candidates
  end.

(** *** Identifiers and time stamps *)

Definition now_iso : M string :=
  d ← datetime_now; mret (isoformat d).

Definition generate_run_id : M string :=
  now ← datetime_now;
  let timestamp := strftime_compact now in
  bytes ← os_urandom 4;
  let random_suffix := bytes_hex bytes in
  mret (timestamp +:+ "-" +:+ random_suffix).

(** *** The [run] command *)

(** Assignment to a field of the object held by [run_record]. *)
Definition assign (f : RunRecord -> RunRecord) : M unit :=
  modify (fun s => with_run_record (f <$> run_record s) s).

(** [run_record.save()] *)
Definition save_run_record : M unit :=
  r ← get run_record;
  match r with
  | Some r => RunRecord_save r
  | None => raise AttributeError "'NoneType' object has no attribute 'save'"
  end.

Definition region_env (reg : string) : list (string * string) :=
  [("AWS_DEFAULT_REGION", reg); ("AWS_REGION", reg)].

(** The warmup block; [Some code] is [return code], [None] falls through. *)
Definition warmup_step (technique : technique_entry) (env : list (string * string))
  : M (option Z) :=
  try_except
    (run_cmd ["stratus"; "warmup"; tech_id technique] true env;;
     t ← now_iso;
     assign (set_warmup_at (Some t));;
     assign (set_status (RunStatus_value WARMUP_COMPLETE));;
     save_run_record;;
     mret None)
    (caught_by [RuntimeError])
    (fun ex =>
       assign (set_status (RunStatus_value FAILED));;
       assign (set_error (Some ("Warmup failed: " +:+ exn_msg ex)));;
       save_run_record;;
       print Stderr ("ERROR: Warmup failed: " +:+ exn_msg ex);;
       mret (Some 1)).

(** The optional dwell time. *)
Definition dwell_step (args : Args) : M unit :=
  if negb (arg_dwell_min args =? 0) || negb (arg_dwell_max args =? 0) then
    dwell ← random_randint (arg_dwell_min args) (arg_dwell_max args);
    if 0 <? dwell then
      print Stdout ("Dwelling for " +:+ pretty dwell +:+ "s...");;
      time_sleep dwell
    else mret tt
  else mret tt.

(** The detonation block. *)
Definition detonate_step (args : Args) (technique : technique_entry)
    (env : list (string * string)) : M (option Z) :=
  let validate := String.eqb (arg_mode args) (RunMode_value VALIDATE) in
  try_except
    (let det_cmd := (["stratus"; "detonate"; tech_id technique] ++
                     (if validate then ["--cleanup"] else []))%list in
     run_cmd det_cmd true env;;
     t ← now_iso;
     assign (set_detonated_at (Some t));;
     assign (set_status (RunStatus_value DETONATED));;
     (if validate then
        t' ← now_iso;
        assign (set_cleaned_at (Some t'));;
        assign (set_status (RunStatus_value CLEANED))
      else mret tt);;
     save_run_record;;
     mret None)
    (caught_by [RuntimeError])
    (fun ex =>
       assign (set_status (RunStatus_value FAILED));;
       assign (set_error (Some ("Detonate failed: " +:+ exn_msg ex)));;
       save_run_record;;
       print Stderr ("ERROR: Detonate failed: " +:+ exn_msg ex);;
       mret (Some 1)).

Definition update_history (technique : technique_entry) : M unit :=
  history ← load_history;
  history ← lift (py_append history (PStr (tech_id technique)));
  save_history history 20.

(** What lies between [try:] and [except Exception] in [cmd_run]. *)
Definition run_attack (args : Args) : M Z :=
  let env := region_env (arg_region args) in
  '(current_account, current_arn) ← get_aws_identity;
  if negb (str_eq (arg_account args) current_account) then
    print Stderr ("ERROR: Running in account " +:+ py_str current_account +:+
                  ", expected " +:+ arg_account args);;
    mret 1
  else
    techniques ← get_techniques (arg_tactic args);
    match techniques with
    | [] =>
        print Stderr "ERROR: No techniques found";;
        (if truthy (arg_tactic args)
         then print Stderr ("Tactic filter: " +:+ default "" (arg_tactic args))
         else mret tt);;
        mret 1
    | _ =>
        technique ← select_technique techniques
                      (negb (arg_allow_repeat args)) (arg_avoid_last_n args);
        rid ← generate_run_id;
        started ← now_iso;
        modify (with_run_record (Some
          {| run_id := rid;
             technique := tech_id technique;
             account := py_str current_account;
             region := arg_region args;
             mode := arg_mode args;
             tactic_filter := arg_tactic args;
             started_at := started;
             status := RunStatus_value STARTED;
             warmup_at := None;
             detonated_at := None;
             cleaned_at := None;
             error := None |}));;
        save_run_record;;
        print Stdout ("RUN_ID: " +:+ rid);;
        print Stdout ("MODE: " +:+ arg_mode args);;
        (if truthy (arg_tactic args)
         then print Stdout ("TACTIC: " +:+ default "" (arg_tactic args))
         else mret tt);;
        print Stdout "Attack launching...";;
        print Stdout "";;
        returned ← warmup_step technique env;
        match returned with
        | Some code => mret code
        | None =>
            dwell_step args;;
            returned ← detonate_step args technique env;
            match returned with
            | Some code => mret code
            | None =>
                update_history technique;;
                print Stdout "Attack launched successfully.";;
                print Stdout "Your move: detect, investigate, respond.";;
                print Stdout ("When done, run: stratus_randomizer.py reveal " +:+ rid);;
                mret 0
            end
        end
    end.

(** The handler of [except Exception as e] in [cmd_run]. *)
Definition run_failed (ex : exn) : M Z :=
  print Stderr ("ERROR: " +:+ exn_msg ex);;
  r ← get run_record;
  match r with
  | Some _ =>
      assign (set_status (RunStatus_value FAILED));;
      assign (set_error (Some (exn_msg ex)));;
      save_run_record
  | None => mret tt
  end;;
  mret 1.

(** [LockManager(LOCK_FILE)]: a new object, no descriptor yet. *)
Definition LockManager_init : M unit := modify (with_lock_fd None).

Definition cmd_run (args : Args) : M Z :=
  LockManager_init;;
  ok ← acquire;
  if negb ok then
    holder_pid ← get_holder_pid;
    print Stderr ("ERROR: Another run is in progress (PID: " +:+
                  match holder_pid with Some p => pretty p | None => "None" end +:+ ")");;
    print Stderr "If this is stale, the lock will auto-release when the process exits.";;
    mret 1
  else
    modify (with_run_record None);;
    try_finally
      (try_except (run_attack args) any_exception run_failed)
      release.

(** *** The [cleanup] command *)

Definition cmd_cleanup (rid : string) : M Z :=
  loaded ← try_except (record ← RunRecord_load rid; mret (Some record))
             (caught_by [FileNotFoundError])
             (fun _ => print Stderr ("ERROR: Run " +:+ rid +:+ " not found");; mret None);
  match loaded with
  | None => mret 1
  | Some record =>
      if String.eqb (status record) (RunStatus_value CLEANED) then
        print Stdout ("Run " +:+ rid +:+ " is already cleaned.");;
        mret 0
      else
        let env := region_env (region record) in
        print Stdout ("Cleaning up run " +:+ rid +:+ "...");;
        print Stdout ("Technique: " +:+ technique record);;
        try_except
          (print Stdout "Running stratus revert...";;
           run_cmd ["stratus"; "revert"; technique record] false env;;
           print Stdout "Running stratus cleanup...";;
           run_cmd ["stratus"; "cleanup"; technique record] false env;;
           t ← now_iso;
           let record := set_cleaned_at (Some t) record in
           let record := set_status (RunStatus_value CLEANED) record in
           RunRecord_save record;;
           print Stdout "Cleanup complete.";;
           mret 0)
          any_exception
          (fun ex => print Stderr ("ERROR during cleanup: " +:+ exn_msg ex);; mret 1)
  end.

(** *** Formatting and the run directory *)

(** [for x in l: body x] *)
Fixpoint for_each {A} (l : list A) (body : A -> M unit) : M unit :=
  match l with
  | [] => mret tt
  | x :: l' => body x;; for_each l' body
  end.

(** [c * n] for a one-character string [c]. *)
Fixpoint times (c : ascii) (n : nat) : string :=
  match n with
  | O => ""
  | S n' => String c (times c n')
  end.

(** [len(s)]: the code points of a text held as UTF-8, that is, its bytes
    without the continuation bytes. *)
Definition py_len (s : string) : nat :=
  length (List.filter (fun c => negb ((128 <=? PyStr.code c) && (PyStr.code c <? 192))%N)
            (PyStr.chars s)).

(** [f"{s:<width}"] *)
Definition ljust (width : nat) (s : string) : string :=
  s +:+ times " " (width - py_len s).

(** [s.replace(a, b)] for one-character strings [a] and [b]. *)
Definition replace_char (a b : ascii) (s : string) : string :=
  PyStr.text (map (fun c => if Ascii.eqb c a then b else c) (PyStr.chars s)).

(** [l.rfind(c)], scanning from position [i] with [found] the last match so far. *)
Fixpoint rfind_from (c : ascii) (l : list ascii) (i : nat) (found : option nat) : option nat :=
  match l with
  | [] => found
  | x :: l' => rfind_from c l' (S i) (if Ascii.eqb x c then Some i else found)
  end.

(** [Path(name).stem]: the name without its last suffix (the rule of
    [pathlib] up to Python 3.13: a dot at either end starts no suffix). *)
Definition path_stem (name : string) : string :=
  let l := PyStr.chars name in
  match rfind_from "." l 0 None with
  | Some i => if (0 <? i)%nat && (i <? length l - 1)%nat then PyStr.text (take i l) else name
  | None => name
  end.

(** The names [RUNS_DIR.glob("*.json")] yields: the files of the directory
    itself, not those below it. *)
Definition glob_json {A} (dir : gmap string A) : list string :=
  map (fun k => k +:+ ".json")
    (List.filter (fun k => negb (existsb (Ascii.eqb "/") (PyStr.chars k)))
       (map fst (map_to_list dir))).

(** [sorted(names)] and [sorted(names, reverse=True)] *)
Definition sorted (names : list string) : list string :=
  merge_sort (fun a b => String.leb a b) names.

Definition sorted_reverse (names : list string) : list string :=
  merge_sort (fun a b => String.leb b a) names.

(** *** The [reveal] command *)

Definition when (b : bool) (m : M unit) : M unit := if b then m else mret tt.

Definition rule : string := times "=" 60.

Definition cmd_reveal (rid : string) : M Z :=
  loaded ← try_except (record ← RunRecord_load rid; mret (Some record))
             (caught_by [FileNotFoundError])
             (fun _ =>
                print Stderr ("ERROR: Run " +:+ rid +:+ " not found");;
                dir ← get runs_dir;
                let runs := sorted (glob_json dir) in
                match runs with
                | [] => mret tt
                | _ =>
                    print Stderr (NL +:+ "Available runs:");;
                    for_each (PyStr.slice_from (- 5) runs)
                      (fun r => print Stderr ("  " +:+ path_stem r))
                end;;
                mret None);
  match loaded with
  | None => mret 1
  | Some record =>
      print Stdout rule;;
      print Stdout ("RUN DETAILS: " +:+ run_id record);;
      print Stdout rule;;
      print Stdout ("Technique:  " +:+ technique record);;
      print Stdout ("Account:    " +:+ account record);;
      print Stdout ("Region:     " +:+ region record);;
      print Stdout ("Mode:       " +:+ mode record);;
      print Stdout ("Status:     " +:+ status record);;
      when (truthy (tactic_filter record))
        (print Stdout ("Tactic:     " +:+ default "" (tactic_filter record)));;
      print Stdout ("Started:    " +:+ started_at record);;
      when (truthy (warmup_at record))
        (print Stdout ("Warmup:     " +:+ default "" (warmup_at record)));;
      when (truthy (detonated_at record))
        (print Stdout ("Detonated:  " +:+ default "" (detonated_at record)));;
      when (truthy (cleaned_at record))
        (print Stdout ("Cleaned:    " +:+ default "" (cleaned_at record)));;
      when (truthy (error record))
        (print Stdout ("Error:      " +:+ default "" (error record)));;
      print Stdout rule;;
      print Stdout (NL +:+ "Documentation:");;
      print Stdout ("  https://stratus-red-team.cloud/attack-techniques/" +:+
                    replace_char "." "/" (technique record) +:+ "/");;
      mret 0
  end.

(** *** The [list] command *)

Record ListArgs := {
  list_runs : bool;
  list_techniques : bool;
  list_tactic : option string
}.

Definition cmd_list (args : ListArgs) : M Z :=
  if list_runs args || (negb (list_runs args) && negb (list_techniques args)) then
    dir ← get runs_dir;
    let runs := sorted_reverse (glob_json dir) in
    match runs with
    | [] => print Stdout "No runs yet.";; mret 0
    | _ =>
        print Stdout (ljust 30 "RUN ID" +:+ " " +:+ ljust 15 "STATUS" +:+ " " +:+
                      ljust 10 "MODE");;
        print Stdout (times "-" 55);;
        for_each (take 20 runs)
          (fun run_file =>
             try_except
               (record ← RunRecord_load (path_stem run_file);
                print Stdout (ljust 30 (run_id record) +:+ " " +:+
                              ljust 15 (status record) +:+ " " +:+ ljust 10 (mode record)))
               any_exception
               (fun _ =>
                  print Stdout (ljust 30 (path_stem run_file) +:+ " " +:+ ljust 15 "(error)")));;
        mret 0
    end
  else if list_techniques args then
    techniques ← get_techniques (list_tactic args);
    print Stdout (ljust 50 "TECHNIQUE ID" +:+ " " +:+ "NAME");;
    print Stdout (times "-" 80);;
    for_each techniques
      (fun t => print Stdout (ljust 50 (tech_id t) +:+ " " +:+ tech_name t));;
    print Stdout (NL +:+ "Total: " +:+ pretty (length techniques) +:+ " techniques");;
    mret 0
  else mret 0.

(** *** The [status] command *)

Definition get_stratus_status : M string :=
  result ← run_cmd ["stratus"; "status"] false [];
  mret (stdout result +:+ stderr result).

Definition cmd_status : M Z :=
  print Stdout "STRATUS STATUS:";;
  print Stdout (times "-" 40);;
  status_text ← get_stratus_status;
  print Stdout (if String.eqb (PyStr.strip status_text) "" then "(no active state)"
                else status_text);;
  print Stdout "";;
  dir ← get runs_dir;
  let runs := take 5 (sorted_reverse (glob_json dir)) in
  match runs with
  | [] => mret tt
  | _ =>
      print Stdout "RECENT RUNS:";;
      print Stdout (times "-" 40);;
      for_each runs
        (fun run_file =>
           try_except
             (record ← RunRecord_load (path_stem run_file);
              print Stdout ("  " +:+ run_id record +:+ ": " +:+ status record))
             any_exception
             (fun _ => mret tt))
  end;;
  mret 0.

End Program.

(** ** The minimal script [randomize.py] *)

Module Minimal.

(** The run identifier [do_run] computes: the time stamp alone. *)
Definition do_run_run_id (e : Env) : M string :=
  now ← datetime_now e;
  mret (strftime_compact now).

(** *** The process of the minimal script *)

(** How a computation of the script ends: it returns, it raises, or
    [sys.exit] ends the process. *)
Inductive outcome (A : Type) : Type :=
| Returned (a : A)
| Raised (ex : exn)
| Exited (code : Z).

Arguments Returned {A} a.
Arguments Raised {A} ex.
Arguments Exited {A} code.

(** The files and the memory of a process that runs the script: the run
    directory ([None] while it does not exist), what the script has put in
    [os.environ], and what it has done so far. *)
Record Process := {
  runs : option (gmap string hist_file);
  environ : list (string * string);
  call_at : nat;
  clock_at : nat;
  random_at : nat;
  calls : list proc_call;
  output : list (stream * string)
}.

Definition with_runs (v : option (gmap string hist_file)) (p : Process) : Process :=
  {| runs := v; environ := environ p; call_at := call_at p; clock_at := clock_at p;
     random_at := random_at p; calls := calls p; output := output p |}.

Definition with_environ (v : list (string * string)) (p : Process) : Process :=
  {| runs := runs p; environ := v; call_at := call_at p; clock_at := clock_at p;
     random_at := random_at p; calls := calls p; output := output p |}.

Definition with_call (c : proc_call) (p : Process) : Process :=
  {| runs := runs p; environ := environ p; call_at := S (call_at p); clock_at := clock_at p;
     random_at := random_at p; calls := calls p ++ [c]; output := output p |}.

Definition with_clock_at (n : nat) (p : Process) : Process :=
  {| runs := runs p; environ := environ p; call_at := call_at p; clock_at := n;
     random_at := random_at p; calls := calls p; output := output p |}.

Definition with_random_at (n : nat) (p : Process) : Process :=
  {| runs := runs p; environ := environ p; call_at := call_at p; clock_at := clock_at p;
     random_at := n; calls := calls p; output := output p |}.

Definition with_output (v : list (stream * string)) (p : Process) : Process :=
  {| runs := runs p; environ := environ p; call_at := call_at p; clock_at := clock_at p;
     random_at := random_at p; calls := calls p; output := v |}.

Definition P (A : Type) : Type := Process -> outcome A * Process.

#[global] Instance P_ret : MRet P := fun A (a : A) p => (Returned a, p).

#[global] Instance P_bind : MBind P := fun A B (f : A -> P B) (m : P A) p =>
  match m p with
  | (Returned a, p') => f a p'
  | (Raised ex, p') => (Raised ex, p')
  | (Exited code, p') => (Exited code, p')
  end.

Definition fail {A} (kind : exn_class) (msg : string) : P A :=
  fun p => (Raised (Exn kind msg), p).

(** [sys.exit(code)] *)
Definition sys_exit {A} (code : Z) : P A := fun p => (Exited code, p).

Definition value {A} (r : exn + A) : P A :=
  fun p => (match r with inl ex => Raised ex | inr a => Returned a end, p).

Definition read {A} (proj : Process -> A) : P A := fun p => (Returned (proj p), p).

Definition update (f : Process -> Process) : P unit := fun p => (Returned tt, f p).

Definition echo (out : stream) (line : string) : P unit :=
  update (fun p => with_output (output p ++ [(out, line)]) p).

(** [os.environ[key] = value] *)
Fixpoint setenv (key val : string) (env : list (string * string)) : list (string * string) :=
  match env with
  | [] => [(key, val)]
  | (k, v) :: rest => if String.eqb k key then (k, val) :: rest else (k, v) :: setenv key val rest
  end.

Definition now (e : Env) : P datetime :=
  fun p => (Returned (clock e (clock_at p)), with_clock_at (S (clock_at p)) p).

(** [random.choice(seq)] *)
Definition choice {A} (e : Env) (l : list A) : P A :=
  match l with
  | [] => fail IndexError "Cannot choose from an empty sequence"
  | x :: _ =>
      fun p => (Returned (nth (random_draw e (random_at p) mod length l) l x),
                with_random_at (S (random_at p)) p)
  end.

(** *** The script *)

Definition run_cmd (e : Env) (cmd : list string) (check : bool) : P CompletedProcess :=
  result ← (fun p => let result := subprocess_run e (call_at p) cmd (environ p) in
                     (Returned result,
                      with_call (Build_proc_call cmd (environ p) result) p));
  if check && negb (returncode result =? 0) then
    echo Stderr ("Command failed: " +:+ PyStr.join " " cmd);;
    echo Stderr ("stderr: " +:+ stderr result);;
    sys_exit 1
  else mret result.

Definition get_aws_account (e : Env) : P pyval :=
  result ← run_cmd e ["aws"; "sts"; "get-caller-identity"; "--output"; "json"] true;
  match json_loads e (stdout result) with
  | None => fail JSONDecodeError "Expecting value"
  | Some data => value (subscript data "Account")
  end.

(** The loop of [get_techniques]; [line.split()[0]] is the first word of the
    line. *)
Fixpoint collect_techniques (lines : list string) (techniques : list string)
  : P (list string) :=
  match lines with
  | [] => mret techniques
  | line :: rest =>
      if PyStr.startswith "aws." (PyStr.strip line) then
        match PyStr.split_first line with
        | technique :: _ => collect_techniques rest (techniques ++ [technique])
        | [] => fail IndexError "list index out of range"
        end
      else collect_techniques rest techniques
  end.

Definition get_techniques (e : Env) : P (list string) :=
  result ← run_cmd e ["stratus"; "list"; "--platform"; "aws"] true;
  collect_techniques (PyStr.splitlines (stdout result)) [].

(** The arguments of [run]. *)
Record RunArgs := {
  run_account : string;
  run_region : string;
  run_cleanup : bool
}.

(** [RUNS_DIR.mkdir(parents=True, exist_ok=True)] *)
Definition mkdir_runs : P unit :=
  update (fun p => match runs p with Some _ => p | None => with_runs (Some ∅) p end).

(** [(RUNS_DIR / f"{run_id}.json").write_text(json.dumps(data, indent=2))] *)
Definition write_run (rid : string) (data : pyval) : P unit :=
  dir ← read runs;
  match dir with
  | Some files => update (with_runs (Some (<[rid := Json data]> files)))
  | None => fail FileNotFoundError "No such file or directory"
  end.

Definition do_run (e : Env) (args : RunArgs) : P Z :=
  current_account ← get_aws_account e;
  if negb (str_eq (run_account args) current_account) then
    echo Stderr ("ERROR: Running in account " +:+ py_str current_account +:+
                 ", expected " +:+ run_account args);;
    mret 1
  else
    update (fun p => with_environ (setenv "AWS_DEFAULT_REGION" (run_region args) (environ p)) p);;
    update (fun p => with_environ (setenv "AWS_REGION" (run_region args) (environ p)) p);;
    techniques ← get_techniques e;
    match techniques with
    | [] => echo Stderr "ERROR: No techniques found";; mret 1
    | _ =>
        technique ← choice e techniques;
        stamp ← now e;
        let run_id := strftime_compact stamp in
        mkdir_runs;;
        started ← now e;
        let run_data :=
          PDict [ ("run_id", PStr run_id);
                  ("technique", PStr technique);
                  ("account", current_account);
                  ("region", PStr (run_region args));
                  ("started_at", PStr (isoformat started));
                  ("cleanup", PBool (run_cleanup args)) ] in
        write_run run_id run_data;;
        echo Stdout ("RUN_ID: " +:+ run_id);;
        echo Stdout "Attack launched. Check your detections.";;
        run_cmd e ["stratus"; "warmup"; technique] true;;
        let det_cmd := (["stratus"; "detonate"; technique]
                        ++ (if run_cleanup args then ["--cleanup"] else []))%list in
        run_cmd e det_cmd true;;
        mret 0
    end.

(** [print(f"{label}{run_data[key]}")] *)
Definition reveal_field (label : string) (run_data : pyval) (key : string) : P unit :=
  v ← value (subscript run_data key);
  echo Stdout (label +:+ py_str v).

Definition do_reveal (rid : string) : P Z :=
  dir ← read runs;
  match dir ≫= (fun files => files !! rid) with
  | None => echo Stderr ("ERROR: Run " +:+ rid +:+ " not found");; mret 1
  | Some Undecodable => fail JSONDecodeError "Expecting value"
  | Some Unreadable => fail UnicodeDecodeError "'utf-8' codec can't decode byte"
  | Some (Json run_data) =>
      reveal_field "Run ID:    " run_data "run_id";;
      reveal_field "Technique: " run_data "technique";;
      reveal_field "Account:   " run_data "account";;
      reveal_field "Region:    " run_data "region";;
      reveal_field "Started:   " run_data "started_at";;
      reveal_field "Cleanup:   " run_data "cleanup";;
      mret 0
  end.

(** The command line, once parsed. *)
Inductive command :=
| Run (args : RunArgs)
| Reveal (rid : string)
| ListRuns.

Fixpoint echo_all (lines : list string) : P unit :=
  match lines with
  | [] => mret tt
  | line :: rest => echo Stdout line;; echo_all rest
  end.

Definition main (e : Env) (c : command) : P Z :=
  match c with
  | Run args => do_run e args
  | Reveal rid => do_reveal rid
  | ListRuns =>
      dir ← read runs;
      match dir with
      | None => echo Stdout "No runs yet.";; mret 0
      | Some files => echo_all (map path_stem (sorted (glob_json files)));; mret 0
      end
  end.

End Minimal.

(** * Vocabulary of the properties *)

(** ** Lock, selection, history, identifiers *)

Definition nonspace (c : ascii) : Prop := PyStr.isspace c = false.

(** What [cmd_run] prints when the lock is held by process [p]. *)
Definition busy_report (p : Z) : list (stream * string) :=
  [ (Stderr, "ERROR: Another run is in progress (PID: " +:+ pretty p +:+ ")");
    (Stderr, "If this is stale, the lock will auto-release when the process exits.") ].

(** The last [n] entries of a sequence, oldest first. *)
Definition last_entries {A} (n : Z) (l : list A) : list A :=
  drop (length l - Z.to_nat n) l.

(** The candidates [select_technique] draws from, given the history it loaded. *)
Definition candidates_for (techniques : list technique_entry) (recent : list pyval)
  : list technique_entry :=
  match filter (fun t => negb (existsb (str_eq (tech_id t)) recent)) techniques with
  | [] => techniques
  | c => c
  end.

(** What [load_history] yields for a given content of the history file: the
    value of the JSON text, the empty list for a file that is missing or is
    not JSON, and the [UnicodeDecodeError] of [read_text], which its handler
    lets pass, for a file that is not text. *)
Definition loaded_history (f : option hist_file) : exn + pyval :=
  match f with
  | Some (Json v) => inr v
  | Some Unreadable => inl (Exn UnicodeDecodeError "'utf-8' codec can't decode byte")
  | Some Undecodable | None => inr (PList [])
  end.

(** The members of [set(history[-n:])]. *)
Definition recent_set (history : pyval) (n : Z) : exn + list pyval :=
  match slice_last history n with
  | inl ex => inl ex
  | inr sl => py_set sl
  end.

(** [set(load_history()[-n:])], by the content of the history file. *)
Definition recent_of (f : option hist_file) (n : Z) : exn + list pyval :=
  match loaded_history f with
  | inl ex => inl ex
  | inr history => recent_set history n
  end.

(** [load_history()] with one identifier appended, by the content of the
    history file. *)
Definition appended_to (f : option hist_file) (id : string) : exn + list pyval :=
  match loaded_history f with
  | inl ex => inl ex
  | inr history => py_append history (PStr id)
  end.

(** What [save_history] leaves in the history file. *)
Definition persisted_history (s : State) : option (list pyval) :=
  match history_file s with
  | Some (Json (PList l)) => Some l
  | _ => None
  end.

(** The bytes [generate_run_id] takes from the entropy pool. *)
Definition suffix_bytes (e : Env) (s : State) : list byte :=
  map (entropy e) (seq (entropy_pos s) 4).

(** A name a run record can be saved and listed under: not empty, no path
    separator. *)
Definition plain_name (k : string) : Prop :=
  k <> "" /\ existsb (Ascii.eqb "/") (PyStr.chars k) = false.

(** ** Child processes and state changes *)

(** The [n]-th child process, run with [cmd] and [env]. *)
Definition call_of (e : Env) (n : nat) (cmd : list string) (env : list (string * string))
  : proc_call :=
  Build_proc_call cmd env (subprocess_run e n cmd env).

(** A child process has run. *)
Definition log_call (c : proc_call) (s : State) : State :=
  with_proc_pos (S (proc_pos s)) (with_procs (procs s ++ [c]) s).

(** The record held by [run_record] has become [r] and has been saved. *)
Definition store (r : RunRecord) (s : State) : State :=
  with_runs_dir (<[run_id r := Stored r]> (runs_dir s))
    (with_saved (saved s ++ [r]) (with_run_record (Some r) s)).

(** The clock has been read once more. *)
Definition tick (s : State) : State := with_clock_pos (S (clock_pos s)) s.

(** A line has been printed. *)
Definition say (out : stream) (line : string) (s : State) : State :=
  with_printed (printed s ++ [(out, line)]) s.

(** The child process exited with code 0. *)
Definition succeeded (c : proc_call) : bool := returncode (call_result c) =? 0.

(** The message of the [RuntimeError] that [run_cmd] raises. *)
Definition command_failed (c : proc_call) : string :=
  "Command failed: " +:+ PyStr.join " " (call_cmd c) +:+ NL +:+ "stderr: " +:+
  stderr (call_result c).

(** ** Versions of a run record *)

Definition failed_with (msg : string) (r : RunRecord) : RunRecord :=
  set_error (Some msg) (set_status (RunStatus_value FAILED) r).

Definition warmed (t : string) (r : RunRecord) : RunRecord :=
  set_status (RunStatus_value WARMUP_COMPLETE) (set_warmup_at (Some t) r).

Definition detonated (validate : bool) (t t' : string) (r : RunRecord) : RunRecord :=
  let r' := set_status (RunStatus_value DETONATED) (set_detonated_at (Some t) r) in
  if validate then set_status (RunStatus_value CLEANED) (set_cleaned_at (Some t') r') else r'.

Definition is_validate (args : Args) : bool :=
  String.eqb (arg_mode args) (RunMode_value VALIDATE).

Definition detonate_cmd (validate : bool) (tid : string) : list string :=
  (["stratus"; "detonate"; tid] ++ (if validate then ["--cleanup"] else []))%list.

(** The dwell time leaves files, memory, child processes and clock alone. *)
Definition quiet (s s' : State) : Prop :=
  runs_dir s' = runs_dir s /\ history_file s' = history_file s
  /\ lock_file s' = lock_file s /\ lock_owner s' = lock_owner s
  /\ lock_fd s' = lock_fd s /\ run_record s' = run_record s
  /\ saved s' = saved s /\ procs s' = procs s
  /\ clock_pos s' = clock_pos s /\ proc_pos s' = proc_pos s.

(** ** The paths of a run *)

Definition identity_cmd : list string :=
  ["aws"; "sts"; "get-caller-identity"; "--output"; "json"].

Definition catalog_cmd (tactic : option string) : list string :=
  (["stratus"; "list"; "--platform"; "aws"] ++
   (if truthy tactic then ["--mitre-attack-tactic"; default "" tactic] else []))%list.

(** The calls made before a record exists. *)
Definition setup_call (args : Args) (c : proc_call) : Prop :=
  call_cmd c = identity_cmd \/ call_cmd c = catalog_cmd (arg_tactic args).

Definition warmup_call (r : RunRecord) (c : proc_call) : Prop :=
  call_cmd c = ["stratus"; "warmup"; technique r] /\ call_env c = region_env (region r).

Definition detonate_call (args : Args) (r : RunRecord) (c : proc_call) : Prop :=
  call_cmd c = detonate_cmd (is_validate args) (technique r)
  /\ call_env c = region_env (region r).

(** The record as [cmd_run] first builds it. *)
Definition started_record (args : Args) (r : RunRecord) : Prop :=
  status r = RunStatus_value STARTED
  /\ account r = arg_account args /\ region r = arg_region args
  /\ mode r = arg_mode args /\ tactic_filter r = arg_tactic args
  /\ warmup_at r = None /\ detonated_at r = None /\ cleaned_at r = None /\ error r = None.

(** [run_path e args calls saves code]: a run makes the child process calls
    [calls], writes the versions [saves] of its record and exits with [code]. *)
Inductive run_path (e : Env) (args : Args) : list proc_call -> list RunRecord -> Z -> Prop :=
| path_no_record calls :
    Forall (setup_call args) calls ->
    run_path e args calls [] 1
| path_warmup_failed ci cl cw r0 :
    setup_call args ci -> setup_call args cl -> started_record args r0 ->
    warmup_call r0 cw -> succeeded cw = false ->
    run_path e args [ci; cl; cw]
      [r0; failed_with ("Warmup failed: " +:+ command_failed cw) r0] 1
| path_dwell_failed ci cl cw r0 t msg :
    setup_call args ci -> setup_call args cl -> started_record args r0 ->
    warmup_call r0 cw -> succeeded cw = true ->
    run_path e args [ci; cl; cw]
      [r0; warmed t r0; failed_with msg (warmed t r0)] 1
| path_detonate_failed ci cl cw cd r0 t :
    setup_call args ci -> setup_call args cl -> started_record args r0 ->
    warmup_call r0 cw -> succeeded cw = true ->
    detonate_call args r0 cd -> succeeded cd = false ->
    run_path e args [ci; cl; cw; cd]
      [r0; warmed t r0;
       failed_with ("Detonate failed: " +:+ command_failed cd) (warmed t r0)] 1
| path_completed ci cl cw cd r0 t k :
    setup_call args ci -> setup_call args cl -> started_record args r0 ->
    warmup_call r0 cw -> succeeded cw = true ->
    detonate_call args r0 cd -> succeeded cd = true ->
    run_path e args [ci; cl; cw; cd]
      [r0; warmed t r0;
       detonated (is_validate args) (isoformat (clock e k)) (isoformat (clock e (S k)))
         (warmed t r0)] 0
| path_history_failed ci cl cw cd r0 t k msg :
    setup_call args ci -> setup_call args cl -> started_record args r0 ->
    warmup_call r0 cw -> succeeded cw = true ->
    detonate_call args r0 cd -> succeeded cd = true ->
    run_path e args [ci; cl; cw; cd]
      [r0; warmed t r0;
       detonated (is_validate args) (isoformat (clock e k)) (isoformat (clock e (S k)))
         (warmed t r0);
       failed_with msg
         (detonated (is_validate args) (isoformat (clock e k)) (isoformat (clock e (S k)))
            (warmed t r0))] 1.

(** The run directory after the versions [saves] have been written. *)
Definition after_saves (saves : list RunRecord) (dir : gmap string run_file)
  : gmap string run_file :=
  fold_left (fun m r => <[run_id r := Stored r]> m) saves dir.

(** What a run leaves behind, relative to the state it started in. *)
Definition run_effect (e : Env) (args : Args) (s s' : State) (code : Z) : Prop :=
  exists calls saves,
    procs s' = (procs s ++ calls)%list
    /\ saved s' = (saved s ++ saves)%list
    /\ runs_dir s' = after_saves saves (runs_dir s)
    /\ lock_owner s' = lock_owner s
    /\ lock_fd s' = lock_fd s
    /\ run_path e args calls saves code.

(** The statuses a run writes, in order. *)
Definition run_status_paths (validate : bool) : list (list RunStatus) :=
  let reached := if validate then CLEANED else DETONATED in
  [ [];
    [STARTED; FAILED];
    [STARTED; WARMUP_COMPLETE; FAILED];
    [STARTED; WARMUP_COMPLETE; reached];
    [STARTED; WARMUP_COMPLETE; reached; FAILED] ].

(** The calls and the record versions a command added to the state. *)
Definition new_calls (s s' : State) : list proc_call := drop (length (procs s)) (procs s').

Definition new_saves (s s' : State) : list RunRecord := drop (length (saved s)) (saved s').

(** A call of the detonation tool, of the warmup tool. *)
Definition detonate_invocation (c : proc_call) : Prop :=
  exists tid rest, call_cmd c = "stratus" :: "detonate" :: tid :: rest.

Definition warmup_invocation (c : proc_call) : Prop :=
  exists tid, call_cmd c = ["stratus"; "warmup"; tid].

(** The claimed life cycle: a prefix of the four states, or [FAILED] right
    after [STARTED] or [WARMUP_COMPLETE]. *)
Definition claimed_status_sequence (statuses : list string) : Prop :=
  statuses `prefix_of` map RunStatus_value [STARTED; WARMUP_COMPLETE; DETONATED; CLEANED]
  \/ statuses = map RunStatus_value [STARTED; FAILED]
  \/ statuses = map RunStatus_value [STARTED; WARMUP_COMPLETE; FAILED].

(** ** Locks, catalogs, traces and reports *)

(** The memory of another process looking at the same files. *)
Definition other_process (s : State) : State := with_lock_fd None s.

(** An identifier of the catalog: it starts with the platform prefix and
    holds no white space. *)
Definition catalog_id (id : string) : Prop :=
  PyStr.startswith "aws." id = true /\ Forall nonspace (PyStr.chars id).

(** The techniques [get_techniques] reads from the text of the listing. *)
Definition parsed_catalog (text : string) : list technique_entry :=
  fold_left parse_technique_line (PyStr.splitlines (PyStr.strip text)) [].

Definition no_slash (c : ascii) : Prop := Ascii.eqb "/" c = false.

Definition same_stream (a b : stream) : bool :=
  match a, b with Stdout, Stdout | Stderr, Stderr => true | _, _ => false end.

(** The lines written to one stream, in order. *)
Fixpoint on_stream (out : stream) (lines : list (stream * string)) : list string :=
  match lines with
  | [] => []
  | (o, line) :: rest =>
      if same_stream o out then line :: on_stream out rest else on_stream out rest
  end.

Definition new_lines (s s' : State) : list (stream * string) :=
  drop (length (printed s)) (printed s').

Definition new_naps (s s' : State) : list Z := drop (length (slept s)) (slept s').

Definition run_banner (args : Args) (rid : string) : list string :=
  (["RUN_ID: " +:+ rid; "MODE: " +:+ arg_mode args]
   ++ (if truthy (arg_tactic args) then ["TACTIC: " +:+ default "" (arg_tactic args)] else [])
   ++ ["Attack launching..."; ""])%list.

Definition dwell_notice (d : Z) : string := "Dwelling for " +:+ pretty d +:+ "s...".

Definition run_footer (rid : string) : list string :=
  [ "Attack launched successfully.";
    "Your move: detect, investigate, respond.";
    "When done, run: stratus_randomizer.py reveal " +:+ rid ].

(** A dwell time the arguments allow. *)
Definition dwell_allowed (args : Args) (d : Z) : Prop :=
  0 < d /\ arg_dwell_min args <= d <= arg_dwell_max args.

(** The identity call of a run started in [s] succeeded and named the
    expected account. *)
Definition identity_passed (e : Env) (args : Args) (s : State) : Prop :=
  let c := call_of e (proc_pos s) identity_cmd [] in
  succeeded c = true
  /\ exists data arn,
       json_loads e (stdout (call_result c)) = Some data
       /\ subscript data "Account" = inr (PStr (arg_account args))
       /\ subscript data "Arn" = inr arn.

(** The techniques parsed from what the listing call of a run started in [s]
    prints. *)
Definition listed_techniques (e : Env) (args : Args) (s : State) : list technique_entry :=
  let c := call_of e (S (proc_pos s)) (catalog_cmd (arg_tactic args)) [] in
  parsed_catalog (stdout (call_result c)).

(** What a run shows and keeps, relative to the state it started in. *)
Definition run_trace (e : Env) (args : Args) (s s' : State) (code : Z) : Prop :=
  exists calls saves lines naps,
    procs s' = (procs s ++ calls)%list
    /\ saved s' = (saved s ++ saves)%list
    /\ printed s' = (printed s ++ lines)%list
    /\ slept s' = (slept s ++ naps)%list
    /\ (naps = [] \/ exists d, naps = [d] /\ dwell_allowed args d)
    /\ (arg_dwell_max args < arg_dwell_min args -> (length calls <= 3)%nat)
    /\ (forall c, In c calls -> call_cmd c <> identity_cmd -> identity_passed e args s)
    /\ match saves with
       | [] => True
       | r0 :: _ =>
           In (technique r0) (map tech_id (listed_techniques e args s))
           /\ plain_name (run_id r0)
       end
    /\ (on_stream Stderr lines = [] <-> code = 0)
    /\ on_stream Stdout lines
       = match saves with
         | [] => []
         | r0 :: _ =>
             (run_banner args (run_id r0) ++ map dwell_notice naps
              ++ (if code =? 0 then run_footer (run_id r0) else []))%list
         end
    /\ (if code =? 0
        then exists r0 rest old,
               saves = r0 :: rest
               /\ loaded_history (history_file s) = inr (PList old)
               /\ history_file s'
                  = Some (Json (PList (PyStr.slice_from (- 20) (old ++ [PStr (technique r0)]))))
        else history_file s' = history_file s).

(** The record as [cmd_cleanup] saves it. *)
Definition cleaned_now (e : Env) (s : State) (r : RunRecord) : RunRecord :=
  set_status (RunStatus_value CLEANED)
    (set_cleaned_at (Some (isoformat (clock e (clock_pos s)))) r).

(** The state a cleanup that ran the tools leaves. *)
Definition cleaned_state (e : Env) (rid : string) (r : RunRecord) (s : State) : State :=
  let c1 := call_of e (proc_pos s) ["stratus"; "revert"; technique r] (region_env (region r)) in
  let c2 := call_of e (S (proc_pos s)) ["stratus"; "cleanup"; technique r]
              (region_env (region r)) in
  let r' := cleaned_now e s r in
  say Stdout "Cleanup complete."
    (with_runs_dir (<[run_id r := Stored r']> (runs_dir s))
       (with_saved (saved s ++ [r'])
          (tick
             (log_call c2
                (say Stdout "Running stratus cleanup..."
                   (log_call c1
                      (say Stdout "Running stratus revert..."
                         (say Stdout ("Technique: " +:+ technique r)
                            (say Stdout ("Cleaning up run " +:+ rid +:+ "...") s))))))))).

Definition optional_line (label : string) (v : option string) : list string :=
  if truthy v then [label +:+ default "" v] else [].

(** The lines [cmd_reveal] prints for a record. *)
Definition reveal_lines (r : RunRecord) : list string :=
  ([ rule; "RUN DETAILS: " +:+ run_id r; rule;
     "Technique:  " +:+ technique r;
     "Account:    " +:+ account r;
     "Region:     " +:+ region r;
     "Mode:       " +:+ mode r;
     "Status:     " +:+ status r ]
   ++ optional_line "Tactic:     " (tactic_filter r)
   ++ ["Started:    " +:+ started_at r]
   ++ optional_line "Warmup:     " (warmup_at r)
   ++ optional_line "Detonated:  " (detonated_at r)
   ++ optional_line "Cleaned:    " (cleaned_at r)
   ++ optional_line "Error:      " (error r)
   ++ [ rule; NL +:+ "Documentation:";
        "  https://stratus-red-team.cloud/attack-techniques/" +:+
        replace_char "." "/" (technique r) +:+ "/" ])%list.

(** The row of [cmd_list] for a file of the run directory. *)
Definition run_row (dir : gmap string run_file) (name : string) : string :=
  match dir !! path_stem name with
  | Some (Stored r) =>
      ljust 30 (run_id r) +:+ " " +:+ ljust 15 (status r) +:+ " " +:+ ljust 10 (mode r)
  | _ => ljust 30 (path_stem name) +:+ " " +:+ ljust 15 "(error)"
  end.

(** The line of [cmd_status] for a file of the run directory, if any. *)
Definition recent_row (dir : gmap string run_file) (name : string) : list string :=
  match dir !! path_stem name with
  | Some (Stored r) => ["  " +:+ run_id r +:+ ": " +:+ status r]
  | _ => []
  end.

(** The state after the lines have been printed to one stream. *)
Definition printing (out : stream) (lines : list string) (s : State) : State :=
  with_printed (printed s ++ map (pair out) lines) s.

Definition list_header : string :=
  ljust 30 "RUN ID" +:+ " " +:+ ljust 15 "STATUS" +:+ " " +:+ ljust 10 "MODE".

Definition technique_row (t : technique_entry) : string :=
  ljust 50 (tech_id t) +:+ " " +:+ tech_name t.

(** The identifiers [Minimal.get_techniques] reads from the lines of the
    listing. *)
Fixpoint listed_ids (lines : list string) : list string :=
  match lines with
  | [] => []
  | line :: rest =>
      if PyStr.startswith "aws." (PyStr.strip line) then
        match PyStr.split_first line with
        | technique :: _ => technique :: listed_ids rest
        | [] => listed_ids rest
        end
      else listed_ids rest
  end.

(** The child process the script starts next, for a command line. *)
Definition next_call (e : Env) (cmd : list string) (p : Minimal.Process) : proc_call :=
  call_of e (Minimal.call_at p) cmd (Minimal.environ p).

(** The identity call of a run started in [p] succeeded and named the
    expected account. *)
Definition account_checked (e : Env) (args : Minimal.RunArgs) (p : Minimal.Process) : Prop :=
  let c := next_call e identity_cmd p in
  succeeded c = true
  /\ exists data,
       json_loads e (stdout (call_result c)) = Some data
       /\ subscript data "Account" = inr (PStr (Minimal.run_account args)).

(** The process after [sys.exit(1)] of [run_cmd] on a failed call. *)
Definition call_failed (c : proc_call) (p : Minimal.Process) : Minimal.Process :=
  Minimal.with_output
    (Minimal.output p ++ [ (Stderr, "Command failed: " +:+ PyStr.join " " (call_cmd c));
                        (Stderr, "stderr: " +:+ stderr (call_result c)) ])
    (Minimal.with_call c p).

(** The record [do_run] writes. *)
Definition run_data (e : Env) (args : Minimal.RunArgs) (technique : string) (p : Minimal.Process)
  : pyval :=
  PDict [ ("run_id", PStr (strftime_compact (clock e (Minimal.clock_at p))));
          ("technique", PStr technique);
          ("account", PStr (Minimal.run_account args));
          ("region", PStr (Minimal.run_region args));
          ("started_at", PStr (isoformat (clock e (S (Minimal.clock_at p)))));
          ("cleanup", PBool (Minimal.run_cleanup args)) ].

Definition new_output (p p' : Minimal.Process) : list (stream * string) :=
  drop (length (Minimal.output p)) (Minimal.output p').

Definition new_child_calls (p p' : Minimal.Process) : list proc_call :=
  drop (length (Minimal.calls p)) (Minimal.calls p').

(** The environment of the child processes once [do_run] has set the region. *)
Definition region_set (args : Minimal.RunArgs) (p : Minimal.Process) : list (string * string) :=
  Minimal.setenv "AWS_REGION" (Minimal.run_region args)
    (Minimal.setenv "AWS_DEFAULT_REGION" (Minimal.run_region args) (Minimal.environ p)).

(** The process in which [do_run] lists the techniques. *)
Definition checked (e : Env) (args : Minimal.RunArgs) (p : Minimal.Process) : Minimal.Process :=
  Minimal.with_environ (region_set args p) (Minimal.with_call (next_call e identity_cmd p) p).

(** What [do_run] has listed, and the technique it draws. *)
Definition listing_call (e : Env) (args : Minimal.RunArgs) (p : Minimal.Process) : proc_call :=
  next_call e ["stratus"; "list"; "--platform"; "aws"] (checked e args p).

Definition listing (e : Env) (args : Minimal.RunArgs) (p : Minimal.Process) : list string :=
  listed_ids (PyStr.splitlines (stdout (call_result (listing_call e args p)))).

Definition drawn (e : Env) (args : Minimal.RunArgs) (p : Minimal.Process) : string :=
  let ids := listing e args p in
  nth (random_draw e (Minimal.random_at p) mod length ids) ids "".

(** The process once the record is written and the run announced. *)
Definition announced (e : Env) (args : Minimal.RunArgs) (p : Minimal.Process) : Minimal.Process :=
  let rid := strftime_compact (clock e (Minimal.clock_at p)) in
  Minimal.with_output
    (Minimal.output p ++ [ (Stdout, "RUN_ID: " +:+ rid);
                        (Stdout, "Attack launched. Check your detections.") ])
    (Minimal.with_runs
       (Some (<[rid := Json (run_data e args (drawn e args p) p)]> (default ∅ (Minimal.runs p))))
       (Minimal.with_clock_at (S (S (Minimal.clock_at p)))
          (Minimal.with_random_at (S (Minimal.random_at p))
             (Minimal.with_call (listing_call e args p) (checked e args p))))).

Definition warmup_of (e : Env) (args : Minimal.RunArgs) (p : Minimal.Process) : proc_call :=
  next_call e ["stratus"; "warmup"; drawn e args p] (announced e args p).

Definition detonation_of (e : Env) (args : Minimal.RunArgs) (p : Minimal.Process) : proc_call :=
  next_call e
    (["stratus"; "detonate"; drawn e args p]
     ++ (if Minimal.run_cleanup args then ["--cleanup"] else []))%list
    (Minimal.with_call (warmup_of e args p) (announced e args p)).

(** The six lines [do_reveal] prints for a record [do_run] wrote. *)
Definition revealed (e : Env) (args : Minimal.RunArgs) (technique : string) (p : Minimal.Process)
  : list string :=
  [ "Run ID:    " +:+ strftime_compact (clock e (Minimal.clock_at p));
    "Technique: " +:+ technique;
    "Account:   " +:+ Minimal.run_account args;
    "Region:    " +:+ Minimal.run_region args;
    "Started:   " +:+ isoformat (clock e (S (Minimal.clock_at p)));
    "Cleanup:   " +:+ (if Minimal.run_cleanup args then "True" else "False") ].

(** * A concrete host *)

Definition catalog_text : string :=
  "TECHNIQUE ID                          NAME" +:+ NL +:+
  "-------------------------------------------" +:+ NL +:+
  "aws.persistence.iam-backdoor-user     Backdoor an IAM user" +:+ NL +:+
  "aws.discovery.ec2-enumerate           Enumerate EC2" +:+ NL.

(** Stands for the JSON document that [aws sts get-caller-identity] prints. *)
Definition identity_text : string := "caller-identity.json".

Definition starts_with (prefix cmd : list string) : bool :=
  bool_decide (take (length prefix) cmd = prefix).

(** A host in account 123456789012 whose warmup and detonation exit with
    the given codes; every reading of the clock falls in the same second. *)
Definition sample_env (pid warmup_code detonate_code : Z) : Env := {|
  getpid := pid;
  subprocess_run := fun _ cmd _ =>
    if starts_with ["aws"] cmd then Build_CompletedProcess 0 identity_text ""
    else if starts_with ["stratus"; "list"] cmd then Build_CompletedProcess 0 catalog_text ""
    else if starts_with ["stratus"; "warmup"] cmd
         then Build_CompletedProcess warmup_code ""
                (if warmup_code =? 0 then "" else "warmup refused")
    else if starts_with ["stratus"; "detonate"] cmd
         then Build_CompletedProcess detonate_code ""
                (if detonate_code =? 0 then "" else "detonation refused")
    else Build_CompletedProcess 1 "" "unknown command";
  json_loads := fun text =>
    if String.eqb text identity_text
    then Some (PDict [("UserId", PStr "AIDAEXAMPLE");
                      ("Account", PStr "123456789012");
                      ("Arn", PStr "arn:aws:iam::123456789012:user/responder")])
    else None;
  clock := fun n => Build_datetime 2024 1 15 12 0 0 (1000 * (n + 1));
  random_draw := fun n => n;
  entropy := fun n => match n with 0%nat => xde | 1%nat => xad | 2%nat => xbe | _ => xef end
|}.

Definition initial_state : State := {|
  runs_dir := ∅; history_file := None; lock_file := None; lock_owner := None;
  clock_pos := 0; random_pos := 0; entropy_pos := 0; proc_pos := 0;
  lock_fd := None; run_record := None;
  saved := []; procs := []; printed := []; slept := []
|}.

Definition sample_args (m : RunMode) : Args := {|
  arg_account := "123456789012"; arg_region := "us-east-1"; arg_mode := RunMode_value m;
  arg_tactic := None; arg_dwell_min := 0; arg_dwell_max := 0;
  arg_allow_repeat := false; arg_avoid_last_n := 5
|}.

Definition sample_catalog : list technique_entry :=
  [ {| tech_id := "aws.persistence.iam-backdoor-user"; tech_name := "Backdoor an IAM user" |};
    {| tech_id := "aws.discovery.ec2-enumerate"; tech_name := "Enumerate EC2" |} ].

Definition sample_detonate_call : proc_call := {|
  call_cmd := ["stratus"; "detonate"; "aws.persistence.iam-backdoor-user"; "--cleanup"];
  call_env := region_env "us-east-1";
  call_result := Build_CompletedProcess 0 "" ""
|}.

Definition sample_warmup_call : proc_call := {|
  call_cmd := ["stratus"; "warmup"; "aws.persistence.iam-backdoor-user"];
  call_env := region_env "us-east-1";
  call_result := Build_CompletedProcess 1 "" "warmup refused"
|}.

(** The lock as process 77 leaves it after [acquire]. *)
Definition held_state : State :=
  fresh_process (snd (acquire (sample_env 77 0 0) initial_state)).

(** A state whose history holds the given identifiers. *)
Definition with_history (ids : list string) (s : State) : State :=
  with_history_file (Some (Json (PList (map PStr ids)))) s.

(** A record as a TRAIN run leaves it, and a directory that holds it. *)
Definition sample_record : RunRecord := {|
  run_id := "20240115T120000Z-deadbeef";
  technique := "aws.persistence.iam-backdoor-user";
  account := "123456789012"; region := "us-east-1"; mode := RunMode_value TRAIN;
  tactic_filter := None;
  started_at := "2024-01-15T12:00:00.001000+00:00";
  status := RunStatus_value DETONATED;
  warmup_at := Some "2024-01-15T12:00:00.002000+00:00";
  detonated_at := Some "2024-01-15T12:00:00.003000+00:00";
  cleaned_at := None; error := None
|}.

Definition stored_state : State := snd (RunRecord_save sample_record initial_state).

Definition runs_only : ListArgs :=
  {| list_runs := true; list_techniques := false; list_tactic := None |}.

Definition techniques_only : ListArgs :=
  {| list_runs := false; list_techniques := true; list_tactic := None |}.

(** Arguments whose dwell range is empty. *)
Definition hasty_args : Args := {|
  arg_account := "123456789012"; arg_region := "us-east-1";
  arg_mode := RunMode_value TRAIN; arg_tactic := None;
  arg_dwell_min := 5; arg_dwell_max := 1;
  arg_allow_repeat := true; arg_avoid_last_n := 5
|}.

(** A process of the minimal script that has done nothing yet, and its
    arguments. *)
Definition new_process : Minimal.Process := {|
  Minimal.runs := None; Minimal.environ := []; Minimal.call_at := 0; Minimal.clock_at := 0;
  Minimal.random_at := 0; Minimal.calls := []; Minimal.output := []
|}.

Definition minimal_args : Minimal.RunArgs :=
  {| Minimal.run_account := "123456789012"; Minimal.run_region := "us-east-1";
     Minimal.run_cleanup := true |}.

(** * Properties *)
(** ** Printing and reading integers *)

Lemma chars_app s1 s2 : PyStr.chars (s1 +:+ s2) = (PyStr.chars s1 ++ PyStr.chars s2)%list.
Proof. induction s1 as [|c s1 IH]; simpl; [done|]. unfold PyStr.chars in *. simpl. by rewrite IH. Qed.

Lemma text_chars s : PyStr.text (PyStr.chars s) = s.
Proof. apply string_of_list_ascii_of_string. Qed.

Lemma lstrip_nonspace l : Forall nonspace l -> PyStr.lstrip_chars l = l.
Proof. destruct 1 as [|c l Hc _]; simpl; [done|]. by rewrite Hc. Qed.

Lemma rstrip_nonspace l : Forall nonspace l -> PyStr.rstrip_chars l = l.
Proof.
  intros H. unfold PyStr.rstrip_chars.
  rewrite lstrip_nonspace; [apply rev_involutive|].
  by apply List.Forall_rev.
Qed.

Lemma pretty_N_char_props d :
  (d < 10)%N ->
  nonspace (pretty_N_char d)
  /\ (PyStr.code (pretty_N_char d) =? 95)%N = false
  /\ (PyStr.code (pretty_N_char d) =? 45)%N = false
  /\ (PyStr.code (pretty_N_char d) =? 43)%N = false
  /\ PyStr.digit_value (pretty_N_char d) = Some (Z.of_N d).
Proof.
  intros Hd. rewrite <- (N2Nat.id d).
  assert (N.to_nat d < 10)%nat as Kd by lia.
  revert Kd. generalize (N.to_nat d). clear. intros k Kk.
  do 10 (destruct k as [|k]; [repeat split; reflexivity|]). lia.
Qed.

Lemma pretty_N_go_nonspace x s :
  Forall nonspace (PyStr.chars s) -> Forall nonspace (PyStr.chars (pretty_N_go x s)).
Proof.
  revert s. induction (N.lt_wf_0 x) as [x _ IH]; intros s Hs.
  destruct (decide (x = 0)%N) as [->|Hx]; [by rewrite pretty_N_go_0|].
  rewrite pretty_N_go_step by lia. apply IH.
  - apply N.div_lt; lia.
  - constructor; [|done]. apply pretty_N_char_props, N.mod_lt. lia.
Qed.

Lemma pretty_N_go_head x s :
  (0 < x)%N -> exists d t, (d < 10)%N /\ pretty_N_go x s = String (pretty_N_char d) t.
Proof.
  revert s. induction (N.lt_wf_0 x) as [x _ IH]; intros s Hx.
  rewrite pretty_N_go_step by done.
  destruct (decide (x `div` 10 = 0)%N) as [Hz|Hz].
  - rewrite Hz, pretty_N_go_0. eexists _, _. split; [|done]. apply N.mod_lt. lia.
  - apply IH; [apply N.div_lt; lia|by apply N.neq_0_lt_0].
Qed.

Lemma int_digits_pretty_N_go x s b :
  (0 < x)%N ->
  PyStr.int_digits 0 b (PyStr.chars (pretty_N_go x s))
  = PyStr.int_digits (Z.of_N x) true (PyStr.chars s).
Proof.
  revert s b. induction (N.lt_wf_0 x) as [x _ IH]; intros s b Hx.
  rewrite pretty_N_go_step by done.
  assert (x `mod` 10 < 10)%N as Hd by (apply N.mod_lt; lia).
  destruct (pretty_N_char_props _ Hd) as (_ & Hu & _ & _ & Hv).
  destruct (decide (x `div` 10 = 0)%N) as [Hz|Hz].
  - rewrite Hz, pretty_N_go_0. cbn [PyStr.chars list_ascii_of_string PyStr.int_digits].
    rewrite Hu, Hv. f_equal. rewrite (N.div_mod x 10) at 2 by lia. rewrite Hz. lia.
  - rewrite IH; [|apply N.div_lt; lia|by apply N.neq_0_lt_0].
    cbn [PyStr.chars list_ascii_of_string PyStr.int_digits].
    rewrite Hu, Hv. f_equal. rewrite (N.div_mod x 10) at 3 by lia. lia.
Qed.

Lemma pretty_Z_nonspace (p : Z) : Forall nonspace (PyStr.chars (pretty p)).
Proof.
  destruct p as [|x|x]; unfold pretty, pretty_Z.
  - repeat constructor.
  - unfold pretty, pretty_positive, pretty, pretty_N.
    case_decide; [done|]. by apply pretty_N_go_nonspace.
  - rewrite chars_app. apply Forall_app. split; [repeat constructor|].
    unfold pretty, pretty_positive, pretty, pretty_N.
    case_decide; [done|]. by apply pretty_N_go_nonspace.
Qed.

Lemma strip_nonspace s : Forall nonspace (PyStr.chars s) -> PyStr.strip s = s.
Proof.
  intros H. unfold PyStr.strip. rewrite lstrip_nonspace, rstrip_nonspace by done.
  apply text_chars.
Qed.

Lemma strip_nonspace_NL s :
  s <> "" -> Forall nonspace (PyStr.chars s) -> PyStr.strip (s +:+ NL) = s.
Proof.
  intros Hne H. unfold PyStr.strip. rewrite chars_app.
  assert (PyStr.lstrip_chars (PyStr.chars s ++ PyStr.chars NL)
          = (PyStr.chars s ++ PyStr.chars NL)%list) as ->.
  { destruct s as [|c s]; [done|]. inversion H as [|? ? Hc _]; subst.
    cbn [PyStr.chars list_ascii_of_string app PyStr.lstrip_chars]. by rewrite Hc. }
  unfold PyStr.rstrip_chars. rewrite rev_app_distr.
  cbn [NL PyStr.chars list_ascii_of_string rev app PyStr.lstrip_chars].
  change (PyStr.isspace "010") with true. cbn iota.
  rewrite lstrip_nonspace by by apply List.Forall_rev.
  rewrite rev_involutive. apply text_chars.
Qed.

Lemma pretty_Z_nonempty (p : Z) : pretty p <> "".
Proof.
  destruct p as [|x|x]; unfold pretty, pretty_Z; [done| |done].
  unfold pretty, pretty_positive, pretty, pretty_N. case_decide; [done|].
  destruct (pretty_N_go_head (N.pos x) "") as (d & t & _ & ->); [lia|done].
Qed.

Lemma int_pretty (p : Z) : PyStr.int (pretty p) = Some p.
Proof.
  unfold PyStr.int. rewrite strip_nonspace by apply pretty_Z_nonspace.
  destruct p as [|x|x]; unfold pretty, pretty_Z; [done|..].
  - unfold pretty, pretty_positive, pretty, pretty_N. case_decide; [done|].
    destruct (pretty_N_go_head (N.pos x) "") as (d & t & Hd & Heq); [lia|].
    pose proof (int_digits_pretty_N_go (N.pos x) "" false) as Hi.
    rewrite Heq in *. cbn [PyStr.chars list_ascii_of_string] in *.
    destruct (pretty_N_char_props _ Hd) as (_ & _ & -> & -> & _).
    rewrite Hi by lia. done.
  - rewrite chars_app. cbn [PyStr.chars list_ascii_of_string app].
    change (PyStr.code "-" =? 45)%N with true. cbn iota.
    unfold pretty, pretty_positive, pretty, pretty_N. case_decide; [done|].
    fold (PyStr.chars (pretty_N_go (N.pos x) "")).
    rewrite int_digits_pretty_N_go by lia. done.
Qed.

(** ** The lock *)

Ltac exec :=
  cbv beta iota zeta delta
    [mbind M_bind mret M_ret try_except try_finally get modify raise lift throw print].

Ltac monad_unfold :=
  unfold mbind, M_bind, mret, M_ret, try_except, try_finally, get, modify, raise, lift, throw in *.

Lemma get_holder_pid_returns (s : State) : exists r, get_holder_pid s = (inr r, s).
Proof.
  unfold get_holder_pid, read_lock_text. monad_unfold.
  destruct (lock_file s) as [text|]; simpl; [|by eexists].
  destruct (String.eqb (PyStr.strip text) ""); [by eexists|].
  destruct (PyStr.int (PyStr.strip text)); by eexists.
Qed.

(** C10. [get_holder_pid] never raises and changes nothing: it returns
    [None] when the lock file is absent, when its content is empty once
    stripped, and when that content does not read as an integer; it returns
    an identifier exactly when the stripped content reads as that integer. *)
Theorem get_holder_pid_total (s : State) :
  exists r : option Z,
    get_holder_pid s = (inr r, s)
    /\ (lock_file s = None -> r = None)
    /\ (forall text, lock_file s = Some text -> PyStr.strip text = "" -> r = None)
    /\ (forall text, lock_file s = Some text -> PyStr.int (PyStr.strip text) = None -> r = None)
    /\ (forall n, r = Some n <->
          exists text, lock_file s = Some text /\ PyStr.int (PyStr.strip text) = Some n).
Proof.
  unfold get_holder_pid, read_lock_text. monad_unfold.
  destruct (lock_file s) as [text|] eqn:Hf; simpl.
  - destruct (String.eqb (PyStr.strip text) "") eqn:Hb.
    + apply String.eqb_eq in Hb. eexists; split; [done|].
      repeat split; try done.
      intros (t & [= <-] & Hi). rewrite Hb in Hi. done.
    + destruct (PyStr.int (PyStr.strip text)) as [n|] eqn:Hi; simpl.
      * eexists; split; [done|]. repeat split; try congruence.
        -- intros ? [= <-] Hs. rewrite Hs in Hb. done.
        -- intros [= <-]. eauto.
        -- intros (t & [= <-] & Hi'). congruence.
      * eexists; split; [done|]. repeat split; try done.
        intros (t & [= <-] & Hi'). congruence.
  - eexists; split; [done|]. repeat split; try done. intros (t & ? & _). done.
Qed.

Lemma acquire_busy (e : Env) (s : State) (p : Z) :
  lock_owner s = Some p ->
  acquire e s =
    (inr false,
     with_lock_fd None
       (match lock_file s with None => with_lock_file (Some "") s | Some _ => s end)).
Proof.
  intros Hown. unfold acquire, os_open_lock, flock_exclusive. monad_unfold.
  destruct (lock_file s) eqn:Hf; simpl; rewrite Hown; simpl; reflexivity.
Qed.

Lemma acquire_free (e : Env) (s : State) :
  lock_owner s = None ->
  acquire e s =
    (inr true,
     with_lock_file (Some (pretty (getpid e) +:+ NL))
       (with_lock_owner (Some (getpid e)) (with_lock_fd (Some 3%nat) s))).
Proof.
  intros Hown. unfold acquire, os_open_lock, flock_exclusive, truncate_and_write. monad_unfold.
  destruct (lock_file s) eqn:Hf; simpl; rewrite Hown; simpl; try reflexivity.
Qed.

Lemma get_holder_pid_of_holder (s : State) (p : Z) :
  lock_file s = Some (pretty p +:+ NL) -> get_holder_pid s = (inr (Some p), s).
Proof.
  intros Hf. unfold get_holder_pid, read_lock_text. monad_unfold. rewrite Hf. simpl.
  rewrite strip_nonspace_NL by (apply pretty_Z_nonempty || apply pretty_Z_nonspace).
  destruct (String.eqb_spec (pretty p) "") as [Heq|_]; [by apply pretty_Z_nonempty in Heq|].
  rewrite int_pretty. reflexivity.
Qed.

(** C3. When the lock is held by another process [p], which recorded its
    identifier in the lock file as [acquire] does, [acquire] returns false
    without raising, and [cmd_run] reports [p] on the error stream and exits
    with code 1; no run record is created, no child process is started and
    the lock stays with [p]. *)
Theorem busy_run_reports_holder (e : Env) (args : Args) (s : State) (p : Z) :
  lock_owner s = Some p ->
  lock_file s = Some (pretty p +:+ NL) ->
  (exists s1, acquire e s = (inr false, s1))
  /\ exists s',
       cmd_run e args s = (inr 1, s')
       /\ printed s' = (printed s ++ busy_report p)%list
       /\ runs_dir s' = runs_dir s /\ saved s' = saved s /\ procs s' = procs s
       /\ lock_owner s' = Some p /\ lock_file s' = lock_file s.
Proof.
  intros Hown Hfile. split.
  { eexists. by apply acquire_busy with p. }
  unfold cmd_run, LockManager_init.
  unfold mbind at 1, M_bind at 1. unfold modify at 1.
  unfold mbind at 1, M_bind at 1.
  rewrite (acquire_busy e _ p) by done. cbn [negb].
  cbn [lock_file with_lock_fd]. rewrite Hfile.
  unfold mbind at 1, M_bind at 1.
  rewrite (get_holder_pid_of_holder _ p) by done.
  eexists. split; [reflexivity|]. cbn. rewrite <- app_assoc. repeat split; done.
Qed.

(** ** Technique selection *)

Lemma slice_from_last {A} (n : Z) (l : list A) :
  0 < n -> PyStr.slice_from (- n) l = last_entries n l.
Proof.
  intros Hn. unfold PyStr.slice_from, last_entries.
  destruct (Z.ltb_spec (- n) 0) as [_|?]; [|lia]. f_equal. lia.
Qed.

Lemma slice_from_zero {A} (l : list A) : PyStr.slice_from (- 0) l = l.
Proof.
  unfold PyStr.slice_from. change (- 0 <? 0) with false. cbn iota.
  rewrite Z.min_l by lia. reflexivity.
Qed.

Lemma random_choice_In {A} (e : Env) (l : list A) (s : State) :
  l <> [] ->
  exists x, random_choice e l s = (inr x, with_random_pos (S (random_pos s)) s) /\ In x l.
Proof.
  intros Hl. destruct l as [|a l]; [done|].
  unfold random_choice, randbelow. monad_unfold.
  eexists. split; [reflexivity|]. apply nth_In.
  apply Nat.mod_upper_bound. done.
Qed.

Lemma random_choice_state {A} (e : Env) (l : list A) (s : State) :
  snd (random_choice e l s) = s \/ snd (random_choice e l s) = with_random_pos (S (random_pos s)) s.
Proof. destruct l; [left|right]; reflexivity. Qed.

Ltac case_filter :=
  match goal with |- context [filter ?P ?l] => destruct (filter P l) end.

Lemma candidates_for_subset techniques recent t :
  In t (candidates_for techniques recent) -> In t techniques.
Proof.
  unfold candidates_for.
  destruct (filter _ techniques) as [|c cs] eqn:Hf; [done|].
  rewrite <- Hf. rewrite <- !list_elem_of_In. intros Hin.
  by apply list_elem_of_filter in Hin as [_ ?].
Qed.

Lemma candidates_for_nonempty techniques recent :
  techniques <> [] -> candidates_for techniques recent <> [].
Proof. unfold candidates_for. by destruct (filter _ techniques). Qed.

Lemma candidates_for_all_recent techniques (ids : list string) :
  (forall t, In t techniques -> In (tech_id t) ids) ->
  candidates_for techniques (map PStr ids) = techniques.
Proof.
  intros Hall. unfold candidates_for.
  replace (filter _ techniques) with (@nil technique_entry); [done|].
  symmetry. induction techniques as [|t ts IH]; [done|].
  rewrite filter_cons.
  assert (existsb (str_eq (tech_id t)) (map PStr ids) = true) as Hex.
  { apply existsb_exists. exists (PStr (tech_id t)). split.
    - apply in_map, Hall. by left.
    - simpl. apply String.eqb_refl. }
  destruct (decide _) as [Hd|_].
  - rewrite Hex in Hd. done.
  - apply IH. intros t' Ht'. apply Hall. by right.
Qed.

Lemma load_history_eq (s : State) :
  load_history s = (loaded_history (history_file s), s).
Proof.
  unfold load_history, read_history_json. monad_unfold.
  destruct (history_file s) as [[| |v]|] eqn:Hf; cbn; rewrite ?Hf; reflexivity.
Qed.

Lemma select_technique_eq (e : Env) techniques recent_count (s : State) :
  techniques <> [] ->
  select_technique e techniques true recent_count s
  = match recent_of (history_file s) recent_count with
    | inl ex => (inl ex, s)
    | inr recent => random_choice e (candidates_for techniques recent) s
    end.
Proof.
  intros Hne. destruct techniques as [|t0 ts]; [done|].
  unfold select_technique, recent_of, recent_set, candidates_for.
  unfold mbind, M_bind, lift. rewrite load_history_eq.
  destruct (loaded_history _) as [ex|history]; [reflexivity|].
  destruct (slice_last _ _) as [ex|sl]; [reflexivity|].
  destruct (py_set sl) as [ex|recent]; [reflexivity|].
  case_filter; reflexivity.
Qed.

Lemma select_technique_no_avoid (e : Env) techniques recent_count (s : State) :
  techniques <> [] ->
  select_technique e techniques false recent_count s = random_choice e techniques s.
Proof. intros Hne. destruct techniques; [done|reflexivity]. Qed.

Lemma recent_set_strings (ids : list string) (n : Z) :
  recent_set (PList (map PStr ids)) n = inr (map PStr (PyStr.slice_from (- n) ids)).
Proof.
  unfold recent_set, slice_last, py_set.
  assert (PyStr.slice_from (- n) (map PStr ids) = map PStr (PyStr.slice_from (- n) ids)) as ->.
  { unfold PyStr.slice_from. rewrite length_map. apply List.skipn_map. }
  assert (forallb hashable (map PStr (PyStr.slice_from (- n) ids)) = true) as ->; [|done].
  apply forallb_forall. intros v Hv. apply in_map_iff in Hv as (x & <- & _). done.
Qed.

(** C5. Whatever the history [ids] that [load_history] yields, for a catalog
    that is not empty [select_technique] returns an entry of the catalog; when
    every entry of the catalog is among the last [recent_count] entries of the
    history, the exclusion is dropped and the choice is made in the whole
    catalog.  For the empty catalog it raises [ValueError]. *)
Theorem select_technique_in_catalog (e : Env) (techniques : list technique_entry)
    (avoid_recent : bool) (recent_count : Z) (s : State) (ids : list string) :
  load_history s = (inr (PList (map PStr ids)), s) ->
  (techniques <> [] ->
     (exists t s', select_technique e techniques avoid_recent recent_count s = (inr t, s')
                   /\ In t techniques)
     /\ ((forall t, In t techniques -> In (tech_id t) (last_entries recent_count ids)) ->
         select_technique e techniques avoid_recent recent_count s
         = random_choice e techniques s))
  /\ select_technique e [] avoid_recent recent_count s
     = (inl (Exn ValueError "No techniques available"), s).
Proof.
  intros Hload. split; [|reflexivity]. intros Hne.
  rewrite load_history_eq in Hload. injection Hload as Hload.
  destruct avoid_recent.
  - rewrite select_technique_eq by done. unfold recent_of.
    rewrite Hload, recent_set_strings.
    split.
    + destruct (random_choice_In e
                  (candidates_for techniques
                     (map PStr (PyStr.slice_from (- recent_count) ids))) s)
        as (t & Heq & Hin); [by apply candidates_for_nonempty|].
      exists t. eexists. split; [exact Heq|]. by apply candidates_for_subset in Hin.
    + intros Hall.
      destruct (Z.ltb_spec 0 recent_count) as [Hpos|Hle].
      * rewrite slice_from_last by done. by rewrite candidates_for_all_recent.
      * destruct techniques as [|t0 ts]; [done|]. exfalso.
        specialize (Hall t0 (or_introl eq_refl)). unfold last_entries in Hall.
        replace (Z.to_nat recent_count) with 0%nat in Hall by lia.
        rewrite Nat.sub_0_r, drop_all in Hall. done.
  - rewrite select_technique_no_avoid by done. split; [|done].
    destruct (random_choice_In e techniques s Hne) as (t & Hc & Hin). eauto.
Qed.

Lemma random_choice_fst {A} (e : Env) (l : list A) (s1 s2 : State) :
  random_pos s1 = random_pos s2 ->
  fst (random_choice e l s1) = fst (random_choice e l s2).
Proof.
  intros Hr. destruct l; [reflexivity|].
  unfold random_choice, randbelow. monad_unfold. cbn. by rewrite Hr.
Qed.

Lemma select_technique_state (e : Env) (techniques : list technique_entry)
    (avoid_recent : bool) (recent_count : Z) (s : State) :
  let s' := snd (select_technique e techniques avoid_recent recent_count s) in
  s' = s \/ s' = with_random_pos (S (random_pos s)) s.
Proof.
  cbn zeta. destruct (decide (techniques = [])) as [->|Hne]; [by left|].
  destruct avoid_recent.
  - rewrite select_technique_eq by done.
    destruct (recent_of _ _); [by left|]. apply random_choice_state.
  - rewrite select_technique_no_avoid by done. apply random_choice_state.
Qed.

(** C6, as the code has it.  The result of [select_technique] is determined
    by its arguments, the random source and the content of the history file,
    which it reads: two calls that agree on these return the same result,
    whatever else the state holds.  It writes nothing: the state after the
    call is the state before it, with at most one more draw taken from the
    random source. *)
Theorem select_technique_reads_only (e : Env) (techniques : list technique_entry)
    (avoid_recent : bool) (recent_count : Z) :
  (forall s1 s2,
      history_file s1 = history_file s2 ->
      random_pos s1 = random_pos s2 ->
      fst (select_technique e techniques avoid_recent recent_count s1)
      = fst (select_technique e techniques avoid_recent recent_count s2))
  /\ (forall s,
        let s' := snd (select_technique e techniques avoid_recent recent_count s) in
        s' = s \/ s' = with_random_pos (S (random_pos s)) s).
Proof.
  split; [|apply select_technique_state].
  destruct (decide (techniques = [])) as [->|Hne]; [reflexivity|].
  intros s1 s2 Hh Hr. destruct avoid_recent.
  - rewrite !select_technique_eq, Hh by done.
    destruct (recent_of _ _); [reflexivity|]. by apply random_choice_fst.
  - rewrite !select_technique_no_avoid by done. by apply random_choice_fst.
Qed.

(** ** History *)

Lemma save_history_persists (history : list pyval) (max_size : Z) (s : State) :
  save_history history max_size s
  = (inr tt, with_history_file (Some (Json (PList (PyStr.slice_from (- max_size) history)))) s).
Proof. reflexivity. Qed.

(** C7. For every history and every positive [max_size], the history that
    [save_history] persists has at most [max_size] entries; it is the list of
    the last [max_size] entries of the history it is given, a suffix of it, so
    the older entries are dropped and the order of the others is kept; and
    nothing is dropped from a history that has no more than [max_size]
    entries.  The program calls [save_history] in one place, with the default
    [max_size] of 20. *)
Theorem save_history_bounded (history : list pyval) (max_size : Z) (s : State) :
  0 < max_size ->
  exists kept,
    persisted_history (snd (save_history history max_size s)) = Some kept
    /\ kept = last_entries max_size history
    /\ (Z.of_nat (length kept) <= max_size)
    /\ kept `suffix_of` history
    /\ length kept = Nat.min (length history) (Z.to_nat max_size).
Proof.
  intros Hpos. rewrite save_history_persists. cbn.
  rewrite slice_from_last by done. eexists. split; [reflexivity|]. split; [reflexivity|].
  unfold last_entries. rewrite length_drop. repeat split.
  - lia.
  - apply suffix_drop.
  - lia.
Qed.

(** The bound needs a positive [max_size]: with [max_size = 0] the slice
    [history[-0:]] is the whole list.  No call of the program passes 0. *)
Lemma save_history_zero_keeps_all (history : list pyval) (s : State) :
  persisted_history (snd (save_history history 0 s)) = Some history.
Proof. rewrite save_history_persists. cbn. by rewrite slice_from_zero. Qed.

Example save_history_zero_example :
  persisted_history (snd (save_history [PStr "a"; PStr "b"; PStr "c"] 0
    (Build_State ∅ None None None 0 0 0 0 None None [] [] [] [])))
  = Some [PStr "a"; PStr "b"; PStr "c"].
Proof. reflexivity. Qed.

(** ** Run identifiers *)

Lemma hexdigit_inj (a b : N) : (a < 16)%N -> (b < 16)%N -> hexdigit a = hexdigit b -> a = b.
Proof.
  intros Ha Hb. rewrite <- (N2Nat.id a), <- (N2Nat.id b).
  assert (N.to_nat a < 16 /\ N.to_nat b < 16)%nat as [Ka Kb] by lia.
  revert Ka Kb. generalize (N.to_nat a) (N.to_nat b). clear. intros x y Kx Ky H.
  do 16 (destruct x as [|x];
         [ do 16 (destruct y as [|y];
                  [ first [reflexivity | vm_compute in H; discriminate H] |]); lia |]).
  lia.
Qed.

Lemma byte_to_N_inj (x y : byte) : Byte.to_N x = Byte.to_N y -> x = y.
Proof.
  intros H. pose proof (Byte.of_to_N x) as Hx. pose proof (Byte.of_to_N y) as Hy.
  rewrite H in Hx. congruence.
Qed.

Lemma bytes_hex_length (b : list byte) : String.length (bytes_hex b) = (2 * length b)%nat.
Proof. induction b as [|x b IH]; simpl; lia. Qed.

Lemma bytes_hex_inj (b1 b2 : list byte) : bytes_hex b1 = bytes_hex b2 -> b1 = b2.
Proof.
  revert b2. induction b1 as [|x b1 IH]; intros [|y b2] H; simpl in H; try done.
  injection H as Hhi Hlo Hrest.
  pose proof (Byte.to_N_bounded x) as Bx. pose proof (Byte.to_N_bounded y) as By.
  apply hexdigit_inj in Hhi; [|apply N.Div0.div_lt_upper_bound; lia..].
  apply hexdigit_inj in Hlo; [|apply N.mod_lt; lia..].
  f_equal; [|by apply IH].
  apply byte_to_N_inj.
  rewrite (N.div_mod (Byte.to_N x) 16), (N.div_mod (Byte.to_N y) 16) by lia.
  by rewrite Hhi, Hlo.
Qed.

Lemma generate_run_id_eq (e : Env) (s : State) :
  fst (generate_run_id e s)
  = inr (strftime_compact (clock e (clock_pos s)) +:+ "-" +:+ bytes_hex (suffix_bytes e s)).
Proof. reflexivity. Qed.

Lemma chars_length (s : string) : length (PyStr.chars s) = String.length s.
Proof. induction s as [|c s IH]; [done|]. cbn. by rewrite <- IH. Qed.

Lemma append_inj_suffix (a1 a2 b1 b2 : string) :
  String.length b1 = String.length b2 -> a1 +:+ b1 = a2 +:+ b2 -> b1 = b2.
Proof.
  intros Hlen Heq. apply (f_equal PyStr.chars) in Heq. rewrite !chars_app in Heq.
  apply app_inj_2 in Heq as [_ Heq].
  - rewrite <- (text_chars b1), <- (text_chars b2). by rewrite Heq.
  - by rewrite !chars_length.
Qed.

(** C8, as the code has it.  The identifier [generate_run_id] returns is the
    UTC time stamp to the second, a dash and the hexadecimal form of four
    bytes of entropy; two identifiers whose bytes differ are different,
    whatever the time stamps, in particular within the same second. *)
Theorem generate_run_id_distinct (e1 e2 : Env) (s1 s2 : State) :
  suffix_bytes e1 s1 <> suffix_bytes e2 s2 ->
  (exists stamp1 stamp2,
      fst (generate_run_id e1 s1) = inr (stamp1 +:+ "-" +:+ bytes_hex (suffix_bytes e1 s1))
      /\ fst (generate_run_id e2 s2) = inr (stamp2 +:+ "-" +:+ bytes_hex (suffix_bytes e2 s2))
      /\ stamp1 = strftime_compact (clock e1 (clock_pos s1))
      /\ stamp2 = strftime_compact (clock e2 (clock_pos s2)))
  /\ fst (generate_run_id e1 s1) <> fst (generate_run_id e2 s2).
Proof.
  intros Hne. split; [by eexists _, _|].
  rewrite !generate_run_id_eq. intros Heq. apply Hne, bytes_hex_inj.
  assert (String.length (bytes_hex (suffix_bytes e1 s1))
          = String.length (bytes_hex (suffix_bytes e2 s2))) as Hlen.
  { rewrite !bytes_hex_length. unfold suffix_bytes. by rewrite !length_map, !length_seq. }
  revert Heq Hlen.
  generalize (bytes_hex (suffix_bytes e1 s1)) (bytes_hex (suffix_bytes e2 s2)).
  intros h1 h2 [= Heq] Hlen.
  apply append_inj_suffix in Heq; [by injection Heq|].
  change (S (String.length h1) = S (String.length h2)). by rewrite Hlen.
Qed.

(** ** The cleanup command *)

(** C9. [cmd_cleanup], by what the run directory holds for the identifier:
    nothing, it reports the failure, exits with 1 and changes no file; a record
    whose status is already CLEANED, it reports so, exits with 0 and changes no
    file; any other record, it calls [stratus revert] and then
    [stratus cleanup], whatever the exit code of either, and saves under the
    identifier of the record a record [r'] whose status is CLEANED, whose
    [cleaned_at] is the current time and whose other fields are those of the
    record it loaded, and exits with 0.  The identifier given and the
    identifier of the record are taken to be file names, and the child
    processes to start.  (A file that does not decode makes it raise.) *)
Theorem cmd_cleanup_spec (e : Env) (rid : string) (s : State) :
  plain_name rid ->
  match runs_dir s !! rid with
  | None =>
      cmd_cleanup e rid s
      = (inr 1, with_printed (printed s ++ [(Stderr, "ERROR: Run " +:+ rid +:+ " not found")]) s)
  | Some Corrupt => exists ex, cmd_cleanup e rid s = (inl ex, s)
  | Some (Stored r) =>
      if String.eqb (status r) (RunStatus_value CLEANED) then
        cmd_cleanup e rid s
        = (inr 0, with_printed (printed s ++ [(Stdout, "Run " +:+ rid +:+ " is already cleaned.")]) s)
      else
        plain_name (run_id r) ->
        exists s' r',
          cmd_cleanup e rid s = (inr 0, s')
          /\ procs s' =
               (procs s ++
                [ call_of e (proc_pos s) ["stratus"; "revert"; technique r] (region_env (region r));
                  call_of e (S (proc_pos s)) ["stratus"; "cleanup"; technique r]
                    (region_env (region r)) ])%list
          /\ status r' = "cleaned"
          /\ cleaned_at r' = Some (isoformat (clock e (clock_pos s)))
          /\ (run_id r' = run_id r /\ technique r' = technique r /\ account r' = account r
              /\ region r' = region r /\ mode r' = mode r
              /\ tactic_filter r' = tactic_filter r /\ started_at r' = started_at r
              /\ warmup_at r' = warmup_at r /\ detonated_at r' = detonated_at r
              /\ error r' = error r)
          /\ runs_dir s' = <[run_id r := Stored r']> (runs_dir s)
          /\ saved s' = (saved s ++ [r'])%list
          /\ history_file s' = history_file s
          /\ lock_owner s' = lock_owner s
  end.
Proof.
  intros _. unfold cmd_cleanup, RunRecord_load. exec.
  destruct (runs_dir s !! rid) as [[|r]|] eqn:Hlook; exec.
  - eexists. reflexivity.
  - destruct (String.eqb (status r) (RunStatus_value CLEANED)) eqn:Hst.
    + reflexivity.
    + intros _. unfold run_cmd, subprocess, now_iso, datetime_now, RunRecord_save. exec.
      eexists _, (set_status (RunStatus_value CLEANED)
                    (set_cleaned_at (Some (isoformat (clock e (clock_pos s)))) r)).
      split; [reflexivity|]. cbn. rewrite <- !app_assoc. repeat split; reflexivity.
  - reflexivity.
Qed.

(** ** The run command *)

(** *** State changes of the steps *)

Ltac fields :=
  cbn [runs_dir history_file lock_file lock_owner clock_pos random_pos entropy_pos proc_pos
       lock_fd run_record saved procs printed slept
       with_runs_dir with_history_file with_lock_file with_lock_owner with_clock_pos
       with_random_pos with_entropy_pos with_proc_pos with_lock_fd with_run_record
       with_saved with_procs with_printed with_slept
       log_call store tick say fmap option_fmap option_map] in *.

Ltac run := exec; fields.

Lemma run_cmd_eq (e : Env) cmd (check : bool) env (s : State) :
  let c := call_of e (proc_pos s) cmd env in
  run_cmd e cmd check env s
  = (if check && negb (succeeded c)
     then inl (Exn RuntimeError (command_failed c))
     else inr (call_result c),
     log_call c s).
Proof.
  unfold run_cmd, subprocess, succeeded, command_failed, call_of. run.
  destruct (check && _); reflexivity.
Qed.

Lemma warmup_step_eq (e : Env) tech env (s : State) (r : RunRecord) :
  run_record s = Some r ->
  let c := call_of e (proc_pos s) ["stratus"; "warmup"; tech_id tech] env in
  warmup_step e tech env s
  = if succeeded c
    then (inr None, store (warmed (isoformat (clock e (clock_pos s))) r) (tick (log_call c s)))
    else (inr (Some 1),
          say Stderr ("ERROR: Warmup failed: " +:+ command_failed c)
            (store (failed_with ("Warmup failed: " +:+ command_failed c) r) (log_call c s))).
Proof.
  intros Hr c. unfold warmup_step. unfold try_except at 1.
  unfold mbind at 1, M_bind at 1. rewrite run_cmd_eq. fold c.
  cbn [andb]. destruct (succeeded c); cbn [negb].
  - unfold now_iso, datetime_now, assign, save_run_record, RunRecord_save. run.
    rewrite Hr. reflexivity.
  - unfold assign, save_run_record, RunRecord_save. run. rewrite Hr. reflexivity.
Qed.

Lemma detonate_step_eq (e : Env) args tech env (s : State) (r : RunRecord) :
  run_record s = Some r ->
  let c := call_of e (proc_pos s) (detonate_cmd (is_validate args) (tech_id tech)) env in
  detonate_step e args tech env s
  = if succeeded c
    then (inr None,
          store (detonated (is_validate args)
                   (isoformat (clock e (clock_pos s)))
                   (isoformat (clock e (S (clock_pos s)))) r)
            (with_clock_pos
               (if is_validate args then S (S (clock_pos s)) else S (clock_pos s))
               (log_call c s)))
    else (inr (Some 1),
          say Stderr ("ERROR: Detonate failed: " +:+ command_failed c)
            (store (failed_with ("Detonate failed: " +:+ command_failed c) r) (log_call c s))).
Proof.
  intros Hr c. unfold detonate_step. unfold try_except at 1.
  unfold mbind at 1, M_bind at 1. rewrite run_cmd_eq.
  fold (is_validate args). fold (detonate_cmd (is_validate args) (tech_id tech)). fold c.
  cbn [andb]. destruct (succeeded c); cbn [negb].
  - unfold now_iso, datetime_now, assign, save_run_record, RunRecord_save, detonated.
    destruct (is_validate args); run; rewrite Hr; reflexivity.
  - unfold assign, save_run_record, RunRecord_save. run. rewrite Hr. reflexivity.
Qed.

Lemma dwell_step_quiet (e : Env) args (s : State) :
  exists r s', dwell_step e args s = (r, s') /\ quiet s s'.
Proof.
  unfold dwell_step, random_randint, randbelow, time_sleep, quiet.
  destruct (_ || _); run; [|by eexists _, _].
  destruct (_ <=? _); run; [|by eexists _, _].
  destruct (0 <? _); run; by eexists _, _.
Qed.

Lemma update_history_eq tech (s : State) :
  update_history tech s
  = match appended_to (history_file s) (tech_id tech) with
    | inl ex => (inl ex, s)
    | inr l => (inr tt, with_history_file (Some (Json (PList (PyStr.slice_from (- 20) l)))) s)
    end.
Proof.
  unfold update_history, appended_to. unfold mbind at 1, M_bind at 1. rewrite load_history_eq.
  destruct (loaded_history _) as [ex|history]; [reflexivity|].
  unfold mbind, M_bind, lift. destruct (py_append _ _); reflexivity.
Qed.

(** *** The paths of a run *)

Ltac app_eq :=
  first [ reflexivity | symmetry; apply app_nil_r | rewrite <- !app_assoc; reflexivity ].

Ltac requiet :=
  repeat match goal with
         | H : ?proj ?sd = _ |- context [?proj ?sd] => is_var sd; rewrite H
         end.

Ltac effect :=
  unfold run_effect; fields; requiet; fields; eexists _, _;
  split; [app_eq|]; split; [app_eq|];
  split; [reflexivity|]; split; [reflexivity|]; split; [reflexivity|]; cbn [app].

Lemma run_failed_no_record (ex : exn) (s : State) :
  run_record s = None ->
  run_failed ex s = (inr 1, say Stderr ("ERROR: " +:+ exn_msg ex) s).
Proof. intros Hr. unfold run_failed. run. rewrite Hr. reflexivity. Qed.

Lemma run_failed_record (ex : exn) (s : State) (r : RunRecord) :
  run_record s = Some r ->
  run_failed ex s
  = (inr 1, store (failed_with (exn_msg ex) r) (say Stderr ("ERROR: " +:+ exn_msg ex) s)).
Proof.
  intros Hr. unfold run_failed, assign, save_run_record, RunRecord_save. run.
  do 3 (rewrite ?Hr; run). reflexivity.
Qed.

Lemma get_aws_identity_spec (e : Env) (s : State) :
  exists r, get_aws_identity e s = (r, log_call (call_of e (proc_pos s) identity_cmd []) s).
Proof.
  unfold get_aws_identity. unfold mbind at 1, M_bind at 1. rewrite run_cmd_eq.
  fold identity_cmd. destruct (_ && _); [by eexists|].
  destruct (json_loads e _) as [data|]; [|by eexists].
  unfold mbind, M_bind, lift.
  destruct (subscript data "Account"); [by eexists|].
  destruct (subscript data "Arn"); by eexists.
Qed.

Lemma get_techniques_spec (e : Env) tactic (s : State) :
  exists r,
    get_techniques e tactic s
    = (r, log_call (call_of e (proc_pos s) (catalog_cmd tactic) []) s).
Proof.
  unfold get_techniques. unfold mbind at 1, M_bind at 1. fold (catalog_cmd tactic).
  rewrite run_cmd_eq. destruct (_ && _); by eexists.
Qed.

Lemma select_technique_spec (e : Env) techniques avoid_recent recent_count (s : State) :
  exists r s',
    select_technique e techniques avoid_recent recent_count s = (r, s')
    /\ (s' = s \/ s' = with_random_pos (S (random_pos s)) s).
Proof.
  pose proof (select_technique_state e techniques avoid_recent recent_count s) as H.
  cbn zeta in H.
  destruct (select_technique e techniques avoid_recent recent_count s) as [r s'].
  by exists r, s'.
Qed.

Lemma generate_run_id_state (e : Env) (s : State) :
  exists rid,
    generate_run_id e s = (inr rid, with_entropy_pos (entropy_pos s + 4)%nat (tick s)).
Proof. unfold generate_run_id, datetime_now, os_urandom. run. eexists. reflexivity. Qed.

Lemma now_iso_eq (e : Env) (s : State) :
  now_iso e s = (inr (isoformat (clock e (clock_pos s))), tick s).
Proof. reflexivity. Qed.

Lemma save_run_record_eq (s : State) (r : RunRecord) :
  run_record s = Some r -> save_run_record s = (inr tt, store r s).
Proof.
  intros Hr. unfold save_run_record, RunRecord_save, store. run. rewrite Hr.
  unfold with_runs_dir, with_saved, with_run_record. fields. by rewrite Hr.
Qed.

Ltac next := cbv beta iota zeta; cbn [negb andb orb]; cbv beta iota zeta; fields.

Lemma str_eq_true (a : string) (v : pyval) : str_eq a v = true -> v = PStr a.
Proof.
  destruct v; try discriminate. cbn. intros H. apply String.eqb_eq in H. by subst.
Qed.

Ltac use_quiet :=
  repeat match goal with
         | H : quiet _ _ |- _ =>
             destruct H as (?Hq & ?Hq & ?Hq & ?Hq & ?Hq & ?Hq & ?Hq & ?Hq & ?Hq & ?Hq)
         end.

Ltac close_path := eexists _, _; split; [reflexivity|]; effect.

Ltac record_facts :=
  lazymatch goal with
  | |- setup_call _ _ => assumption
  | |- started_record _ _ => by repeat split
  | |- warmup_call _ _ => by split
  | |- detonate_call _ _ _ => by split
  | |- _ = _ => first [assumption | reflexivity]
  end.

Lemma protected_run_effect (e : Env) (args : Args) (s : State) :
  run_record s = None ->
  exists code s',
    try_except (run_attack e args) any_exception run_failed s = (inr code, s')
    /\ run_effect e args s s' code.
Proof.
  intros Hnone. unfold try_except, run_attack.
  cbv beta iota zeta delta [mbind M_bind mret M_ret modify print any_exception].
  destruct (get_aws_identity_spec e s) as (r1 & ->).
  set (ci := call_of e (proc_pos s) identity_cmd []).
  assert (setup_call args ci) as Hci by (by left).
  destruct r1 as [ex|[acct arn]]; next.
  { rewrite run_failed_no_record by done. close_path.
    apply path_no_record. by repeat constructor. }
  destruct (str_eq (arg_account args) acct) eqn:Hacct; next.
  2:{ close_path. apply path_no_record. by repeat constructor. }
  apply str_eq_true in Hacct. subst acct. cbn [py_str].
  match goal with |- context [get_techniques e ?t ?st] =>
    destruct (get_techniques_spec e t st) as (r2 & ->) end. fields.
  set (cl := call_of e (S (proc_pos s)) (catalog_cmd (arg_tactic args)) []).
  assert (setup_call args cl) as Hcl by (by right).
  destruct r2 as [ex|techniques]; next.
  { rewrite run_failed_no_record by done. close_path.
    apply path_no_record. by repeat constructor. }
  destruct techniques as [|t0 ts]; next.
  { destruct (truthy (arg_tactic args)); next; close_path;
      apply path_no_record; by repeat constructor. }
  match goal with |- context [select_technique e ?a ?b ?c ?st] =>
    destruct (select_technique_spec e a b c st) as (r3 & s3 & -> & Hs3) end.
  destruct r3 as [ex|tech]; next.
  { rewrite run_failed_no_record by (destruct Hs3 as [-> | ->]; done).
    destruct Hs3 as [-> | ->]; close_path; apply path_no_record; by repeat constructor. }
  destruct (generate_run_id_state e s3) as (rid & ->). next.
  rewrite now_iso_eq. next.
  match goal with |- context [with_run_record (Some ?r) _] => set (r0 := r) end.
  rewrite (save_run_record_eq _ r0) by reflexivity. next.
  assert (started_record args r0) as Hr0 by (by repeat split).
  assert (warmup_call r0
            (call_of e (S (S (proc_pos s))) ["stratus"; "warmup"; tech_id tech]
               (region_env (arg_region args)))) as Hcw by (by split).
  destruct Hs3 as [-> | ->]; destruct (truthy (arg_tactic args)); next.
  all: rewrite (warmup_step_eq e tech _ _ r0) by reflexivity; next.
  all: set (cw := call_of e (S (S (proc_pos s))) _ _) in *.
  all: destruct (succeeded cw) eqn:Hw; next.
  all: try (close_path; apply path_warmup_failed; record_facts).
  all: match goal with |- context [dwell_step _ _ ?st] =>
         destruct (dwell_step_quiet e args st) as (rd & sd & -> & Hq) end.
  all: use_quiet; fields.
  all: match goal with H : run_record ?x = Some ?r |- _ => is_var x; set (r1 := r) in * end.
  all: destruct rd as [ex|[]]; next.
  all: try (rewrite (run_failed_record _ sd r1) by done; close_path;
            apply path_dwell_failed; record_facts).
  all: rewrite (detonate_step_eq e args tech _ sd r1) by done; next.
  all: match goal with H : proc_pos ?x = _ |- _ => is_var x; rewrite H in * end.
  all: set (cd := call_of e (S (S (S (proc_pos s)))) _ _) in *.
  all: assert (detonate_call args r0 cd) as Hcd by (by split).
  all: destruct (succeeded cd) eqn:Hd; next.
  all: try (close_path; apply path_detonate_failed; record_facts).
  all: rewrite update_history_eq.
  all: destruct (appended_to _ _) as [ex|l]; next.
  all: try (erewrite run_failed_record by (fields; reflexivity); close_path;
            eapply path_history_failed; record_facts).
  all: close_path; eapply path_completed; record_facts.
Qed.

(** What [cmd_run] does, whatever the lock, the tools and the files hold. *)
Lemma cmd_run_effect (e : Env) (args : Args) (s : State) :
  exists code s',
    cmd_run e args s = (inr code, s')
    /\ lock_fd s' = None
    /\ exists calls saves,
         procs s' = (procs s ++ calls)%list
         /\ saved s' = (saved s ++ saves)%list
         /\ runs_dir s' = after_saves saves (runs_dir s)
         /\ lock_owner s' = lock_owner s
         /\ run_path e args calls saves code
         /\ (lock_owner s <> None -> calls = [] /\ saves = []).
Proof.
  unfold cmd_run, LockManager_init.
  cbv beta iota zeta delta [mbind M_bind mret M_ret modify print].
  destruct (lock_owner s) as [p|] eqn:Hown.
  - rewrite (acquire_busy e _ p) by done. next.
    match goal with |- context [get_holder_pid ?st] =>
      destruct (get_holder_pid_returns st) as (r & ->) end.
    next. eexists _, _. split; [reflexivity|].
    destruct (lock_file s); fields; (split; [reflexivity|]); exists [], [];
      rewrite !app_nil_r; repeat split; try done; by apply path_no_record.
  - rewrite acquire_free by done. next. unfold try_finally.
    match goal with |- context [try_except _ _ _ ?st] =>
      destruct (protected_run_effect e args st) as (code & s1 & -> & Heff);
        [reflexivity|] end.
    destruct Heff as (calls & saves & Hp & Hs & Hd & Ho & Hf & Hpath). fields.
    unfold release. run. rewrite Hf. run.
    eexists _, _. split; [reflexivity|]. fields. split; [reflexivity|].
    exists calls, saves. by repeat split.
Qed.

(** *** What every run does *)

Lemma cmd_run_summary (e : Env) (args : Args) (s : State) :
  let s' := snd (cmd_run e args s) in
  exists code,
    cmd_run e args s = (inr code, s')
    /\ procs s' = (procs s ++ new_calls s s')%list
    /\ saved s' = (saved s ++ new_saves s s')%list
    /\ lock_fd s' = None
    /\ lock_owner s' = lock_owner s
    /\ runs_dir s' = after_saves (new_saves s s') (runs_dir s)
    /\ run_path e args (new_calls s s') (new_saves s s') code
    /\ (lock_owner s <> None -> new_calls s s' = []).
Proof.
  destruct (cmd_run_effect e args s)
    as (code & s' & Heq & Hfd & calls & saves & Hp & Hs & Hd & Ho & Hpath & Hbusy).
  rewrite Heq. cbn [snd]. exists code. unfold new_calls, new_saves.
  rewrite Hp, Hs, !drop_app_length. repeat split; try done. intros H. by apply Hbusy.
Qed.

Lemma run_path_statuses (e : Env) (args : Args) calls saves code :
  run_path e args calls saves code ->
  In (map status saves) (map (map RunStatus_value) (run_status_paths (is_validate args)))
  /\ (code = 0 \/ code = 1)
  /\ (code = 0 <->
      map status saves
      = map RunStatus_value
          [STARTED; WARMUP_COMPLETE; if is_validate args then CLEANED else DETONATED]).
Proof.
  intros [ | ? ? ? ? _ _ (Hst & _) _ _
           | ? ? ? ? ? ? _ _ (Hst & _) _ _
           | ? ? ? ? ? ? _ _ (Hst & _) _ _ _ _
           | ? ? ? ? ? ? ? _ _ (Hst & _) _ _ _ _
           | ? ? ? ? ? ? ? ? _ _ (Hst & _) _ _ _ _ ];
    cbn [map status failed_with warmed set_error set_status set_warmup_at];
    unfold detonated, run_status_paths; rewrite ?Hst; destruct (is_validate args); cbn;
    (split; [tauto|]); (split; [tauto|]); split; (done || discriminate).
Qed.

Lemma run_path_final (e : Env) (args : Args) calls saves code (dir : gmap string run_file) :
  run_path e args calls saves code ->
  forall r, last saves = Some r -> after_saves saves dir !! run_id r = Some (Stored r).
Proof.
  intros [ | | | | | ] r Hlast; cbn in Hlast; try discriminate;
    injection Hlast as <-; unfold after_saves; cbn [fold_left];
    apply lookup_insert_eq.
Qed.

Lemma setup_call_cmd (args : Args) (c : proc_call) :
  setup_call args c ->
  ~ detonate_invocation c /\ ~ warmup_invocation c.
Proof.
  intros [H|H]; split; intros (tid & Hc); try destruct Hc as (rest & Hc);
    rewrite H in Hc; discriminate.
Qed.

Lemma warmup_call_cmd (r : RunRecord) (c : proc_call) :
  warmup_call r c -> ~ detonate_invocation c.
Proof. intros [H _] (tid & rest & Hc). rewrite H in Hc. discriminate. Qed.

Lemma detonate_call_cmd (args : Args) (r : RunRecord) (c : proc_call) :
  detonate_call args r c -> ~ warmup_invocation c.
Proof.
  intros [H _] (tid & Hc). rewrite H in Hc. unfold detonate_cmd in Hc.
  destruct (is_validate args); discriminate.
Qed.

Lemma run_path_same_record (e : Env) (args : Args) calls saves code :
  run_path e args calls saves code ->
  forall r r', In r saves -> In r' saves -> run_id r = run_id r'.
Proof.
  assert (forall (x : string) (l : list RunRecord),
            Forall (fun r => run_id r = x) l ->
            forall r r', In r l -> In r' l -> run_id r = run_id r') as Hall.
  { intros x l Hl r r' Hr Hr'. rewrite Forall_forall in Hl.
    rewrite (Hl r), (Hl r') by by apply list_elem_of_In. done. }
  intros [ | ? ? ? r0 | ? ? ? r0 | ? ? ? ? r0 | ? ? ? ? r0 | ? ? ? ? r0 ];
    [by intros ? ? []|..]; apply (Hall (run_id r0));
    repeat constructor; unfold detonated; by destruct (is_validate args).
Qed.

(** C1, as the code has it.  [cmd_run] always returns an exit code, and the
    statuses of the versions of the record it writes, in order, are one of:
    nothing; STARTED, FAILED; STARTED, WARMUP_COMPLETE, FAILED;
    STARTED, WARMUP_COMPLETE, X; STARTED, WARMUP_COMPLETE, X, FAILED; where X
    is DETONATED in TRAIN mode and CLEANED in VALIDATE mode.  All versions
    belong to one record, and the exit code is 0 exactly on the path that ends
    in X.  (What a reader observes at any time is the last version of a prefix
    of that sequence.) *)
Theorem run_status_sequence (e : Env) (args : Args) (s : State) :
  let s' := snd (cmd_run e args s) in
  exists code path,
    cmd_run e args s = (inr code, s')
    /\ saved s' = (saved s ++ new_saves s s')%list
    /\ In path (run_status_paths (is_validate args))
    /\ map status (new_saves s s') = map RunStatus_value path
    /\ (forall r r', In r (new_saves s s') -> In r' (new_saves s s') -> run_id r = run_id r')
    /\ (code = 0 <->
        path = [STARTED; WARMUP_COMPLETE; if is_validate args then CLEANED else DETONATED]).
Proof.
  intros s'. destruct (cmd_run_summary e args s) as (code & Heq & _ & Hs & _ & _ & _ & Hpath & _).
  fold s' in Heq, Hs, Hpath.
  destruct (run_path_statuses e args _ _ _ Hpath) as (Hin & _ & Hcode).
  apply in_map_iff in Hin as (path & Hmap & Hin).
  exists code, path. repeat split; try done.
  - by eapply run_path_same_record.
  - intros Hc. apply Hcode in Hc. rewrite <- Hmap in Hc.
    unfold run_status_paths in Hin. cbn in Hin.
    destruct Hin as [<-|[<-|[<-|[<-|[<-|[]]]]]]; destruct (is_validate args); done.
  - intros ->. by apply Hcode.
Qed.

(** C2, as the code has it.  In a VALIDATE run whose detonation call
    succeeds, the version of the record saved by the detonation step has
    status CLEANED; its [detonated_at] and [cleaned_at] come from two
    consecutive readings of the clock, the second for [cleaned_at].  The final
    record carries these two time stamps; it is that version when the run
    exits with 0, and otherwise that version marked FAILED. *)
Theorem validate_run_cleaned (e : Env) (args : Args) (s : State) (c : proc_call) :
  let s' := snd (cmd_run e args s) in
  arg_mode args = RunMode_value VALIDATE ->
  In c (new_calls s s') ->
  detonate_invocation c ->
  succeeded c = true ->
  exists r rf k,
    In r (new_saves s s')
    /\ status r = RunStatus_value CLEANED
    /\ detonated_at r = Some (isoformat (clock e k))
    /\ cleaned_at r = Some (isoformat (clock e (S k)))
    /\ runs_dir s' !! run_id r = Some (Stored rf)
    /\ detonated_at rf = detonated_at r
    /\ cleaned_at rf = cleaned_at r
    /\ (fst (cmd_run e args s) = inr 0 -> rf = r)
    /\ (rf = r \/ status rf = RunStatus_value FAILED).
Proof.
  intros s' Hmode Hin Hdet Hok.
  destruct (cmd_run_summary e args s) as (code & Heq & _ & _ & _ & _ & Hdir & Hpath & _).
  fold s' in Heq, Hdir, Hpath. rewrite Heq, Hdir. cbn [fst].
  assert (is_validate args = true) as Hv by (unfold is_validate; rewrite Hmode; done).
  pose proof (run_path_final e args _ _ _ (runs_dir s) Hpath) as Hfinal.
  revert Hin Hfinal.
  destruct Hpath as [ calls Hsetup
                    | ci cl cw r0 Hci Hcl _ Hcw _
                    | ci cl cw r0 t msg Hci Hcl _ Hcw _
                    | ci cl cw cd r0 t Hci Hcl _ Hcw _ Hcd Hfail
                    | ci cl cw cd r0 t k Hci Hcl _ Hcw _ Hcd _
                    | ci cl cw cd r0 t k msg Hci Hcl _ Hcw _ Hcd _ ];
    intros Hin Hfinal.
  - rewrite Forall_forall in Hsetup. apply list_elem_of_In, Hsetup in Hin.
    by apply setup_call_cmd in Hin as [? _].
  - destruct Hin as [<-|[<-|[<-|[]]]];
      [by apply setup_call_cmd in Hci as [? _] | by apply setup_call_cmd in Hcl as [? _]
      | by apply warmup_call_cmd in Hcw].
  - destruct Hin as [<-|[<-|[<-|[]]]];
      [by apply setup_call_cmd in Hci as [? _] | by apply setup_call_cmd in Hcl as [? _]
      | by apply warmup_call_cmd in Hcw].
  - destruct Hin as [<-|[<-|[<-|[<-|[]]]]];
      [by apply setup_call_cmd in Hci as [? _] | by apply setup_call_cmd in Hcl as [? _]
      | by apply warmup_call_cmd in Hcw | congruence].
  - rewrite Hv in *. eexists _, _, k. split; [right; right; left; reflexivity|].
    repeat split; try reflexivity.
    + apply Hfinal. reflexivity.
    + by left.
  - rewrite Hv in *.
    set (r := detonated true (isoformat (clock e k)) (isoformat (clock e (S k)))
                (warmed t r0)) in *.
    exists r, (failed_with msg r), k. split; [right; right; left; reflexivity|].
    repeat split; try reflexivity.
    + apply (Hfinal _ eq_refl).
    + discriminate.
    + by right.
Qed.

(** C4. [cmd_run] returns an exit code from every state; when it returns the
    process holds no descriptor on the lock and the lock has the owner it had
    before, so a run that found the lock free leaves it free, and it can be
    acquired again at once.  When the warmup call of the run fails, the run
    exits with 1, the lock is free, and the last version of the record, the
    one found in the run directory, has status FAILED and an error that
    contains the description of the failed call. *)
Theorem warmup_failure_and_release (e : Env) (args : Args) (s : State) :
  let s' := snd (cmd_run e args s) in
  (exists code, cmd_run e args s = (inr code, s'))
  /\ lock_fd s' = None
  /\ lock_owner s' = lock_owner s
  /\ (lock_owner s = None -> forall e', fst (acquire e' s') = inr true)
  /\ (forall c,
        In c (new_calls s s') -> warmup_invocation c -> succeeded c = false ->
        fst (cmd_run e args s) = inr 1
        /\ lock_owner s' = None
        /\ exists r,
             last (new_saves s s') = Some r
             /\ runs_dir s' !! run_id r = Some (Stored r)
             /\ status r = RunStatus_value FAILED
             /\ error r = Some ("Warmup failed: " +:+ command_failed c)).
Proof.
  intros s'.
  destruct (cmd_run_summary e args s)
    as (code & Heq & _ & _ & Hfd & Hown & Hdir & Hpath & Hbusy).
  fold s' in Heq, Hfd, Hown, Hdir, Hpath, Hbusy.
  split; [by exists code|]. split; [done|]. split; [done|]. split.
  { intros Hfree e'. rewrite acquire_free by congruence. done. }
  intros c Hin Hwarm Hfail. rewrite Heq, Hdir. cbn [fst].
  assert (lock_owner s' = None) as Hreleased.
  { rewrite Hown. destruct (lock_owner s) as [p|] eqn:Hp; [|done].
    rewrite Hbusy in Hin by done. destruct Hin. }
  pose proof (run_path_final e args _ _ _ (runs_dir s) Hpath) as Hfinal.
  revert Hin Hfinal.
  destruct Hpath as [ calls Hsetup
                    | ci cl cw r0 Hci Hcl _ Hcw Hw
                    | ci cl cw r0 t msg Hci Hcl _ Hcw Hw
                    | ci cl cw cd r0 t Hci Hcl _ Hcw Hw Hcd _
                    | ci cl cw cd r0 t k Hci Hcl _ Hcw Hw Hcd _
                    | ci cl cw cd r0 t k msg Hci Hcl _ Hcw Hw Hcd _ ];
    intros Hin Hfinal.
  - rewrite Forall_forall in Hsetup. apply list_elem_of_In, Hsetup in Hin.
    by apply setup_call_cmd in Hin as [_ ?].
  - destruct Hin as [<-|[<-|[<-|[]]]];
      [by apply setup_call_cmd in Hci as [_ ?] | by apply setup_call_cmd in Hcl as [_ ?]|].
    split; [done|]. split; [done|]. eexists. split; [reflexivity|].
    split; [apply (Hfinal _ eq_refl)|]. by split.
  - destruct Hin as [<-|[<-|[<-|[]]]];
      [by apply setup_call_cmd in Hci as [_ ?] | by apply setup_call_cmd in Hcl as [_ ?]
      | congruence].
  - destruct Hin as [<-|[<-|[<-|[<-|[]]]]];
      [by apply setup_call_cmd in Hci as [_ ?] | by apply setup_call_cmd in Hcl as [_ ?]
      | congruence | by apply detonate_call_cmd in Hcd].
  - destruct Hin as [<-|[<-|[<-|[<-|[]]]]];
      [by apply setup_call_cmd in Hci as [_ ?] | by apply setup_call_cmd in Hcl as [_ ?]
      | congruence | by apply detonate_call_cmd in Hcd].
  - destruct Hin as [<-|[<-|[<-|[<-|[]]]]];
      [by apply setup_call_cmd in Hci as [_ ?] | by apply setup_call_cmd in Hcl as [_ ?]
      | congruence | by apply detonate_call_cmd in Hcd].
Qed.

(** * Concrete runs *)

Example get_techniques_sample :
  fst (get_techniques (sample_env 1 0 0) None initial_state) = inr sample_catalog.
Proof. vm_compute. reflexivity. Qed.

Example train_run_statuses :
  let s' := snd (cmd_run (sample_env 1 0 0) (sample_args TRAIN) initial_state) in
  map status (saved s') = map RunStatus_value [STARTED; WARMUP_COMPLETE; DETONATED]
  /\ history_file s' = Some (Json (PList [PStr "aws.persistence.iam-backdoor-user"]))
  /\ lock_owner s' = None.
Proof. vm_compute. repeat split; reflexivity. Qed.

Example dwell_range_failure :
  let args := {| arg_account := "123456789012"; arg_region := "us-east-1";
                 arg_mode := RunMode_value TRAIN; arg_tactic := Some "persistence";
                 arg_dwell_min := 5; arg_dwell_max := 1;
                 arg_allow_repeat := true; arg_avoid_last_n := 5 |} in
  let r := cmd_run (sample_env 1 0 0) args initial_state in
  fst r = inr 1
  /\ map status (saved (snd r)) = map RunStatus_value [STARTED; WARMUP_COMPLETE; FAILED]
  /\ (error <$> last (saved (snd r))) = Some (Some "empty range for randrange()")
  /\ lock_owner (snd r) = None.
Proof. vm_compute. repeat split; reflexivity. Qed.

Example history_failure_after_detonation :
  let s := with_history_file (Some (Json (PStr "abc"))) initial_state in
  let r := cmd_run (sample_env 1 0 0) (sample_args VALIDATE) s in
  fst r = inr 1
  /\ map status (saved (snd r))
     = map RunStatus_value [STARTED; WARMUP_COMPLETE; CLEANED; FAILED].
Proof. vm_compute. split; reflexivity. Qed.

(** C1 as claimed fails: a VALIDATE run that succeeds writes STARTED,
    WARMUP_COMPLETE, CLEANED. *)
Lemma validate_run_skips_detonated :
  let s' := snd (cmd_run (sample_env 1 0 0) (sample_args VALIDATE) initial_state) in
  fst (cmd_run (sample_env 1 0 0) (sample_args VALIDATE) initial_state) = inr 0
  /\ map status (saved s') = map RunStatus_value [STARTED; WARMUP_COMPLETE; CLEANED]
  /\ ~ claimed_status_sequence (map status (saved s')).
Proof.
  cbv zeta. split; [vm_compute; reflexivity|].
  assert (map status (saved (snd (cmd_run (sample_env 1 0 0) (sample_args VALIDATE)
                                    initial_state)))
          = map RunStatus_value [STARTED; WARMUP_COMPLETE; CLEANED]) as ->
    by (vm_compute; reflexivity).
  split; [reflexivity|].
  intros [[k Hk]|[H|H]]; cbn in *; discriminate.
Qed.

(** C2 as claimed fails: the two time stamps of a VALIDATE run differ as soon
    as the clock moves between the two readings. *)
Lemma validate_run_timestamps_differ :
  let r := cmd_run (sample_env 1 0 0) (sample_args VALIDATE) initial_state in
  fst r = inr 0
  /\ exists rec,
       runs_dir (snd r) !! "20240115T120000Z-deadbeef" = Some (Stored rec)
       /\ status rec = RunStatus_value CLEANED
       /\ detonated_at rec = Some "2024-01-15T12:00:00.004000+00:00"
       /\ cleaned_at rec = Some "2024-01-15T12:00:00.005000+00:00"
       /\ cleaned_at rec <> detonated_at rec.
Proof.
  cbv zeta. split; [vm_compute; reflexivity|].
  eexists. split; [vm_compute; reflexivity|].
  split; [reflexivity|]. split; [reflexivity|]. split; [reflexivity|]. discriminate.
Qed.

Lemma validate_run_cleaned_witness :
  exists r rf k,
    In r (new_saves initial_state
            (snd (cmd_run (sample_env 1 0 0) (sample_args VALIDATE) initial_state)))
    /\ status r = RunStatus_value CLEANED
    /\ detonated_at r = Some (isoformat (clock (sample_env 1 0 0) k))
    /\ cleaned_at r = Some (isoformat (clock (sample_env 1 0 0) (S k)))
    /\ runs_dir (snd (cmd_run (sample_env 1 0 0) (sample_args VALIDATE) initial_state))
         !! run_id r = Some (Stored rf)
    /\ rf = r.
Proof.
  destruct (validate_run_cleaned (sample_env 1 0 0) (sample_args VALIDATE) initial_state
              sample_detonate_call)
    as (r & rf & k & Hin & Hst & Hd & Hc & Hlook & _ & _ & Hfinal & _).
  - reflexivity.
  - vm_compute. right. right. right. left. reflexivity.
  - exists "aws.persistence.iam-backdoor-user", ["--cleanup"]. reflexivity.
  - reflexivity.
  - exists r, rf, k.
    split; [exact Hin|]. split; [exact Hst|]. split; [exact Hd|]. split; [exact Hc|].
    split; [exact Hlook|]. apply Hfinal. vm_compute. reflexivity.
Defined.

Lemma warmup_failure_witness :
  let s' := snd (cmd_run (sample_env 1 1 0) (sample_args TRAIN) initial_state) in
  fst (cmd_run (sample_env 1 1 0) (sample_args TRAIN) initial_state) = inr 1
  /\ lock_owner s' = None
  /\ fst (acquire (sample_env 2 0 0) s') = inr true
  /\ exists r,
       last (new_saves initial_state s') = Some r
       /\ runs_dir s' !! run_id r = Some (Stored r)
       /\ status r = RunStatus_value FAILED
       /\ error r = Some ("Warmup failed: " +:+ command_failed sample_warmup_call).
Proof.
  cbv zeta.
  destruct (warmup_failure_and_release (sample_env 1 1 0) (sample_args TRAIN) initial_state)
    as (_ & _ & _ & Hagain & Hwarm).
  destruct (Hwarm sample_warmup_call) as (Hcode & Hfree & Hrec).
  - vm_compute. right. right. left. reflexivity.
  - exists "aws.persistence.iam-backdoor-user". reflexivity.
  - reflexivity.
  - split; [exact Hcode|]. split; [exact Hfree|]. split; [|exact Hrec].
    apply Hagain. reflexivity.
Defined.

Lemma get_holder_pid_witness :
  get_holder_pid held_state = (inr (Some 77), held_state).
Proof.
  destruct (get_holder_pid_total held_state) as (r & Heq & _ & _ & _ & Hsome).
  assert (r = Some 77) as ->; [|exact Heq].
  apply Hsome. exists (pretty 77 +:+ NL). split; reflexivity.
Defined.

Lemma busy_run_witness :
  lock_owner held_state = Some 77
  /\ lock_file held_state = Some (pretty 77 +:+ NL)
  /\ exists s',
       cmd_run (sample_env 1 0 0) (sample_args TRAIN) held_state = (inr 1, s')
       /\ printed s' = busy_report 77
       /\ runs_dir s' = ∅ /\ saved s' = [] /\ lock_owner s' = Some 77.
Proof.
  split; [reflexivity|]. split; [reflexivity|].
  destruct (busy_run_reports_holder (sample_env 1 0 0) (sample_args TRAIN) held_state 77)
    as (_ & s' & Heq & Hp & Hr & Hs & _ & Ho & _); [reflexivity..|].
  exists s'. split; [exact Heq|]. split; [exact Hp|]. split; [exact Hr|].
  split; [exact Hs|]. exact Ho.
Defined.

Lemma select_technique_witness :
  let s := with_history ["aws.discovery.ec2-enumerate"; "aws.persistence.iam-backdoor-user"]
             initial_state in
  load_history s
  = (inr (PList (map PStr ["aws.discovery.ec2-enumerate";
                           "aws.persistence.iam-backdoor-user"])), s)
  /\ (exists t s', select_technique (sample_env 1 0 0) sample_catalog true 5 s = (inr t, s')
                   /\ In t sample_catalog)
  /\ select_technique (sample_env 1 0 0) sample_catalog true 5 s
     = random_choice (sample_env 1 0 0) sample_catalog s.
Proof.
  cbv zeta. split; [reflexivity|].
  destruct (select_technique_in_catalog (sample_env 1 0 0) sample_catalog true 5
              (with_history ["aws.discovery.ec2-enumerate";
                             "aws.persistence.iam-backdoor-user"] initial_state)
              ["aws.discovery.ec2-enumerate"; "aws.persistence.iam-backdoor-user"]
              eq_refl) as [Hsel _].
  destruct Hsel as [Hin Hfallback]; [discriminate|].
  split; [exact Hin|]. apply Hfallback.
  intros t [<-|[<-|[]]]; vm_compute; tauto.
Defined.

(** C6 as claimed fails: same arguments, same random source, another
    history file, another result. *)
Lemma selection_depends_on_history :
  let s1 := initial_state in
  let s2 := with_history ["aws.persistence.iam-backdoor-user"] initial_state in
  random_pos s1 = random_pos s2
  /\ fst (select_technique (sample_env 1 0 0) sample_catalog true 5 s1)
     <> fst (select_technique (sample_env 1 0 0) sample_catalog true 5 s2).
Proof. cbv zeta. split; [reflexivity|]. vm_compute. discriminate. Qed.

Lemma select_technique_reads_only_witness :
  let s1 := with_history ["aws.persistence.iam-backdoor-user"] initial_state in
  let s2 := with_clock_pos 7 (with_printed [(Stdout, "hello")] s1) in
  history_file s1 = history_file s2
  /\ random_pos s1 = random_pos s2
  /\ fst (select_technique (sample_env 1 0 0) sample_catalog true 5 s1)
     = fst (select_technique (sample_env 1 0 0) sample_catalog true 5 s2)
  /\ history_file (snd (select_technique (sample_env 1 0 0) sample_catalog true 5 s1))
     = history_file s1.
Proof.
  cbv zeta. split; [reflexivity|]. split; [reflexivity|].
  destruct (select_technique_reads_only (sample_env 1 0 0) sample_catalog true 5)
    as [Hdet Hframe].
  split; [apply Hdet; reflexivity|].
  destruct (Hframe (with_history ["aws.persistence.iam-backdoor-user"] initial_state))
    as [-> | ->]; reflexivity.
Defined.

Lemma generate_run_id_witness :
  let e := sample_env 1 0 0 in
  let s1 := initial_state in
  let s2 := with_entropy_pos 4 initial_state in
  suffix_bytes e s1 <> suffix_bytes e s2
  /\ strftime_compact (clock e (clock_pos s1)) = strftime_compact (clock e (clock_pos s2))
  /\ fst (generate_run_id e s1) <> fst (generate_run_id e s2).
Proof.
  cbv zeta.
  assert (suffix_bytes (sample_env 1 0 0) initial_state
          <> suffix_bytes (sample_env 1 0 0) (with_entropy_pos 4 initial_state)) as Hne
    by (vm_compute; discriminate).
  split; [exact Hne|]. split; [reflexivity|].
  apply (generate_run_id_distinct (sample_env 1 0 0) (sample_env 1 0 0)
           initial_state (with_entropy_pos 4 initial_state) Hne).
Defined.

(** C8 as claimed fails for the minimal script: two runs at different times
    of the same second, with different entropy at hand, get the same
    identifier. *)
Lemma minimal_run_ids_collide :
  let e := sample_env 1 0 0 in
  let s1 := initial_state in
  let s2 := with_clock_pos 1 (with_entropy_pos 4 initial_state) in
  clock e (clock_pos s1) <> clock e (clock_pos s2)
  /\ suffix_bytes e s1 <> suffix_bytes e s2
  /\ fst (Minimal.do_run_run_id e s1) = inr "20240115T120000Z"
  /\ fst (Minimal.do_run_run_id e s2) = inr "20240115T120000Z".
Proof.
  cbv zeta. split; [vm_compute; discriminate|]. split; [vm_compute; discriminate|].
  split; vm_compute; reflexivity.
Qed.

Lemma save_history_bounded_witness :
  0 < 2
  /\ exists kept,
       persisted_history
         (snd (save_history [PStr "a"; PStr "b"; PStr "c"] 2 initial_state)) = Some kept
       /\ kept = [PStr "b"; PStr "c"]
       /\ (length kept <= 2)%nat.
Proof.
  split; [lia|].
  destruct (save_history_bounded [PStr "a"; PStr "b"; PStr "c"] 2 initial_state)
    as (kept & Hp & Hk & Hlen & _); [lia|].
  exists kept. split; [exact Hp|]. split; [rewrite Hk; reflexivity|]. lia.
Defined.

Example cleanup_is_best_effort :
  let e := sample_env 1 0 0 in
  let s := fresh_process (snd (cmd_run e (sample_args TRAIN) initial_state)) in
  let r := cmd_cleanup e "20240115T120000Z-deadbeef" s in
  fst r = inr 0
  /\ map (fun c => (call_cmd c, returncode (call_result c))) (procs (snd r))
     = [ (["stratus"; "revert"; "aws.persistence.iam-backdoor-user"], 1);
         (["stratus"; "cleanup"; "aws.persistence.iam-backdoor-user"], 1) ]
  /\ map status (saved (snd r)) = [RunStatus_value CLEANED].
Proof. vm_compute. split; [|split]; reflexivity. Qed.

Example select_avoid_zero_excludes_all_history :
  let s := with_history ["aws.persistence.iam-backdoor-user"] initial_state in
  fst (select_technique (sample_env 1 0 0) sample_catalog true 0 s)
  = inr {| tech_id := "aws.discovery.ec2-enumerate"; tech_name := "Enumerate EC2" |}.
Proof. vm_compute. reflexivity. Qed.

(** * Further properties *)

(** ** The lock, held and released *)

Lemma release_eq (s : State) :
  release s
  = (inr tt, match lock_fd s with
             | Some _ => with_lock_fd None (with_lock_owner None s)
             | None => s
             end).
Proof. unfold release. exec. by destruct (lock_fd s). Qed.

(** X1. When the lock is free, acquire succeeds and makes the caller the
    owner; a second process that tries to acquire is refused without raising,
    is left with no descriptor, reads the first owner's pid with
    get_holder_pid, and its release (a no-op without a descriptor) does not
    free the lock. *)
Theorem acquire_excludes_second (e1 e2 : Env) (s : State) :
  lock_owner s = None ->
  exists s1,
    acquire e1 s = (inr true, s1)
    /\ lock_owner s1 = Some (getpid e1)
    /\ exists s2,
         acquire e2 (other_process s1) = (inr false, s2)
         /\ lock_fd s2 = None
         /\ lock_owner s2 = Some (getpid e1)
         /\ get_holder_pid s2 = (inr (Some (getpid e1)), s2)
         /\ lock_owner (snd (release s2)) = Some (getpid e1).
Proof.
  intros Hfree. rewrite acquire_free by done. eexists. split; [reflexivity|].
  split; [reflexivity|].
  rewrite (acquire_busy e2 _ (getpid e1)) by reflexivity.
  eexists. split; [reflexivity|]. split; [reflexivity|]. split; [reflexivity|].
  split.
  - by apply get_holder_pid_of_holder.
  - rewrite release_eq. reflexivity.
Qed.

(** X2. After acquire and release by one process the lock has no owner and the
    process no descriptor, but the lock file still holds that process's pid,
    so get_holder_pid keeps returning it; a second release changes nothing;
    another process can then acquire the lock and overwrites the pid with its
    own. *)
Theorem release_frees_lock (e1 e2 : Env) (s : State) :
  lock_owner s = None ->
  let s1 := snd (acquire e1 s) in
  let s2 := snd (release s1) in
  lock_owner s2 = None
  /\ lock_fd s2 = None
  /\ get_holder_pid s2 = (inr (Some (getpid e1)), s2)
  /\ release s2 = (inr tt, s2)
  /\ exists s3,
       acquire e2 (other_process s2) = (inr true, s3)
       /\ lock_owner s3 = Some (getpid e2)
       /\ get_holder_pid s3 = (inr (Some (getpid e2)), s3).
Proof.
  intros Hfree s1 s2. subst s1 s2. rewrite acquire_free by done. cbn [snd].
  rewrite release_eq. cbn [snd lock_fd with_lock_file with_lock_owner with_lock_fd].
  split; [reflexivity|]. split; [reflexivity|]. split.
  { by apply get_holder_pid_of_holder. }
  split; [by rewrite release_eq|].
  rewrite acquire_free by reflexivity. eexists. split; [reflexivity|].
  split; [reflexivity|]. by apply get_holder_pid_of_holder.
Qed.

(** ** More on the history *)

(** X4. load_history, by the content of the history file, and it changes
    nothing: a missing file and a file whose text is not JSON both give the
    empty list (the JSONDecodeError is caught); a file that decodes gives the
    decoded document whatever its type (not only a list); a file that is not
    valid text makes read_text raise UnicodeDecodeError, which is a ValueError
    but neither a JSONDecodeError nor a KeyError, so the handler lets it pass
    and load_history raises it. *)
Theorem load_history_cases (s : State) :
  match history_file s with
  | None | Some Undecodable => load_history s = (inr (PList []), s)
  | Some (Json doc) => load_history s = (inr doc, s)
  | Some Unreadable =>
      exists msg, load_history s = (inl (Exn UnicodeDecodeError msg), s)
  end
  /\ (forall msg, caught_by [JSONDecodeError; KeyError] (Exn JSONDecodeError msg) = true)
  /\ (forall msg, caught_by [JSONDecodeError; KeyError] (Exn UnicodeDecodeError msg) = false)
  /\ subclass UnicodeDecodeError ValueError = true.
Proof.
  split; [|by repeat split]. rewrite load_history_eq.
  destruct (history_file s) as [[| |doc]|]; cbn [loaded_history];
    first [reflexivity | by eexists].
Qed.

(** X5. For a positive max_size, load_history after save_history returns the
    last max_size entries of the list saved, in order: at most max_size
    entries, a suffix of the list, and the whole list when it is not longer
    than max_size. *)
Theorem save_history_load_history (history : list pyval) (max_size : Z) (s : State) :
  0 < max_size ->
  let s' := snd (save_history history max_size s) in
  load_history s' = (inr (PList (last_entries max_size history)), s')
  /\ Z.of_nat (length (last_entries max_size history)) <= max_size
  /\ last_entries max_size history `suffix_of` history
  /\ (Z.of_nat (length history) <= max_size -> last_entries max_size history = history).
Proof.
  intros Hpos s'. subst s'. rewrite save_history_persists. cbn [snd].
  rewrite load_history_eq. cbn [history_file with_history_file loaded_history].
  rewrite slice_from_last by done. split; [reflexivity|].
  unfold last_entries. rewrite length_drop. split; [lia|]. split; [apply suffix_drop|].
  intros Hle. replace (length history - Z.to_nat max_size)%nat with 0%nat by lia.
  reflexivity.
Qed.

(** X6. The history update at the end of cmd_run, by the content of the
    history file: when it holds a list (or is missing or is not JSON, which
    count as the empty list), the file afterwards holds the last 20 entries of
    that list with the technique id appended, so the technique is the last
    entry and at most 20 are kept; when it holds a document that is not a
    list, append raises AttributeError and the file is left as it was; when it
    is not valid text, load_history raises UnicodeDecodeError and nothing is
    written. *)
Theorem update_history_appends (tech : technique_entry) (s : State) :
  let appends (old : list pyval) :=
    exists kept,
      update_history tech s = (inr tt, with_history_file (Some (Json (PList kept))) s)
      /\ kept = last_entries 20 (old ++ [PStr (tech_id tech)])%list
      /\ last kept = Some (PStr (tech_id tech))
      /\ (length kept <= 20)%nat
      /\ kept `suffix_of` (old ++ [PStr (tech_id tech)])%list in
  match history_file s with
  | Some (Json (PList old)) => appends old
  | None | Some Undecodable => appends []
  | Some (Json _) =>
      exists ex, update_history tech s = (inl ex, s) /\ exn_kind ex = AttributeError
  | Some Unreadable =>
      exists msg, update_history tech s = (inl (Exn UnicodeDecodeError msg), s)
  end.
Proof.
  intros appends. rewrite update_history_eq in *. unfold appended_to.
  assert (forall old, loaded_history (history_file s) = inr (PList old) -> appends old)
    as Hlist; cycle 1.
  { destruct (history_file s) as [[| |doc]|]; cbn [loaded_history] in *;
      [by eexists | by apply Hlist | | by apply Hlist].
    destruct doc as [| | | | |old|]; try (by eexists). by apply Hlist. }
  intros old Hold. subst appends. cbn beta. rewrite update_history_eq. unfold appended_to.
  rewrite Hold. cbn [py_append].
  change (-20) with (Z.opp 20). rewrite slice_from_last by lia. eexists. split; [reflexivity|].
  split; [reflexivity|]. unfold last_entries. repeat split.
  - rewrite drop_app_le by (rewrite length_app; cbn [length]; lia). apply last_snoc.
  - rewrite length_drop. lia.
  - apply suffix_drop.
Qed.

(** ** More on the selection *)

(** X7. With avoid_recent set and a history that is a list of strings, if some
    technique of the catalog is not among the last recent_count entries of the
    history then select_technique returns a technique of the catalog that is
    not among them either; for recent_count = 0 the slice history[-0:] is the
    whole history, so the whole history is avoided. *)
Theorem select_technique_avoids_recent (e : Env) (techniques : list technique_entry)
    (recent_count : Z) (s : State) (ids : list string) (fresh : technique_entry) :
  load_history s = (inr (PList (map PStr ids)), s) ->
  In fresh techniques ->
  ~ In (tech_id fresh) (PyStr.slice_from (- recent_count) ids) ->
  (exists t s',
      select_technique e techniques true recent_count s = (inr t, s')
      /\ In t techniques
      /\ ~ In (tech_id t) (PyStr.slice_from (- recent_count) ids))
  /\ (0 < recent_count ->
      PyStr.slice_from (- recent_count) ids = last_entries recent_count ids)
  /\ (recent_count = 0 -> PyStr.slice_from (- recent_count) ids = ids).
Proof.
  intros Hload Hin Hfresh.
  split; [|split; [by apply slice_from_last | intros ->; apply slice_from_zero]].
  assert (techniques <> []) as Hne by (by destruct techniques).
  rewrite load_history_eq in Hload. injection Hload as Hload.
  rewrite select_technique_eq by done. unfold recent_of.
  rewrite Hload, recent_set_strings.
  set (recent := PyStr.slice_from (- recent_count) ids) in *.
  assert (forall t, negb (existsb (str_eq (tech_id t)) (map PStr recent)) = true
                    <-> ~ In (tech_id t) recent) as Hkeep.
  { intros t. rewrite negb_true_iff, <- not_true_iff_false, existsb_exists.
    split; intros H H'; apply H.
    - exists (PStr (tech_id t)). split; [by apply in_map|]. cbn. apply String.eqb_refl.
    - destruct H' as (v & Hv & Heq). apply in_map_iff in Hv as (x & <- & Hx).
      cbn in Heq. apply String.eqb_eq in Heq. by subst. }
  assert (fresh ∈ filter (fun t => negb (existsb (str_eq (tech_id t)) (map PStr recent)))
                    techniques) as Hfilter.
  { apply list_elem_of_filter. split; [|by apply list_elem_of_In].
    apply Is_true_true. by apply Hkeep. }
  unfold candidates_for.
  destruct (filter _ techniques) as [|c cs] eqn:Hf; [by apply elem_of_nil in Hfilter|].
  destruct (random_choice_In e (c :: cs) s) as (t & Heq & Ht); [done|].
  exists t. eexists. split; [exact Heq|].
  rewrite <- Hf in Ht. apply list_elem_of_In, list_elem_of_filter in Ht as [Hp Ht].
  split; [by apply list_elem_of_In|]. apply Hkeep. by apply Is_true_true.
Qed.

(** X8. On a non-empty catalog, select_technique with avoid_recent unset never
    reads the history: it returns a technique of the catalog after exactly one
    random draw; with avoid_recent set and a history file that decodes to
    neither a list nor a string it raises TypeError and changes nothing. *)
Theorem select_technique_ignores_history (e : Env) (techniques : list technique_entry)
    (recent_count : Z) (s : State) :
  techniques <> [] ->
  (exists t,
      select_technique e techniques false recent_count s
      = (inr t, with_random_pos (S (random_pos s)) s)
      /\ In t techniques)
  /\ (forall doc,
        history_file s = Some (Json doc) ->
        match doc with PList _ | PStr _ => False | _ => True end ->
        exists ex,
          select_technique e techniques true recent_count s = (inl ex, s)
          /\ exn_kind ex = TypeError).
Proof.
  intros Hne. split.
  - rewrite select_technique_no_avoid by done. by apply random_choice_In.
  - intros doc Hdoc Hshape. rewrite select_technique_eq, Hdoc by done.
    unfold recent_of. cbn [loaded_history]. destruct doc; try done; by eexists.
Qed.

(** ** The catalog *)

Lemma take_word_nonspace (l : list ascii) : Forall nonspace (PyStr.take_word l).
Proof.
  induction l as [|c l IH]; cbn; [constructor|].
  destruct (PyStr.isspace c) eqn:Hc; by constructor.
Qed.

Lemma split_first_catalog_id (line first : string) (rest : list string) :
  PyStr.startswith "aws." line = true ->
  PyStr.split_first line = first :: rest ->
  catalog_id first.
Proof.
  unfold PyStr.startswith. intros Hpre Hsplit.
  destruct line as [|c1 [|c2 [|c3 [|c4 tail]]]]; cbn [String.prefix] in Hpre;
    repeat match type of Hpre with
           | match ascii_dec ?a ?b with _ => _ end = true =>
               destruct (ascii_dec a b) as [<-|]; [|discriminate]
           end; try discriminate.
  unfold PyStr.split_first in Hsplit.
  cbn [PyStr.chars list_ascii_of_string PyStr.lstrip_chars] in Hsplit.
  change (PyStr.isspace "a") with false in Hsplit. cbn iota in Hsplit.
  assert (first = PyStr.text (PyStr.take_word (PyStr.chars ("aws." +:+ tail)))) as ->.
  { cbn [String.append PyStr.chars list_ascii_of_string].
    destruct (PyStr.lstrip_chars _); by injection Hsplit. }
  split.
  - unfold PyStr.startswith. simpl. clear.
    generalize (PyStr.text (PyStr.take_word (PyStr.chars ("" +:+ tail)))).
    by intros [|].
  - unfold PyStr.chars at 1, PyStr.text. rewrite list_ascii_of_string_of_list_ascii.
    apply take_word_nonspace.
Qed.

Lemma parse_technique_line_ids (techniques : list technique_entry) (line : string) :
  Forall (fun t => catalog_id (tech_id t)) techniques ->
  Forall (fun t => catalog_id (tech_id t)) (parse_technique_line techniques line).
Proof.
  intros Hall. unfold parse_technique_line.
  destruct (PyStr.startswith "aws." (PyStr.strip line)) eqn:Hpre; [|done].
  destruct (PyStr.split_first (PyStr.strip line)) as [|first rest] eqn:Hsplit; [done|].
  apply Forall_app. split; [done|]. constructor; [|constructor].
  by eapply split_first_catalog_id.
Qed.

Lemma parse_lines_ids (lines : list string) (techniques : list technique_entry) :
  Forall (fun t => catalog_id (tech_id t)) techniques ->
  Forall (fun t => catalog_id (tech_id t)) (fold_left parse_technique_line lines techniques).
Proof.
  revert techniques. induction lines as [|line lines IH]; intros techniques Hall; [done|].
  cbn [fold_left]. by apply IH, parse_technique_line_ids.
Qed.

Lemma parse_lines_length (lines : list string) (techniques : list technique_entry) :
  (length (fold_left parse_technique_line lines techniques)
   <= length techniques + length lines)%nat.
Proof.
  revert techniques. induction lines as [|line lines IH]; intros techniques; cbn; [lia|].
  etrans; [apply IH|]. unfold parse_technique_line.
  destruct (PyStr.startswith _ _); [|lia].
  destruct (PyStr.split_first _); [lia|]. rewrite length_app. cbn. lia.
Qed.

Lemma get_techniques_eq (e : Env) (tactic : option string) (s : State) :
  let c := call_of e (proc_pos s) (catalog_cmd tactic) [] in
  get_techniques e tactic s
  = (if succeeded c then inr (parsed_catalog (stdout (call_result c)))
     else inl (Exn RuntimeError (command_failed c)),
     log_call c s).
Proof.
  cbn zeta. unfold get_techniques. fold (catalog_cmd tactic).
  unfold mbind, M_bind. rewrite run_cmd_eq. cbn [andb].
  by destruct (succeeded _).
Qed.

(** X9. get_techniques starts exactly one child process (stratus list, with
    the tactic filter when one is given). If it exits non-zero a RuntimeError
    carrying the command line and stderr is raised; otherwise every technique
    returned has an id that starts with 'aws.' and contains no white space,
    and there are at most as many techniques as lines of output. *)
Theorem get_techniques_catalog (e : Env) (tactic : option string) (s : State) :
  let c := call_of e (proc_pos s) (catalog_cmd tactic) [] in
  snd (get_techniques e tactic s) = log_call c s
  /\ match fst (get_techniques e tactic s) with
     | inr techniques =>
         succeeded c = true
         /\ techniques = parsed_catalog (stdout (call_result c))
         /\ Forall (fun t => catalog_id (tech_id t)) techniques
         /\ (length techniques
             <= length (PyStr.splitlines (PyStr.strip (stdout (call_result c)))))%nat
     | inl ex =>
         succeeded c = false
         /\ ex = Exn RuntimeError (command_failed c)
     end.
Proof.
  cbn zeta. rewrite get_techniques_eq. cbn [fst snd]. split; [reflexivity|].
  destruct (succeeded _); [|by split].
  split; [reflexivity|]. split; [reflexivity|]. split; [by apply parse_lines_ids|].
  etrans; [apply parse_lines_length|]. cbn. lia.
Qed.

(** ** The dwell time *)

(** X10. The dwell step of cmd_run: with both bounds 0 it does nothing; with a
    non-zero bound and dwell_max < dwell_min, random.randint raises ValueError
    and nothing has changed; with a non-zero bound and dwell_min <= dwell_max
    it does not raise, touches no file, record, child process or clock, and
    sleeps at most once, for a positive number of seconds between dwell_min
    and dwell_max. *)
Theorem dwell_step_bounds (e : Env) (args : Args) (s : State) :
  let lo := arg_dwell_min args in
  let hi := arg_dwell_max args in
  ((lo = 0 /\ hi = 0) -> dwell_step e args s = (inr tt, s))
  /\ ((lo <> 0 \/ hi <> 0) -> hi < lo ->
      exists ex, dwell_step e args s = (inl ex, s) /\ exn_kind ex = ValueError)
  /\ ((lo <> 0 \/ hi <> 0) -> lo <= hi ->
      exists s',
        dwell_step e args s = (inr tt, s')
        /\ quiet s s'
        /\ (slept s' = slept s
            \/ exists d, slept s' = (slept s ++ [d])%list /\ 0 < d /\ lo <= d <= hi)).
Proof.
  cbn zeta. unfold dwell_step, random_randint, randbelow, time_sleep.
  split; [|split].
  - intros [-> ->]. reflexivity.
  - intros Hnz Hlt.
    assert (negb (arg_dwell_min args =? 0) || negb (arg_dwell_max args =? 0) = true) as ->.
    { destruct Hnz as [H|H]; apply Z.eqb_neq in H; rewrite H; cbn; by rewrite ?orb_true_r. }
    destruct (Z.leb_spec (arg_dwell_min args) (arg_dwell_max args)); [lia|].
    by eexists.
  - intros Hnz Hle.
    assert (negb (arg_dwell_min args =? 0) || negb (arg_dwell_max args =? 0) = true) as ->.
    { destruct Hnz as [H|H]; apply Z.eqb_neq in H; rewrite H; cbn; by rewrite ?orb_true_r. }
    destruct (Z.leb_spec (arg_dwell_min args) (arg_dwell_max args)); [|lia].
    exec.
    set (i := (random_draw e (random_pos s)
               mod Z.to_nat (arg_dwell_max args - arg_dwell_min args + 1))%nat).
    assert (i < Z.to_nat (arg_dwell_max args - arg_dwell_min args + 1))%nat as Hi
      by (apply Nat.mod_upper_bound; lia).
    destruct (Z.ltb_spec 0 (arg_dwell_min args + Z.of_nat i)).
    + eexists. split; [reflexivity|]. split; [by repeat split|].
      right. eexists. split; [reflexivity|]. lia.
    + eexists. split; [reflexivity|]. split; [by repeat split|]. by left.
Qed.

Lemma existsb_no_slash (l : list ascii) :
  Forall no_slash l -> existsb (Ascii.eqb "/") l = false.
Proof.
  induction 1 as [|c l Hc _ IH]; cbn [existsb]; [done|].
  unfold no_slash in Hc. by rewrite Hc, IH.
Qed.

Lemma pretty_N_char_no_slash (d : N) : (d < 10)%N -> no_slash (pretty_N_char d).
Proof.
  intros Hd. rewrite <- (N2Nat.id d).
  assert (N.to_nat d < 10)%nat as Kd by lia.
  revert Kd. generalize (N.to_nat d). clear. intros k Kk.
  do 10 (destruct k as [|k]; [reflexivity|]). lia.
Qed.

Lemma pretty_N_go_no_slash (x : N) (s : string) :
  Forall no_slash (PyStr.chars s) -> Forall no_slash (PyStr.chars (pretty_N_go x s)).
Proof.
  revert s. induction (N.lt_wf_0 x) as [x _ IH]; intros s Hs.
  destruct (decide (x = 0)%N) as [->|Hx]; [by rewrite pretty_N_go_0|].
  rewrite pretty_N_go_step by lia. apply IH.
  - apply N.div_lt; lia.
  - constructor; [|done]. apply pretty_N_char_no_slash, N.mod_lt. lia.
Qed.

Lemma dec_no_slash (width n : nat) : Forall no_slash (PyStr.chars (dec width n)).
Proof.
  unfold dec, PyStr.zfill. rewrite chars_app. apply Forall_app. split.
  - unfold PyStr.chars, PyStr.text. rewrite list_ascii_of_string_of_list_ascii.
    apply Forall_replicate. reflexivity.
  - unfold pretty, pretty_nat, pretty, pretty_N.
    case_decide; [repeat constructor|]. apply pretty_N_go_no_slash. constructor.
Qed.

Lemma hexdigit_no_slash (n : N) : no_slash (hexdigit n).
Proof.
  destruct (decide (n < 16)%N) as [Hn|Hn].
  - rewrite <- (N2Nat.id n).
    assert (N.to_nat n < 16)%nat as Kn by lia.
    revert Kn. generalize (N.to_nat n). clear. intros k Kk.
    do 16 (destruct k as [|k]; [reflexivity|]). lia.
  - destruct n as [|p]; [lia|]. do 4 (destruct p as [p|p|]; try reflexivity).
Qed.

Lemma bytes_hex_no_slash (b : list byte) : Forall no_slash (PyStr.chars (bytes_hex b)).
Proof.
  induction b as [|x b IH]; [constructor|].
  cbn [bytes_hex]. constructor; [apply hexdigit_no_slash|].
  constructor; [apply hexdigit_no_slash|]. exact IH.
Qed.

Lemma generate_run_id_plain (e : Env) (s : State) :
  exists rid,
    generate_run_id e s = (inr rid, with_entropy_pos (entropy_pos s + 4)%nat (tick s))
    /\ plain_name rid.
Proof.
  unfold generate_run_id, datetime_now, os_urandom. run. eexists. split; [reflexivity|].
  split.
  - intros Heq. apply (f_equal PyStr.chars) in Heq. rewrite chars_app in Heq.
    apply app_eq_nil in Heq as [_ Heq]. discriminate.
  - apply existsb_no_slash. unfold strftime_compact.
    repeat (rewrite chars_app; apply Forall_app; split);
      first [ apply dec_no_slash | apply bytes_hex_no_slash | by repeat constructor ].
Qed.

(** ** The trace of a run *)

Lemma dwell_step_cases (e : Env) (args : Args) (s : State) :
  dwell_step e args s = (inr tt, s) /\ arg_dwell_min args <= arg_dwell_max args
  \/ (exists ex, dwell_step e args s = (inl ex, s))
  \/ dwell_step e args s = (inr tt, with_random_pos (S (random_pos s)) s)
     /\ arg_dwell_min args <= arg_dwell_max args
  \/ exists d,
       dwell_allowed args d
       /\ dwell_step e args s
          = (inr tt, with_slept (slept s ++ [d])
                       (say Stdout (dwell_notice d) (with_random_pos (S (random_pos s)) s))).
Proof.
  unfold dwell_step, random_randint, randbelow, time_sleep, dwell_allowed, dwell_notice.
  destruct (negb (arg_dwell_min args =? 0) || negb (arg_dwell_max args =? 0)) eqn:Hz.
  2:{ left. split; [reflexivity|].
      apply orb_false_elim in Hz as [H1 H2].
      apply negb_false_iff, Z.eqb_eq in H1, H2. lia. }
  destruct (Z.leb_spec (arg_dwell_min args) (arg_dwell_max args)); run.
  2:{ right. left. by eexists. }
  set (i := (random_draw e (random_pos s)
             mod Z.to_nat (arg_dwell_max args - arg_dwell_min args + 1))%nat).
  assert (i < Z.to_nat (arg_dwell_max args - arg_dwell_min args + 1))%nat as Hi
    by (apply Nat.mod_upper_bound; lia).
  destruct (Z.ltb_spec 0 (arg_dwell_min args + Z.of_nat i)).
  - right. right. right. eexists. split; [|reflexivity]. lia.
  - right. right. by left.
Qed.

Lemma py_append_inr (v x : pyval) (l : list pyval) :
  py_append v x = inr l -> exists old, v = PList old /\ l = (old ++ [x])%list.
Proof. destruct v; try discriminate. intros [= <-]. by eexists. Qed.

Lemma appended_to_inr (f : option hist_file) (id : string) (l : list pyval) :
  appended_to f id = inr l ->
  exists old, loaded_history f = inr (PList old) /\ l = (old ++ [PStr id])%list.
Proof.
  unfold appended_to. destruct (loaded_history f) as [ex|v]; [discriminate|].
  intros (old & -> & ->)%py_append_inr. by eexists.
Qed.

Lemma get_aws_identity_cases (e : Env) (args : Args) (s : State) :
  exists r,
    get_aws_identity e s = (r, log_call (call_of e (proc_pos s) identity_cmd []) s)
    /\ forall acct arn,
         r = inr (acct, arn) -> str_eq (arg_account args) acct = true ->
         identity_passed e args s.
Proof.
  unfold get_aws_identity, identity_passed. unfold mbind at 1, M_bind at 1.
  rewrite run_cmd_eq. fold identity_cmd. cbn zeta.
  set (c := call_of e (proc_pos s) identity_cmd []). cbn [andb].
  destruct (succeeded c); cbn [negb]; [|by eexists].
  destruct (json_loads e _) as [data|] eqn:Hdata; [|by eexists].
  unfold mbind, M_bind, lift.
  destruct (subscript data "Account") as [|acct] eqn:Hacct; [by eexists|].
  destruct (subscript data "Arn") as [|arn] eqn:Harn; [by eexists|].
  eexists. split; [reflexivity|]. intros ? ? [= <- <-] Heq.
  apply str_eq_true in Heq. subst acct. split; [done|]. by exists data, arn.
Qed.

Lemma get_techniques_cases (e : Env) (tactic : option string) (s : State) :
  let c := call_of e (proc_pos s) (catalog_cmd tactic) [] in
  exists r,
    get_techniques e tactic s = (r, log_call c s)
    /\ forall techniques,
         r = inr techniques ->
         techniques = parsed_catalog (stdout (call_result c)).
Proof.
  cbn zeta. unfold get_techniques. unfold mbind at 1, M_bind at 1.
  fold (catalog_cmd tactic). rewrite run_cmd_eq.
  destruct (_ && _); eexists; (split; [reflexivity|]); by intros ? [= <-].
Qed.

Lemma select_technique_member (e : Env) techniques avoid_recent recent_count (s : State) :
  exists r s',
    select_technique e techniques avoid_recent recent_count s = (r, s')
    /\ (s' = s \/ s' = with_random_pos (S (random_pos s)) s)
    /\ forall t, r = inr t -> In t techniques.
Proof.
  destruct (select_technique_spec e techniques avoid_recent recent_count s)
    as (r & s' & Heq & Hs).
  exists r, s'. split; [done|]. split; [done|]. intros t ->.
  destruct (decide (techniques = [])) as [->|Hne]; [discriminate|].
  destruct avoid_recent.
  - rewrite select_technique_eq in Heq by done.
    destruct (recent_of _ _) as [ex|recent]; [discriminate|].
    destruct (random_choice_In e (candidates_for techniques recent) s) as (x & Hx & Hin);
      [by apply candidates_for_nonempty|].
    rewrite Hx in Heq. injection Heq as <- _.
    by eapply candidates_for_subset.
  - rewrite select_technique_no_avoid in Heq by done.
    destruct (random_choice_In e techniques s) as (x & Hx & Hin); [done|].
    rewrite Hx in Heq. by injection Heq as <- _.
Qed.

Ltac trace_lists :=
  cbn [app on_stream same_stream map Z.eqb Pos.eqb run_banner run_footer];
  repeat match goal with
         | H : truthy _ = _ |- _ => rewrite H
         end;
  cbn [app on_stream same_stream map].

Ltac few_calls := intros; cbn [length app] in *; lia.

Ltac guarded_calls :=
  let c := fresh "c" in
  let Hin := fresh "Hin" in
  let Hne := fresh "Hne" in
  intros c Hin Hne;
  first [ assumption | destruct Hin as [<-|[]]; by destruct Hne | by destruct Hin ].

Ltac close_trace naps :=
  eexists _, _; split; [reflexivity|]; split; [|reflexivity];
  unfold run_trace; fields; eexists _, _, _, naps;
  split; [app_eq|]; split; [app_eq|]; split; [app_eq|]; split; [app_eq|];
  split; [first [by left | right; eexists; split; [reflexivity|assumption]]|];
  split; [few_calls|]; split; [guarded_calls|];
  split; [first [exact I | split; assumption]|];
  trace_lists;
  split; [split; first [done | discriminate]|];
  split; [reflexivity|].

Lemma protected_run_trace (e : Env) (args : Args) (s : State) :
  run_record s = None ->
  exists code s',
    try_except (run_attack e args) any_exception run_failed s = (inr code, s')
    /\ run_trace e args s s' code
    /\ lock_file s' = lock_file s.
Proof.
  intros Hnone. unfold try_except, run_attack.
  cbv beta iota zeta delta [mbind M_bind mret M_ret modify print any_exception].
  destruct (get_aws_identity_cases e args s) as (r1 & -> & Hid).
  destruct r1 as [ex|[acct arn]]; next.
  { rewrite run_failed_no_record by done. by close_trace (@nil Z). }
  destruct (str_eq (arg_account args) acct) eqn:Hacct; next.
  2:{ by close_trace (@nil Z). }
  specialize (Hid _ _ eq_refl Hacct).
  apply str_eq_true in Hacct. subst acct. cbn [py_str].
  match goal with |- context [get_techniques e ?t ?st] =>
    destruct (get_techniques_cases e t st) as (r2 & -> & Hlist) end. fields.
  destruct r2 as [ex|techniques]; next.
  { rewrite run_failed_no_record by done. by close_trace (@nil Z). }
  destruct techniques as [|t0 ts]; next.
  { destruct (truthy (arg_tactic args)); next; by close_trace (@nil Z). }
  specialize (Hlist _ eq_refl). fold (listed_techniques e args s) in Hlist.
  match goal with |- context [select_technique e ?a ?b ?c ?st] =>
    destruct (select_technique_member e a b c st) as (r3 & s3 & -> & Hs3 & Hmem) end.
  destruct r3 as [ex|tech]; next.
  { rewrite run_failed_no_record by (destruct Hs3 as [-> | ->]; done).
    destruct Hs3 as [-> | ->]; by close_trace (@nil Z). }
  specialize (Hmem _ eq_refl). rewrite Hlist in Hmem.
  apply (in_map tech_id) in Hmem.
  destruct (generate_run_id_plain e s3) as (rid & -> & Hplain). next.
  rewrite now_iso_eq. next.
  match goal with |- context [with_run_record (Some ?r) _] => set (r0 := r) end.
  rewrite (save_run_record_eq _ r0) by reflexivity. next.
  destruct Hs3 as [-> | ->]; destruct (truthy (arg_tactic args)) eqn:Htac; next.
  all: rewrite (warmup_step_eq e tech _ _ r0) by reflexivity; next.
  all: set (cw := call_of e (S (S (proc_pos s))) _ _) in *.
  all: destruct (succeeded cw) eqn:Hw; next.
  all: try (by close_trace (@nil Z)).
  all: match goal with |- context [dwell_step _ _ ?st] =>
         destruct (dwell_step_cases e args st)
           as [[-> Hle] | [(ex & ->) | [[-> Hle] | (d & Hd & ->)]]] end; next.
  all: try (pose proof Hd as (_ & Hlo & Hhi)).
  all: try (erewrite run_failed_record by reflexivity; first [by close_trace (@nil Z)]).
  all: erewrite detonate_step_eq by reflexivity; next.
  all: set (cd := call_of e (S (S (S (proc_pos s)))) _ _) in *.
  all: destruct (succeeded cd) eqn:Hdet; next.
  all: try (first [by close_trace (@nil Z) | by close_trace [d]]).
  all: rewrite update_history_eq; fields.
  all: destruct (appended_to _ _) as [ex|l] eqn:Happ; next.
  all: try (erewrite run_failed_record by reflexivity;
            first [by close_trace (@nil Z) | by close_trace [d]]).
  all: apply appended_to_inr in Happ as (old & Hold & ->).
  all: first [close_trace (@nil Z) | close_trace [d]]; eexists _, _, old;
         (split; [reflexivity|]); by split.
Qed.

Lemma cmd_run_trace (e : Env) (args : Args) (s : State) :
  exists code s',
    cmd_run e args s = (inr code, s')
    /\ run_trace e args s s' code
    /\ lock_file s'
       = Some (match lock_owner s with
               | None => pretty (getpid e) +:+ NL
               | Some _ => default "" (lock_file s)
               end).
Proof.
  unfold cmd_run, LockManager_init.
  cbv beta iota zeta delta [mbind M_bind mret M_ret modify print].
  destruct (lock_owner s) as [p|] eqn:Hown.
  - rewrite (acquire_busy e _ p) by done. next.
    match goal with |- context [get_holder_pid ?st] =>
      destruct (get_holder_pid_returns st) as (r & ->) end.
    next. eexists _, _. split; [reflexivity|].
    split; [|destruct (lock_file s) eqn:Hf; fields; rewrite ?Hf; reflexivity].
    unfold run_trace. eexists [], [], _, [].
    destruct (lock_file s); fields.
    all: split; [app_eq|]; split; [app_eq|]; split; [app_eq|].
    all: split; [app_eq|]; split; [by left|]; split; [cbn; lia|].
    all: split; [by intros ? []|]; split; [exact I|].
    all: cbn [on_stream same_stream Z.eqb]; by repeat split.
  - rewrite acquire_free by done. next. unfold try_finally.
    match goal with |- context [try_except _ _ _ ?st] =>
      destruct (protected_run_trace e args st) as (code & s1 & -> & Htr & Hlock);
        [reflexivity|] end.
    unfold release. run. unfold run_trace, identity_passed, listed_techniques in *.
    destruct (lock_fd s1); run; (eexists _, _; split; [reflexivity|]); fields;
      (split; [exact Htr|exact Hlock]).
Qed.

Lemma new_part {A} (l l' extra : list A) :
  l' = (l ++ extra)%list -> drop (length l) l' = extra.
Proof. intros ->. apply drop_app_length. Qed.

(** ** What a run shows *)

(** X11. What cmd_run prints. It writes to stderr exactly when it does not
    return 0. Its stdout is empty when no record was saved; otherwise it is
    RUN_ID, MODE, TACTIC when a tactic was given, 'Attack launching...' and an
    empty line, then one 'Dwelling for <d>s...' line per sleep (at most one, d
    positive and within the dwell bounds), then the three closing lines
    exactly when the exit code is 0. The technique never appears on stdout. *)
Theorem cmd_run_output (e : Env) (args : Args) (s : State) :
  let s' := snd (cmd_run e args s) in
  let lines := new_lines s s' in
  let naps := new_naps s s' in
  printed s' = (printed s ++ lines)%list
  /\ slept s' = (slept s ++ naps)%list
  /\ (naps = [] \/ exists d, naps = [d] /\ dwell_allowed args d)
  /\ (on_stream Stderr lines = [] <-> fst (cmd_run e args s) = inr 0)
  /\ on_stream Stdout lines
     = match new_saves s s' with
       | [] => []
       | r0 :: _ =>
           (run_banner args (run_id r0) ++ map dwell_notice naps
            ++ match fst (cmd_run e args s) with
               | inr 0 => run_footer (run_id r0)
               | _ => []
               end)%list
       end.
Proof.
  destruct (cmd_run_trace e args s) as (code & s' & Heq & Htr & _).
  rewrite Heq. cbn [fst snd]. cbv zeta.
  destruct Htr as (calls & saves & lines & naps & _ & Hs & Hp & Hn & Hnaps & _ & _ & _
                   & Herr & Hout & _).
  unfold new_lines, new_naps, new_saves.
  rewrite (new_part _ _ _ Hs), (new_part _ _ _ Hp), (new_part _ _ _ Hn).
  split; [done|]. split; [done|]. split; [done|]. split.
  - rewrite Herr. split; [by intros ->|by intros [= ->]].
  - rewrite Hout. destruct saves; [done|]. by destruct code.
Qed.

(** ** The history after a run *)


(** ** The lock file after a run *)

(** X13. After cmd_run on a free lock, the lock is free again but the lock
    file still holds the pid of the finished process, and get_holder_pid
    returns it (a stale pid); when the lock was held, the lock file keeps its
    content (it is created empty if it did not exist). *)
Theorem cmd_run_lock_file (e : Env) (args : Args) (s : State) :
  let s' := snd (cmd_run e args s) in
  match lock_owner s with
  | None =>
      lock_owner s' = None
      /\ lock_file s' = Some (pretty (getpid e) +:+ NL)
      /\ get_holder_pid s' = (inr (Some (getpid e)), s')
  | Some _ =>
      lock_file s' = Some (default "" (lock_file s))
  end.
Proof.
  destruct (cmd_run_trace e args s) as (code & s' & Heq & _ & Hlock).
  pose proof (cmd_run_summary e args s) as (_ & _ & _ & _ & _ & Hown & _).
  rewrite Heq in Hown |- *. cbn [snd] in *. cbv zeta.
  destruct (lock_owner s); [done|].
  split; [done|]. split; [done|]. by apply get_holder_pid_of_holder.
Qed.

(** ** The account check *)

(** X14. The account check of cmd_run guards everything else: any child
    process other than the aws identity call, and any saved run record,
    implies that the identity call exited 0 and its output decoded to a
    document whose 'Account' equals --account as a string and which has an
    'Arn'. When that is not so, the exit code is 1, and run directory, history
    file and stdout are untouched. *)
Theorem identity_check_guards_run (e : Env) (args : Args) (s : State) :
  let s' := snd (cmd_run e args s) in
  (forall c, In c (new_calls s s') -> call_cmd c <> identity_cmd -> identity_passed e args s)
  /\ (new_saves s s' <> [] -> identity_passed e args s)
  /\ (~ identity_passed e args s ->
      fst (cmd_run e args s) = inr 1
      /\ runs_dir s' = runs_dir s
      /\ history_file s' = history_file s
      /\ on_stream Stdout (new_lines s s') = []).
Proof.
  destruct (cmd_run_trace e args s) as (code & s' & Heq & Htr & _).
  pose proof (cmd_run_summary e args s)
    as (code' & Heq' & _ & Hs' & _ & _ & Hdir & Hpath & _).
  rewrite Heq in Heq', Hs', Hdir, Hpath |- *. cbn [fst snd] in *. cbv zeta.
  injection Heq' as <-.
  destruct Htr as (calls & saves & lines & naps & Hc & Hs & Hp & _ & _ & _ & Hguard & _ & _
                   & Hout & Hhist).
  unfold new_calls, new_saves, new_lines in *.
  rewrite (new_part _ _ _ Hs), (new_part _ _ _ Hc), (new_part _ _ _ Hp) in *.
  assert (saves <> [] -> identity_passed e args s) as Hsaves.
  { intros Hne.
    inversion Hpath as [ | ci cl cw r0 _ _ _ [Hcw _] _
                         | ci cl cw r0 t msg _ _ _ [Hcw _] _
                         | ci cl cw cd r0 t _ _ _ [Hcw _] _ _ _
                         | ci cl cw cd r0 t k _ _ _ [Hcw _] _ _ _
                         | ci cl cw cd r0 t k msg _ _ _ [Hcw _] _ _ _ ]; subst;
      [done|..]; apply (Hguard cw); cbn [In]; try tauto; rewrite Hcw; discriminate. }
  split; [done|]. split; [done|]. intros Hno.
  destruct saves as [|r0 rest]; [|by destruct Hno; apply Hsaves].
  inversion Hpath; subst. cbn [Z.eqb] in Hhist. by repeat split.
Qed.

(** ** The technique of a run *)

(** X15. Every version of the run record that cmd_run saves names a technique
    that was parsed from the output of this run's 'stratus list' call (so its
    id starts with 'aws.' and has no white space), and carries the account,
    region and mode of the command line. *)
Theorem cmd_run_technique_listed (e : Env) (args : Args) (s : State) :
  let s' := snd (cmd_run e args s) in
  Forall (fun r => In (technique r) (map tech_id (listed_techniques e args s))
                   /\ catalog_id (technique r)
                   /\ account r = arg_account args
                   /\ region r = arg_region args
                   /\ mode r = arg_mode args)
         (new_saves s s').
Proof.
  destruct (cmd_run_trace e args s) as (code & s' & Heq & Htr & _).
  pose proof (cmd_run_summary e args s)
    as (code' & Heq' & _ & Hs' & _ & _ & _ & Hpath & _).
  rewrite Heq in Heq', Hs', Hpath |- *. cbn [fst snd] in *. cbv zeta.
  destruct Htr as (calls & saves & lines & naps & _ & Hs & _ & _ & _ & _ & _ & Hlisted & _).
  unfold new_saves in *. rewrite (new_part _ _ _ Hs) in *.
  assert (match saves with
          | [] => True
          | r0 :: _ => In (technique r0) (map tech_id (listed_techniques e args s))
          end) as Hlisted' by (destruct saves; [done|apply Hlisted]).
  clear Hlisted. rename Hlisted' into Hlisted.
  assert (forall r0 r,
            In (technique r0) (map tech_id (listed_techniques e args s)) ->
            started_record args r0 ->
            technique r = technique r0 -> account r = account r0 ->
            region r = region r0 -> mode r = mode r0 ->
            In (technique r) (map tech_id (listed_techniques e args s))
            /\ catalog_id (technique r)
            /\ account r = arg_account args
            /\ region r = arg_region args
            /\ mode r = arg_mode args) as Hkeep.
  { intros r0 r Hin (_ & Ha & Hr & Hm & _) -> -> -> ->.
    split; [done|]. split; [|done].
    apply in_map_iff in Hin as (t & <- & Hin).
    pose proof (parse_lines_ids
                  (PyStr.splitlines (PyStr.strip (stdout (call_result
                     (call_of e (S (proc_pos s)) (catalog_cmd (arg_tactic args)) [])))))
                  [] (Forall_nil_2 _)) as Hall.
    fold (parsed_catalog (stdout (call_result
            (call_of e (S (proc_pos s)) (catalog_cmd (arg_tactic args)) [])))) in Hall.
    rewrite List.Forall_forall in Hall. by apply Hall. }
  inversion Hpath as [ | ci cl cw r0 _ _ Hr0 _ _
                       | ci cl cw r0 t msg _ _ Hr0 _ _
                       | ci cl cw cd r0 t _ _ Hr0 _ _ _ _
                       | ci cl cw cd r0 t k _ _ Hr0 _ _ _ _
                       | ci cl cw cd r0 t k msg _ _ Hr0 _ _ _ _ ]; subst;
    [constructor|..]; cbn [hd] in Hlisted;
    repeat (constructor; [apply (Hkeep r0); try done;
                          unfold detonated; by destruct (is_validate args)|]);
    constructor.
Qed.

(** ** An empty dwell range *)

(** X16. With --dwell-max smaller than --dwell-min, cmd_run always exits with
    1, never sleeps, never starts a detonation and leaves the history alone;
    but the empty range is only noticed after warmup: when the warmup call
    succeeded, the last saved record is FAILED with warmup_at set and no
    detonated_at. *)
Theorem bad_dwell_range_never_detonates (e : Env) (args : Args) (s : State) :
  arg_dwell_max args < arg_dwell_min args ->
  let s' := snd (cmd_run e args s) in
  fst (cmd_run e args s) = inr 1
  /\ slept s' = slept s
  /\ history_file s' = history_file s
  /\ (forall c, In c (new_calls s s') -> ~ detonate_invocation c)
  /\ (forall c r,
        In c (new_calls s s') -> warmup_invocation c -> succeeded c = true ->
        last (new_saves s s') = Some r ->
        status r = RunStatus_value FAILED /\ warmup_at r <> None /\ detonated_at r = None).
Proof.
  intros Hbad.
  destruct (cmd_run_trace e args s) as (code & s' & Heq & Htr & _).
  pose proof (cmd_run_summary e args s)
    as (code' & Heq' & Hc' & Hs' & _ & _ & _ & Hpath & _).
  rewrite Heq in Heq', Hc', Hs', Hpath |- *. cbn [fst snd] in *. cbv zeta.
  injection Heq' as <-.
  destruct Htr as (calls & saves & lines & naps & Hc & Hs & _ & Hn & Hnaps & Hfew & _ & _ & _
                   & _ & Hhist).
  unfold new_calls, new_saves in *.
  rewrite (new_part _ _ _ Hs), (new_part _ _ _ Hc) in *.
  specialize (Hfew Hbad).
  assert (forall c, setup_call args c -> ~ detonate_invocation c) as Hnd
    by (intros c Hsc; apply (setup_call_cmd args c Hsc)).
  assert (forall c, setup_call args c -> ~ warmup_invocation c) as Hnw
    by (intros c Hsc; apply (setup_call_cmd args c Hsc)).
  assert (naps = []) as ->.
  { destruct Hnaps as [->|(d & -> & _ & ? & ?)]; [done|lia]. }
  rewrite app_nil_r in Hn.
  inversion Hpath as [ cs Hsetup
                     | ci cl cw r0 Hci Hcl Hr0 Hcw Hw
                     | ci cl cw r0 t msg Hci Hcl Hr0 Hcw Hw
                     | ci cl cw cd r0 t _ _ _ _ _ _ _
                     | ci cl cw cd r0 t k _ _ _ _ _ _ _
                     | ci cl cw cd r0 t k msg _ _ _ _ _ _ _ ]; subst;
    cbn [length] in Hfew; try lia; cbn [Z.eqb] in Hhist.
  all: split; [done|]; split; [done|]; split; [done|]; split.
  - intros c Hin. rewrite List.Forall_forall in Hsetup. by apply Hnd, Hsetup.
  - intros c r _ _ _ [=].
  - intros c [<-|[<-|[<-|[]]]]; [by apply Hnd..|by eapply warmup_call_cmd].
  - intros c r [<-|[<-|[<-|[]]]] Hinv Hok; [by apply Hnw in Hinv..|congruence].
  - intros c [<-|[<-|[<-|[]]]]; [by apply Hnd..|by eapply warmup_call_cmd].
  - intros c r _ _ _ [= <-]. destruct Hr0 as (_ & _ & _ & _ & _ & _ & Hdet & _).
    cbn. by repeat split.
Qed.

(** ** Cleaning up twice, cleaning up after a run *)

Lemma say_then {A} (out : stream) (line : string) (k : M A) (s : State) :
  (print out line;; k) s = k (say out line s).
Proof. reflexivity. Qed.

Lemma run_cmd_unchecked_then {A} (e : Env) cmd env (k : M A) (s : State) :
  (run_cmd e cmd false env;; k) s = k (log_call (call_of e (proc_pos s) cmd env) s).
Proof. unfold mbind, M_bind. by rewrite run_cmd_eq. Qed.

Lemma now_iso_then {A} (e : Env) (k : string -> M A) (s : State) :
  (t ← now_iso e; k t) s = k (isoformat (clock e (clock_pos s))) (tick s).
Proof. reflexivity. Qed.

Lemma RunRecord_save_then {A} (r : RunRecord) (k : M A) (s : State) :
  (RunRecord_save r;; k) s
  = k (with_runs_dir (<[run_id r := Stored r]> (runs_dir s)) (with_saved (saved s ++ [r]) s)).
Proof. reflexivity. Qed.

Lemma try_except_returns {A} (body : M A) catches handler (s s' : State) (a : A) :
  body s = (inr a, s') -> try_except body catches handler s = (inr a, s').
Proof. intros H. unfold try_except. by rewrite H. Qed.

Lemma cmd_cleanup_stored (e : Env) (rid : string) (s : State) (r : RunRecord) :
  runs_dir s !! rid = Some (Stored r) ->
  cmd_cleanup e rid s
  = if String.eqb (status r) (RunStatus_value CLEANED)
    then (inr 0, say Stdout ("Run " +:+ rid +:+ " is already cleaned.") s)
    else (inr 0, cleaned_state e rid r s).
Proof.
  intros Hlook. unfold cmd_cleanup.
  unfold mbind at 1, M_bind at 1.
  rewrite (try_except_returns _ _ _ s s (Some r)).
  2:{ unfold RunRecord_load, mbind, M_bind, get. by rewrite Hlook. }
  destruct (String.eqb (status r) (RunStatus_value CLEANED)); [reflexivity|].
  rewrite !say_then. apply try_except_returns.
  rewrite say_then, run_cmd_unchecked_then, say_then, run_cmd_unchecked_then.
  rewrite now_iso_then, RunRecord_save_then, say_then.
  reflexivity.
Qed.

Lemma cleaned_state_procs (e : Env) (rid : string) (r : RunRecord) (s : State) :
  length (procs (cleaned_state e rid r s)) = (length (procs s) + 2)%nat.
Proof. unfold cleaned_state. fields. rewrite !length_app. cbn [length]. lia. Qed.

Lemma cleaned_state_calls (e : Env) (rid : string) (r : RunRecord) (s : State) :
  map call_cmd (new_calls s (cleaned_state e rid r s))
  = [["stratus"; "revert"; technique r]; ["stratus"; "cleanup"; technique r]].
Proof.
  unfold cleaned_state, new_calls. fields. rewrite <- app_assoc.
  rewrite drop_app_length. reflexivity.
Qed.

(** X17. cmd_cleanup of an identifier that is a file name (not empty, no path
    separator), on a stored record whose run_id field is one too, returns 0,
    and so does a second cmd_cleanup of the same identifier; child processes
    are taken to start, their exit codes are ignored. When the run_id field
    equals the identifier, the second call starts no child process and writes
    nothing (the record is CLEANED, technique unchanged). When the field
    differs from the identifier and the record is not CLEANED, the first call
    runs revert and then cleanup and writes under the name of the field a
    record with status 'cleaned', cleaned_at the current time and the
    technique unchanged, while the file it read stays as it was; so the second
    call runs revert and cleanup again and writes that record anew. *)
Theorem cmd_cleanup_twice (e e' : Env) (rid : string) (s : State) (r : RunRecord) :
  runs_dir s !! rid = Some (Stored r) ->
  plain_name rid -> plain_name (run_id r) ->
  let s1 := snd (cmd_cleanup e rid s) in
  let s2 := snd (cmd_cleanup e' rid s1) in
  fst (cmd_cleanup e rid s) = inr 0
  /\ fst (cmd_cleanup e' rid s1) = inr 0
  /\ (run_id r = rid ->
      procs s2 = procs s1 /\ saved s2 = saved s1 /\ runs_dir s2 = runs_dir s1
      /\ exists r1, runs_dir s1 !! rid = Some (Stored r1)
                    /\ status r1 = "cleaned"
                    /\ technique r1 = technique r)
  /\ (run_id r <> rid -> status r <> "cleaned" ->
      runs_dir s1 !! rid = Some (Stored r)
      /\ (exists r1, runs_dir s1 !! run_id r = Some (Stored r1)
                     /\ run_id r1 = run_id r
                     /\ status r1 = "cleaned"
                     /\ cleaned_at r1 = Some (isoformat (clock e (clock_pos s)))
                     /\ technique r1 = technique r)
      /\ map call_cmd (new_calls s s1)
         = [["stratus"; "revert"; technique r]; ["stratus"; "cleanup"; technique r]]
      /\ map call_cmd (new_calls s1 s2)
         = [["stratus"; "revert"; technique r]; ["stratus"; "cleanup"; technique r]]
      /\ runs_dir s2 !! rid = Some (Stored r)
      /\ exists r2, runs_dir s2 !! run_id r = Some (Stored r2)
                    /\ status r2 = "cleaned"
                    /\ cleaned_at r2 = Some (isoformat (clock e' (clock_pos s1)))).
Proof.
  intros Hlook _ _. cbn zeta. rewrite (cmd_cleanup_stored e rid s r Hlook).
  change "cleaned" with (RunStatus_value CLEANED).
  destruct (String.eqb (status r) (RunStatus_value CLEANED)) eqn:Hst; cbn [fst snd].
  - assert (runs_dir (say Stdout ("Run " +:+ rid +:+ " is already cleaned.") s) !! rid
            = Some (Stored r)) as Hlook1 by exact Hlook.
    rewrite (cmd_cleanup_stored e' rid _ r Hlook1), Hst. cbn [fst snd].
    revert Hlook1. generalize (say Stdout ("Run " +:+ rid +:+ " is already cleaned.") s).
    intros s1 Hlook1.
    split; [reflexivity|]. split; [reflexivity|]. split.
    + intros _. split; [reflexivity|]. split; [reflexivity|]. split; [reflexivity|].
      exists r. split; [exact Hlook1|]. split; [|reflexivity]. by apply String.eqb_eq.
    + intros _ Hne. apply String.eqb_eq in Hst. by destruct Hne.
  - split; [reflexivity|]. destruct (decide (run_id r = rid)) as [Hid|Hid].
    + assert (runs_dir (cleaned_state e rid r s) !! rid = Some (Stored (cleaned_now e s r)))
        as Hlook1.
      { unfold cleaned_state. fields. rewrite Hid. apply lookup_insert_eq. }
      rewrite (cmd_cleanup_stored e' rid _ _ Hlook1). cbn [status cleaned_now set_status].
      rewrite String.eqb_refl. cbn [fst snd].
      revert Hlook1. generalize (cleaned_state e rid r s). intros s1 Hlook1.
      split; [reflexivity|]. split; [|intros Hne; by destruct Hne].
      intros _. split; [reflexivity|]. split; [reflexivity|]. split; [reflexivity|].
      eexists. split; [exact Hlook1|]. split; reflexivity.
    + assert (runs_dir (cleaned_state e rid r s) !! rid = Some (Stored r)) as Hlook1.
      { unfold cleaned_state. fields. by rewrite lookup_insert_ne. }
      assert (runs_dir (cleaned_state e rid r s) !! run_id r
              = Some (Stored (cleaned_now e s r))) as Hlook2.
      { unfold cleaned_state. fields. apply lookup_insert_eq. }
      rewrite (cmd_cleanup_stored e' rid _ _ Hlook1), Hst. cbn [fst snd].
      split; [reflexivity|]. split; [intros Heq; by destruct Hid|].
      intros _ _. split; [exact Hlook1|].
      split; [eexists; split; [exact Hlook2|]; by repeat split|].
      split; [apply cleaned_state_calls|].
      revert Hlook1 Hlook2. generalize (cleaned_state e rid r s). intros s1 Hlook1 Hlook2.
      split; [apply cleaned_state_calls|].
      split; [unfold cleaned_state; fields; by rewrite lookup_insert_ne|].
      eexists. split; [unfold cleaned_state; fields; apply lookup_insert_eq|].
      by split.
Qed.

(** X18. After a cmd_run that returned 0, cmd_cleanup of the run's identifier
    returns 0. For a VALIDATE run it starts no child process and writes
    nothing (the record is already CLEANED). For a TRAIN run it calls 'stratus
    revert' and 'stratus cleanup' on the technique that was detonated, with
    the run's region in the environment, and leaves the record CLEANED with
    cleaned_at set and detonated_at kept. *)
Theorem cleanup_after_run (e e' : Env) (args : Args) (s : State) :
  fst (cmd_run e args s) = inr 0 ->
  let s1 := snd (cmd_run e args s) in
  exists r cd,
    last (new_saves s s1) = Some r
    /\ last (new_calls s s1) = Some cd
    /\ call_cmd cd = detonate_cmd (is_validate args) (technique r)
    /\ runs_dir s1 !! run_id r = Some (Stored r)
    /\ fst (cmd_cleanup e' (run_id r) s1) = inr 0
    /\ let s2 := snd (cmd_cleanup e' (run_id r) s1) in
       if is_validate args
       then procs s2 = procs s1 /\ saved s2 = saved s1 /\ runs_dir s2 = runs_dir s1
       else map (fun c => (call_cmd c, call_env c)) (new_calls s1 s2)
            = [ (["stratus"; "revert"; technique r], region_env (arg_region args));
                (["stratus"; "cleanup"; technique r], region_env (arg_region args)) ]
            /\ exists r2,
                 runs_dir s2 !! run_id r = Some (Stored r2)
                 /\ status r2 = RunStatus_value CLEANED
                 /\ cleaned_at r2 <> None
                 /\ detonated_at r2 = detonated_at r
                 /\ technique r2 = technique r.
Proof.
  intros Hcode. pose proof (cmd_run_summary e args s) as Hsum. cbv zeta in Hsum |- *.
  destruct (cmd_run e args s) as [res s1]. cbn [fst snd] in *. subst res.
  destruct Hsum as (code & [= <-] & _ & _ & _ & _ & Hdir & Hpath & _).
  pose proof (run_path_final e args _ _ _ (runs_dir s) Hpath) as Hfinal.
  rewrite <- Hdir in Hfinal.
  inversion Hpath as [ | | | | ci cl cw cd r0 t k _ _ Hr0 _ _ [Hcmd _] _ | ]; subst.
  cbn [last] in *. specialize (Hfinal _ eq_refl).
  set (r := detonated _ _ _ _) in *.
  assert (technique r = technique r0 /\ region r = arg_region args
          /\ status r = RunStatus_value (if is_validate args then CLEANED else DETONATED))
    as (Ht & Hreg & Hst).
  { destruct Hr0 as (_ & _ & Hreg & _). subst r. unfold detonated.
    by destruct (is_validate args). }
  exists r, cd. split; [reflexivity|]. split; [reflexivity|]. split; [by rewrite Ht|].
  split; [exact Hfinal|].
  rewrite (cmd_cleanup_stored e' _ s1 r Hfinal), Hst.
  destruct (is_validate args); cbn [RunStatus_value String.eqb Ascii.eqb Bool.eqb fst snd].
  - by repeat split.
  - split; [reflexivity|]. unfold cleaned_state, new_calls. fields. rewrite <- app_assoc.
    rewrite drop_app_length. cbn [map app call_cmd call_env call_of]. rewrite Hreg.
    split; [reflexivity|].
    eexists. split; [apply lookup_insert_eq|].
    unfold cleaned_now. cbn [status cleaned_at detonated_at technique set_status
                             set_cleaned_at].
    by repeat split.
Qed.

(** ** The reporting commands: printing *)

Lemma printing_nil (out : stream) (s : State) : printing out [] s = s.
Proof. unfold printing. cbn. rewrite app_nil_r. by destruct s. Qed.

Lemma printing_app (out : stream) (l1 l2 : list string) (s : State) :
  printing out l2 (printing out l1 s) = printing out (l1 ++ l2) s.
Proof. unfold printing. cbn. by rewrite map_app, app_assoc. Qed.

Lemma for_each_lines {A} (out : stream) (body : A -> M unit)
    (row : gmap string run_file -> A -> list string) :
  (forall x s, body x s = (inr tt, printing out (row (runs_dir s) x) s)) ->
  forall l s,
    for_each l body s = (inr tt, printing out (concat (map (row (runs_dir s)) l)) s).
Proof.
  intros Hbody l. induction l as [|x l IH]; intros s; cbn [for_each map concat].
  - by rewrite printing_nil.
  - unfold mbind, M_bind. rewrite Hbody, IH, printing_app. reflexivity.
Qed.

Lemma concat_singletons {A B} (f : A -> B) (l : list A) :
  concat (map (fun x => [f x]) l) = map f l.
Proof. induction l as [|x l IH]; cbn; by rewrite ?IH. Qed.

Lemma print_printing (out : stream) (line : string) (s : State) :
  print out line s = (inr tt, printing out [line] s).
Proof. reflexivity. Qed.

(** ** [path_stem] *)

Lemma rfind_from_app (c : ascii) (l1 l2 : list ascii) (i : nat) (found : option nat) :
  rfind_from c (l1 ++ l2) i found
  = rfind_from c l2 (i + length l1) (rfind_from c l1 i found).
Proof.
  revert i found. induction l1 as [|x l1 IH]; intros i found; cbn [app rfind_from length].
  - by rewrite Nat.add_0_r.
  - rewrite IH. f_equal. lia.
Qed.

Lemma path_stem_json (k : string) : k <> "" -> path_stem (k +:+ ".json") = k.
Proof.
  intros Hne. unfold path_stem. rewrite chars_app, rfind_from_app.
  cbn [PyStr.chars list_ascii_of_string rfind_from Ascii.eqb Bool.eqb].
  cbn [Nat.add]. rewrite length_app. cbn [length].
  assert (0 < length (PyStr.chars k))%nat as Hlen.
  { destruct k; [done|]. cbn. lia. }
  destruct (Nat.ltb_spec 0 (length (PyStr.chars k))) as [_|?]; [|lia].
  destruct (Nat.ltb_spec (length (PyStr.chars k)) (length (PyStr.chars k) + 5 - 1))
    as [_|?]; [|lia].
  cbn [andb]. rewrite take_app_length. apply text_chars.
Qed.

(** ** Printing, step by step *)

Lemma print_then {A} (out : stream) (line : string) (k : M A) (s : State) :
  (print out line;; k) s = k (printing out [line] s).
Proof. reflexivity. Qed.

Lemma when_print_then {A} (b : bool) (out : stream) (line : string) (k : M A) (s : State) :
  (when b (print out line);; k) s = k (printing out (if b then [line] else []) s).
Proof. destruct b; [reflexivity|]. by rewrite printing_nil. Qed.

Lemma get_then {A B} (proj : State -> A) (k : A -> M B) (s : State) :
  (x ← get proj; k x) s = k (proj s) s.
Proof. reflexivity. Qed.

Lemma runs_dir_printing (out : stream) (lines : list string) (s : State) :
  runs_dir (printing out lines s) = runs_dir s.
Proof. reflexivity. Qed.

Ltac prints :=
  repeat first [ rewrite print_then | rewrite when_print_then
               | rewrite get_then | rewrite runs_dir_printing ].

(** ** [cmd_reveal] *)

Lemma cmd_reveal_stored (rid : string) (s : State) (r : RunRecord) :
  runs_dir s !! rid = Some (Stored r) ->
  cmd_reveal rid s = (inr 0, printing Stdout (reveal_lines r) s).
Proof.
  intros Hlook. unfold cmd_reveal, RunRecord_load.
  unfold mbind at 1, M_bind at 1, try_except at 1.
  unfold mbind at 1, M_bind at 1. unfold mbind at 1, M_bind at 1, get at 1.
  rewrite Hlook. cbv beta iota delta [mret M_ret raise].
  prints. rewrite !printing_app. reflexivity.
Qed.

Lemma sorted_order (names : list string) :
  Sorted (fun a b => String.leb a b) (sorted names).
Proof.
  assert (Total (fun a b : string => Is_true (String.leb a b))) as Htotal.
  { intros a b. destruct (String.leb_total a b) as [H|H]; rewrite H; [by left|by right]. }
  apply (Sorted_merge_sort _).
Qed.

(** X19. cmd_reveal never changes anything but the output. For a stored record
    it returns 0 and prints between 12 and 17 lines to stdout (the optional
    fields only when set), ending with the documentation URL. For a file that
    does not decode it raises. For a missing run it returns 1 and prints to
    stderr the error and, when the run directory holds *.json files, a header
    and the stems of the last min(5, n) of the n file names taken in ascending
    order: the list it cuts the end from is a permutation of the names of the
    directory and is sorted by <= on strings. *)
Theorem cmd_reveal_cases (rid : string) (s : State) :
  match runs_dir s !! rid with
  | Some (Stored r) =>
      cmd_reveal rid s = (inr 0, printing Stdout (reveal_lines r) s)
      /\ (12 <= length (reveal_lines r) <= 17)%nat
  | Some Corrupt => exists ex, cmd_reveal rid s = (inl ex, s)
  | None =>
      let names := sorted (glob_json (runs_dir s)) in
      let shown := PyStr.slice_from (- 5) names in
      cmd_reveal rid s
      = (inr 1,
         printing Stderr
           (("ERROR: Run " +:+ rid +:+ " not found")
            :: match names with
               | [] => []
               | _ => (NL +:+ "Available runs:") :: map (fun n => "  " +:+ path_stem n) shown
               end) s)
      /\ length shown = Nat.min 5 (length names)
      /\ shown `suffix_of` names
      /\ names ≡ₚ glob_json (runs_dir s)
      /\ Sorted (fun a b => String.leb a b) names
  end.
Proof.
  destruct (runs_dir s !! rid) as [[|r]|] eqn:Hlook.
  - unfold cmd_reveal, RunRecord_load.
    unfold mbind at 1, M_bind at 1, try_except at 1.
    unfold mbind at 1, M_bind at 1. unfold mbind at 1, M_bind at 1, get at 1.
    rewrite Hlook. by eexists.
  - split; [by apply cmd_reveal_stored|].
    unfold reveal_lines, optional_line. rewrite !length_app.
    destruct (truthy (tactic_filter r)), (truthy (warmup_at r)),
      (truthy (detonated_at r)), (truthy (cleaned_at r)), (truthy (error r));
      cbn [length]; lia.
  - split; [|split; [|split; [|split]]].
    + unfold cmd_reveal, RunRecord_load.
      unfold mbind at 1, M_bind at 1, try_except at 1.
      unfold mbind at 1, M_bind at 1. unfold mbind at 1, M_bind at 1, get at 1.
      rewrite Hlook. cbv beta iota delta [mret M_ret raise].
      change (caught_by _ _) with true. cbv iota. prints.
      destruct (sorted (glob_json (runs_dir s))) as [|n names] eqn:Hnames.
      * reflexivity.
      * unfold mbind at 1, M_bind at 1. prints.
        rewrite (for_each_lines Stderr _ (fun _ r => ["  " +:+ path_stem r]))
          by reflexivity.
        rewrite concat_singletons, !printing_app. reflexivity.
    + unfold PyStr.slice_from. cbn [Z.ltb Z.compare Z.opp]. rewrite length_drop. lia.
    + unfold PyStr.slice_from. cbn [Z.ltb Z.compare Z.opp]. apply suffix_drop.
    + apply merge_sort_Permutation.
    + apply sorted_order.
Qed.

Lemma list_row_step (name : string) (s : State) :
  try_except
    (record ← RunRecord_load (path_stem name);
     print Stdout (ljust 30 (run_id record) +:+ " " +:+
                   ljust 15 (status record) +:+ " " +:+ ljust 10 (mode record)))
    any_exception
    (fun _ => print Stdout (ljust 30 (path_stem name) +:+ " " +:+ ljust 15 "(error)")) s
  = (inr tt, printing Stdout [run_row (runs_dir s) name] s).
Proof.
  unfold RunRecord_load, run_row. exec.
  destruct (runs_dir s !! path_stem name) as [[|r]|]; reflexivity.
Qed.

Lemma recent_row_step (name : string) (s : State) :
  try_except
    (record ← RunRecord_load (path_stem name);
     print Stdout ("  " +:+ run_id record +:+ ": " +:+ status record))
    any_exception
    (fun _ => mret tt) s
  = (inr tt, printing Stdout (recent_row (runs_dir s) name) s).
Proof.
  unfold RunRecord_load, recent_row. exec.
  destruct (runs_dir s !! path_stem name) as [[|r]|]; rewrite ?printing_nil; reflexivity.
Qed.

Lemma sorted_reverse_order (names : list string) :
  Sorted (fun a b => String.leb b a) (sorted_reverse names).
Proof.
  assert (Total (fun a b : string => Is_true (String.leb b a))) as Htotal.
  { intros a b. destruct (String.leb_total b a) as [H|H]; rewrite H; [by left|by right]. }
  apply (Sorted_merge_sort _).
Qed.

Lemma cmd_list_runs_eq (e : Env) (args : ListArgs) (s : State) :
  list_runs args = true \/ list_techniques args = false ->
  cmd_list e args s
  = (inr 0,
     printing Stdout
       match sorted_reverse (glob_json (runs_dir s)) with
       | [] => ["No runs yet."]
       | names => list_header :: times "-" 55 :: map (run_row (runs_dir s)) (take 20 names)
       end s).
Proof.
  intros Hmode. unfold cmd_list.
  assert (list_runs args || negb (list_runs args) && negb (list_techniques args) = true)
    as -> by (destruct Hmode as [-> | ->]; by destruct (list_runs args)).
  prints.
  destruct (sorted_reverse (glob_json (runs_dir s))) as [|n names] eqn:Hnames.
  - prints. reflexivity.
  - prints. unfold mbind at 1, M_bind at 1.
    rewrite (for_each_lines Stdout _ (fun dir name => [run_row dir name]))
      by apply list_row_step.
    rewrite concat_singletons, !printing_app. reflexivity.
Qed.

(** X20. cmd_list in runs mode (--runs, or neither flag) returns 0, never
    raises and changes nothing but stdout: 'No runs yet.' when no *.json file
    exists; otherwise a header, a rule, and one row for each of the first (at
    most) 20 file names in descending order, where a file that cannot be
    loaded gives an '(error)' row instead of stopping the listing. *)
Theorem cmd_list_runs (e : Env) (args : ListArgs) (s : State) :
  list_runs args = true \/ list_techniques args = false ->
  let names := sorted_reverse (glob_json (runs_dir s)) in
  cmd_list e args s
  = (inr 0,
     printing Stdout
       match names with
       | [] => ["No runs yet."]
       | _ => list_header :: times "-" 55 :: map (run_row (runs_dir s)) (take 20 names)
       end s)
  /\ names ≡ₚ glob_json (runs_dir s)
  /\ Sorted (fun a b => String.leb b a) names
  /\ (length (take 20 names) <= 20)%nat.
Proof.
  intros Hmode. cbv zeta. split; [|split; [|split]].
  - rewrite cmd_list_runs_eq by done.
    by destruct (sorted_reverse (glob_json (runs_dir s))).
  - apply merge_sort_Permutation.
  - apply sorted_reverse_order.
  - rewrite length_take. lia.
Qed.

(** X21. cmd_list with --techniques starts one 'stratus list' child process;
    if it fails, the RuntimeError of run_cmd propagates and nothing is
    printed; otherwise it returns 0 and prints a header, a rule, one row per
    technique parsed, and a total line with their number. *)
Theorem cmd_list_techniques (e : Env) (args : ListArgs) (s : State) :
  list_runs args = false -> list_techniques args = true ->
  let c := call_of e (proc_pos s) (catalog_cmd (list_tactic args)) [] in
  let techniques := parsed_catalog (stdout (call_result c)) in
  cmd_list e args s
  = if succeeded c
    then (inr 0,
          printing Stdout
            ([ljust 50 "TECHNIQUE ID" +:+ " " +:+ "NAME"; times "-" 80]
             ++ map technique_row techniques
             ++ [NL +:+ "Total: " +:+ pretty (length techniques) +:+ " techniques"])
            (log_call c s))
    else (inl (Exn RuntimeError (command_failed c)), log_call c s).
Proof.
  intros Hruns Htech. cbv zeta. unfold cmd_list. rewrite Hruns, Htech. cbn [orb negb andb].
  unfold mbind at 1, M_bind at 1. rewrite get_techniques_eq.
  destruct (succeeded _); [|reflexivity].
  prints. unfold mbind at 1, M_bind at 1.
  rewrite (for_each_lines Stdout _ (fun _ t => [technique_row t])) by reflexivity.
  rewrite concat_singletons. prints. rewrite !printing_app. reflexivity.
Qed.

(** ** [cmd_status] *)

Lemma printing_log_call (out : stream) (lines : list string) (c : proc_call) (s : State) :
  log_call c (printing out lines s) = printing out lines (log_call c s).
Proof. reflexivity. Qed.

(** X22. cmd_status always returns 0, whatever the exit code of its single
    child process 'stratus status': it prints the tool's stdout followed by
    its stderr ('(no active state)' when that is blank), then at most 5 recent
    runs, each a stored record of one of the *.json files; files that cannot
    be loaded are skipped silently. Nothing but stdout and the process log
    changes. *)
Theorem cmd_status_report (e : Env) (s : State) :
  let c := call_of e (proc_pos s) ["stratus"; "status"] [] in
  let text := stdout (call_result c) +:+ stderr (call_result c) in
  let names := take 5 (sorted_reverse (glob_json (runs_dir s))) in
  let rows := concat (map (recent_row (runs_dir s)) names) in
  cmd_status e s
  = (inr 0,
     printing Stdout
       ([ "STRATUS STATUS:"; times "-" 40;
          if String.eqb (PyStr.strip text) "" then "(no active state)" else text;
          "" ]
        ++ match names with
           | [] => []
           | _ => "RECENT RUNS:" :: times "-" 40 :: rows
           end)
       (log_call c s))
  /\ (length rows <= 5)%nat
  /\ (forall row, In row rows ->
        exists name r,
          In name (glob_json (runs_dir s))
          /\ runs_dir s !! path_stem name = Some (Stored r)
          /\ row = "  " +:+ run_id r +:+ ": " +:+ status r).
Proof.
  cbv zeta. split; [|split].
  - unfold cmd_status, get_stratus_status. prints.
    unfold mbind at 1, M_bind at 1. unfold mbind at 1, M_bind at 1.
    rewrite run_cmd_eq. cbn [andb]. cbv beta iota zeta delta [mret M_ret].
    change (proc_pos (printing Stdout _ (printing Stdout _ s))) with (proc_pos s).
    set (c := call_of e (proc_pos s) ["stratus"; "status"] []).
    prints. change (runs_dir (log_call c _)) with (runs_dir s).
    destruct (take 5 (sorted_reverse (glob_json (runs_dir s)))) as [|n names] eqn:Hnames.
    + unfold mbind, M_bind. rewrite !printing_log_call, !printing_app. reflexivity.
    + unfold mbind at 1, M_bind at 1. prints.
      rewrite (for_each_lines Stdout _ recent_row) by apply recent_row_step.
      rewrite !printing_log_call, !printing_app. reflexivity.
  - assert (length (take 5 (sorted_reverse (glob_json (runs_dir s)))) <= 5)%nat as Hlen
      by (rewrite length_take; lia).
    etrans; [|exact Hlen]. generalize (take 5 (sorted_reverse (glob_json (runs_dir s)))).
    intros names. induction names as [|n names IH]; cbn [map concat length]; [lia|].
    rewrite length_app. unfold recent_row at 1.
    destruct (runs_dir s !! path_stem n) as [[|r]|]; cbn [length]; lia.
  - intros row Hin. apply in_concat in Hin as (rows & Hrows & Hin).
    apply in_map_iff in Hrows as (name & <- & Hname).
    unfold recent_row in Hin.
    destruct (runs_dir s !! path_stem name) as [[|r]|] eqn:Hlook;
      [destruct Hin| |destruct Hin].
    destruct Hin as [<-|[]]. exists name, r. split; [|done].
    apply list_elem_of_In. apply list_elem_of_In in Hname.
    apply elem_of_take in Hname as (i & Hi & _). apply list_elem_of_lookup_2 in Hi.
    unfold sorted_reverse in Hi. by rewrite merge_sort_Permutation in Hi.
Qed.

(** ** A stored run is listed and revealed *)

Lemma glob_json_stored (dir : gmap string run_file) (k : string) (f : run_file) :
  dir !! k = Some f -> plain_name k -> In (k +:+ ".json") (glob_json dir).
Proof.
  intros Hlook [_ Hslash]. unfold glob_json.
  apply (in_map (fun k => k +:+ ".json")). apply filter_In. split.
  - apply (in_map fst _ (k, f)). apply list_elem_of_In. by apply elem_of_map_to_list.
  - by rewrite Hslash.
Qed.

Lemma listed_row (e : Env) (args : ListArgs) (s : State) (rid : string) (r : RunRecord) :
  list_runs args = true \/ list_techniques args = false ->
  runs_dir s !! rid = Some (Stored r) ->
  plain_name rid ->
  (length (glob_json (runs_dir s)) <= 20)%nat ->
  exists lines,
    cmd_list e args s = (inr 0, printing Stdout lines s)
    /\ In (ljust 30 (run_id r) +:+ " " +:+ ljust 15 (status r) +:+ " " +:+ ljust 10 (mode r))
          lines.
Proof.
  intros Hmode Hlook Hplain Hfew. rewrite cmd_list_runs_eq by done.
  eexists. split; [reflexivity|].
  pose proof (glob_json_stored _ _ _ Hlook Hplain) as Hin.
  assert (In (rid +:+ ".json") (sorted_reverse (glob_json (runs_dir s)))) as Hsorted.
  { apply list_elem_of_In. unfold sorted_reverse. rewrite merge_sort_Permutation.
    by apply list_elem_of_In. }
  destruct (sorted_reverse (glob_json (runs_dir s))) as [|n names] eqn:Hnames;
    [destruct Hsorted|].
  right. right. rewrite take_ge.
  2:{ rewrite <- Hnames. unfold sorted_reverse. by rewrite merge_sort_Permutation. }
  apply in_map_iff. exists (rid +:+ ".json"). split; [|done].
  unfold run_row. rewrite path_stem_json by apply Hplain. by rewrite Hlook.
Qed.

(** X23. A record saved under a plain run id (not empty, no '/') is found
    again: cmd_reveal of its id returns 0 and prints its fields, and, when the
    directory then holds at most 20 *.json files, cmd_list in runs mode prints
    a row with its id, status and mode (Path.stem of '<id>.json' is the id). *)
Theorem stored_run_is_listed (e : Env) (args : ListArgs) (r : RunRecord) (s : State) :
  list_runs args = true \/ list_techniques args = false ->
  plain_name (run_id r) ->
  let s1 := snd (RunRecord_save r s) in
  (length (glob_json (runs_dir s1)) <= 20)%nat ->
  cmd_reveal (run_id r) s1 = (inr 0, printing Stdout (reveal_lines r) s1)
  /\ exists lines,
       cmd_list e args s1 = (inr 0, printing Stdout lines s1)
       /\ In (ljust 30 (run_id r) +:+ " " +:+ ljust 15 (status r) +:+ " " +:+
              ljust 10 (mode r)) lines.
Proof.
  intros Hmode Hplain s1 Hfew.
  assert (runs_dir s1 !! run_id r = Some (Stored r)) as Hlook by apply lookup_insert_eq.
  split; [by apply cmd_reveal_stored|]. by eapply listed_row.
Qed.

(** X24. After cmd_run, cmd_reveal of the identifier of the last saved record
    returns 0 and prints that record: its 'Technique:' line names the
    technique every warmup and detonation call of the run was started with,
    its 'Status:' line the final status; generated run ids are plain names, so
    with at most 20 files cmd_list shows the run with that status. *)
Theorem run_is_revealed_and_listed (e e' : Env) (args : Args) (largs : ListArgs) (s : State) :
  let s1 := snd (cmd_run e args s) in
  forall r,
    last (new_saves s s1) = Some r ->
    cmd_reveal (run_id r) s1 = (inr 0, printing Stdout (reveal_lines r) s1)
    /\ In ("Technique:  " +:+ technique r) (reveal_lines r)
    /\ In ("Status:     " +:+ status r) (reveal_lines r)
    /\ (forall c, In c (new_calls s s1) -> warmup_invocation c ->
          call_cmd c = ["stratus"; "warmup"; technique r])
    /\ (forall c, In c (new_calls s s1) -> detonate_invocation c ->
          call_cmd c = detonate_cmd (is_validate args) (technique r))
    /\ (list_runs largs = true \/ list_techniques largs = false ->
        (length (glob_json (runs_dir s1)) <= 20)%nat ->
        exists lines,
          cmd_list e' largs s1 = (inr 0, printing Stdout lines s1)
          /\ In (ljust 30 (run_id r) +:+ " " +:+ ljust 15 (status r) +:+ " " +:+
                 ljust 10 (mode r)) lines).
Proof.
  cbv zeta.
  destruct (cmd_run_trace e args s) as (code & s1 & Heq & Htr & _).
  pose proof (cmd_run_summary e args s)
    as (code' & Heq' & _ & Hs' & _ & _ & Hdir & Hpath & _).
  rewrite Heq in Heq', Hs', Hdir, Hpath |- *. cbn [fst snd] in *.
  destruct Htr as (calls & saves & lines & naps & Hc & Hs & _ & _ & _ & _ & _ & Hlisted & _).
  unfold new_saves, new_calls in *.
  rewrite (new_part _ _ _ Hs), (new_part _ _ _ Hc) in *.
  intros r Hlast.
  pose proof (run_path_final e args _ _ _ (runs_dir s) Hpath r Hlast) as Hlook.
  rewrite <- Hdir in Hlook.
  assert (In r saves) as Hin.
  { apply list_elem_of_In. rewrite last_lookup in Hlast. by eapply list_elem_of_lookup_2. }
  assert (plain_name (run_id r)) as Hplain.
  { destruct saves as [|r0 rest]; [destruct Hin|]. destruct Hlisted as [_ Hplain].
    rewrite (run_path_same_record e args _ _ _ Hpath r r0); [done|done|by left]. }
  split; [by apply cmd_reveal_stored|].
  split; [unfold reveal_lines; cbn; tauto|].
  split; [unfold reveal_lines; cbn; tauto|].
  assert (forall c, setup_call args c -> ~ detonate_invocation c) as Hnd
    by (intros c Hsc; apply (setup_call_cmd args c Hsc)).
  assert (forall c, setup_call args c -> ~ warmup_invocation c) as Hnw
    by (intros c Hsc; apply (setup_call_cmd args c Hsc)).
  split; [|split].
  - intros c Hc' Hw. revert Hlast Hc'.
    inversion Hpath as [ cs Hsetup
                       | ci cl cw r0 Hci Hcl _ [Hcw _] _
                       | ci cl cw r0 t msg Hci Hcl _ [Hcw _] _
                       | ci cl cw cd r0 t Hci Hcl _ [Hcw _] _ Hcd _
                       | ci cl cw cd r0 t k Hci Hcl _ [Hcw _] _ Hcd _
                       | ci cl cw cd r0 t k msg Hci Hcl _ [Hcw _] _ Hcd _ ]; subst;
      cbn [last]; intros [= <-]; cbn [In]; intros Hc';
      repeat (destruct Hc' as [<-|Hc']; [try (by apply Hnw in Hw)|]);
      try (by destruct Hc');
      try (by destruct (detonate_call_cmd args _ _ Hcd Hw));
      rewrite Hcw; unfold detonated; by destruct (is_validate args).
  - intros c Hc' Hd. revert Hlast Hc'.
    inversion Hpath as [ cs Hsetup
                       | ci cl cw r0 Hci Hcl _ Hcw _
                       | ci cl cw r0 t msg Hci Hcl _ Hcw _
                       | ci cl cw cd r0 t Hci Hcl _ Hcw _ [Hcd _] _
                       | ci cl cw cd r0 t k Hci Hcl _ Hcw _ [Hcd _] _
                       | ci cl cw cd r0 t k msg Hci Hcl _ Hcw _ [Hcd _] _ ]; subst;
      cbn [last]; intros [= <-]; cbn [In]; intros Hc';
      repeat (destruct Hc' as [<-|Hc']; [try (by apply Hnd in Hd)|]);
      try (by destruct Hc');
      try (by destruct (warmup_call_cmd _ _ Hcw Hd));
      rewrite Hcd; unfold detonated; by destruct (is_validate args).
  - intros Hmode Hfew. by eapply listed_row.
Qed.

(** ** The minimal script: the listing *)

Ltac mini_fields :=
  cbn [Minimal.runs Minimal.environ Minimal.call_at Minimal.clock_at Minimal.random_at Minimal.calls
       Minimal.output Minimal.with_runs Minimal.with_environ Minimal.with_call Minimal.with_clock_at
       Minimal.with_random_at Minimal.with_output] in *.

Ltac mini_exec :=
  cbv beta iota zeta delta
    [mbind Minimal.P_bind mret Minimal.P_ret Minimal.fail Minimal.sys_exit Minimal.value Minimal.read
     Minimal.update Minimal.echo Minimal.now];
  mini_fields.

Lemma mini_run_cmd_eq (e : Env) (cmd : list string) (check : bool) (p : Minimal.Process) :
  let c := next_call e cmd p in
  Minimal.run_cmd e cmd check p
  = if check && negb (succeeded c)
    then (Minimal.Exited 1, call_failed c p)
    else (Minimal.Returned (call_result c), Minimal.with_call c p).
Proof.
  cbv zeta. unfold Minimal.run_cmd, next_call, succeeded, call_of, call_failed.
  unfold mbind at 1, Minimal.P_bind at 1. cbn [call_result call_cmd].
  destruct (check && _); [|reflexivity].
  mini_exec. by rewrite <- app_assoc.
Qed.

Lemma lstrip_chars_suffix (l : list ascii) : exists k, l = (k ++ PyStr.lstrip_chars l)%list.
Proof.
  induction l as [|c l [k IH]]; [by exists []|]. cbn [PyStr.lstrip_chars].
  destruct (PyStr.isspace c).
  - exists (c :: k). cbn. by rewrite <- IH.
  - by exists [].
Qed.

Lemma rstrip_chars_prefix (l : list ascii) : exists k, l = (PyStr.rstrip_chars l ++ k)%list.
Proof.
  unfold PyStr.rstrip_chars. destruct (lstrip_chars_suffix (rev l)) as [k Hk].
  exists (rev k). rewrite <- rev_app_distr, <- Hk. by rewrite rev_involutive.
Qed.

Lemma startswith_aws_chars (s : string) :
  PyStr.startswith "aws." s = true ->
  exists tail, PyStr.chars s = ("a" :: "w" :: "s" :: "." :: tail)%char%list.
Proof.
  unfold PyStr.startswith. intros Hpre.
  destruct s as [|c1 [|c2 [|c3 [|c4 tail]]]]; cbn [String.prefix] in Hpre;
    repeat match type of Hpre with
           | match ascii_dec ?a ?b with _ => _ end = true =>
               destruct (ascii_dec a b) as [<-|]; [|discriminate]
           end; try discriminate.
  by exists (PyStr.chars tail).
Qed.

Lemma first_word_of_listed_line (line : string) :
  PyStr.startswith "aws." (PyStr.strip line) = true ->
  exists technique rest,
    PyStr.split_first line = technique :: rest /\ catalog_id technique.
Proof.
  intros Hpre. apply startswith_aws_chars in Hpre as [tail Htail].
  unfold PyStr.strip in Htail. unfold PyStr.chars at 1, PyStr.text in Htail.
  rewrite list_ascii_of_string_of_list_ascii in Htail.
  destruct (rstrip_chars_prefix (PyStr.lstrip_chars (PyStr.chars line))) as [k Hk].
  rewrite Htail in Hk. cbn [app] in Hk.
  unfold PyStr.split_first. rewrite Hk.
  set (word := PyStr.take_word _).
  assert (catalog_id (PyStr.text word)) as Hid.
  { subst word. split.
    - cbn [PyStr.take_word]. change (PyStr.isspace "a") with false.
      change (PyStr.isspace "w") with false. change (PyStr.isspace "s") with false.
      change (PyStr.isspace ".") with false. cbv iota.
      unfold PyStr.startswith, PyStr.text. cbn [string_of_list_ascii String.prefix].
      repeat (destruct (ascii_dec _ _) as [_|Hne]; [|by destruct Hne]).
      by destruct (string_of_list_ascii _).
    - unfold PyStr.chars, PyStr.text. rewrite list_ascii_of_string_of_list_ascii.
      apply take_word_nonspace. }
  destruct (PyStr.lstrip_chars (PyStr.drop_word _)); by eexists _, _.
Qed.

Lemma collect_techniques_eq (lines : list string) (techniques : list string)
    (p : Minimal.Process) :
  Minimal.collect_techniques lines techniques p
  = (Minimal.Returned (techniques ++ listed_ids lines)%list, p).
Proof.
  revert techniques. induction lines as [|line lines IH]; intros techniques.
  - cbn. by rewrite app_nil_r.
  - cbn [Minimal.collect_techniques listed_ids].
    destruct (PyStr.startswith "aws." (PyStr.strip line)) eqn:Hpre; [|apply IH].
    destruct (first_word_of_listed_line line Hpre) as (t & rest & -> & _).
    rewrite IH. by rewrite <- app_assoc.
Qed.

Lemma listed_ids_catalog (lines : list string) : Forall catalog_id (listed_ids lines).
Proof.
  induction lines as [|line lines IH]; [constructor|]. cbn [listed_ids].
  destruct (PyStr.startswith "aws." (PyStr.strip line)) eqn:Hpre; [|done].
  destruct (first_word_of_listed_line line Hpre) as (t & rest & -> & Hid).
  by constructor.
Qed.

Lemma mini_get_techniques_eq (e : Env) (p : Minimal.Process) :
  let c := next_call e ["stratus"; "list"; "--platform"; "aws"] p in
  Minimal.get_techniques e p
  = if succeeded c
    then (Minimal.Returned (listed_ids (PyStr.splitlines (stdout (call_result c)))),
          Minimal.with_call c p)
    else (Minimal.Exited 1, call_failed c p).
Proof.
  cbv zeta. unfold Minimal.get_techniques. unfold mbind, Minimal.P_bind.
  rewrite mini_run_cmd_eq. cbn [andb].
  destruct (succeeded _); cbn [negb]; [|reflexivity].
  by rewrite collect_techniques_eq.
Qed.

(** X25. get_techniques of the minimal script starts one child process. When
    that fails, run_cmd prints two lines to stderr and the process exits with
    code 1; otherwise the function returns and never raises IndexError on
    line.split()[0], and every id returned starts with 'aws.' and holds no
    white space. *)
Theorem minimal_get_techniques_ids (e : Env) (p : Minimal.Process) :
  let c := next_call e ["stratus"; "list"; "--platform"; "aws"] p in
  match fst (Minimal.get_techniques e p) with
  | Minimal.Returned ids =>
      succeeded c = true
      /\ Forall catalog_id ids
      /\ snd (Minimal.get_techniques e p) = Minimal.with_call c p
  | Minimal.Exited code =>
      succeeded c = false /\ code = 1
      /\ snd (Minimal.get_techniques e p) = call_failed c p
  | Minimal.Raised _ => False
  end.
Proof.
  cbv zeta. rewrite mini_get_techniques_eq.
  destruct (succeeded _); cbn [fst snd]; [|done].
  split; [done|]. split; [apply listed_ids_catalog|done].
Qed.

(** ** The minimal script: running and revealing *)

Lemma mini_get_aws_account_eq (e : Env) (p : Minimal.Process) :
  let c := next_call e identity_cmd p in
  Minimal.get_aws_account e p
  = if succeeded c
    then (match json_loads e (stdout (call_result c)) with
          | None => Minimal.Raised (Exn JSONDecodeError "Expecting value")
          | Some data =>
              match subscript data "Account" with
              | inl ex => Minimal.Raised ex
              | inr v => Minimal.Returned v
              end
          end, Minimal.with_call c p)
    else (Minimal.Exited 1, call_failed c p).
Proof.
  cbv zeta. unfold Minimal.get_aws_account. fold identity_cmd.
  unfold mbind, Minimal.P_bind. rewrite mini_run_cmd_eq. cbn [andb].
  destruct (succeeded _); cbn [negb]; [|reflexivity].
  destruct (json_loads e _) as [data|]; [|reflexivity].
  unfold Minimal.value. by destruct (subscript data "Account").
Qed.

Lemma bind_returned {A B} (m : Minimal.P A) (k : A -> Minimal.P B) (p p' : Minimal.Process) (a : A) :
  m p = (Minimal.Returned a, p') -> (x ← m; k x) p = k a p'.
Proof. intros H. unfold mbind, Minimal.P_bind. by rewrite H. Qed.

Lemma bind_exited {A B} (m : Minimal.P A) (k : A -> Minimal.P B) (p p' : Minimal.Process) (code : Z) :
  m p = (Minimal.Exited code, p') -> (x ← m; k x) p = (Minimal.Exited code, p').
Proof. intros H. unfold mbind, Minimal.P_bind. by rewrite H. Qed.

Lemma bind_raised {A B} (m : Minimal.P A) (k : A -> Minimal.P B) (p p' : Minimal.Process) (ex : exn) :
  m p = (Minimal.Raised ex, p') -> (x ← m; k x) p = (Minimal.Raised ex, p').
Proof. intros H. unfold mbind, Minimal.P_bind. by rewrite H. Qed.

Lemma update_then {A} (f : Minimal.Process -> Minimal.Process) (k : Minimal.P A) (p : Minimal.Process) :
  (Minimal.update f;; k) p = k (f p).
Proof. reflexivity. Qed.

Lemma echo_then {A} (out : stream) (line : string) (k : Minimal.P A) (p : Minimal.Process) :
  (Minimal.echo out line;; k) p = k (Minimal.with_output (Minimal.output p ++ [(out, line)]) p).
Proof. reflexivity. Qed.

Lemma now_then {A} (e : Env) (k : datetime -> Minimal.P A) (p : Minimal.Process) :
  (t ← Minimal.now e; k t) p
  = k (clock e (Minimal.clock_at p)) (Minimal.with_clock_at (S (Minimal.clock_at p)) p).
Proof. reflexivity. Qed.

Lemma read_then {A B} (proj : Minimal.Process -> A) (k : A -> Minimal.P B) (p : Minimal.Process) :
  (x ← Minimal.read proj; k x) p = k (proj p) p.
Proof. reflexivity. Qed.

Lemma choice_then {A} (e : Env) (k : string -> Minimal.P A) (ids : list string)
    (p : Minimal.Process) :
  ids <> [] ->
  (t ← Minimal.choice e ids; k t) p
  = k (nth (random_draw e (Minimal.random_at p) mod length ids) ids "")
      (Minimal.with_random_at (S (Minimal.random_at p)) p).
Proof.
  intros Hne. destruct ids as [|t0 ts]; [done|].
  unfold mbind, Minimal.P_bind, Minimal.choice.
  rewrite (nth_indep _ t0 "") by (apply Nat.mod_upper_bound; done). reflexivity.
Qed.

Lemma mkdir_write_then {A} (rid : string) (data : pyval) (k : Minimal.P A) (p : Minimal.Process) :
  (Minimal.mkdir_runs;; Minimal.write_run rid data;; k) p
  = k (Minimal.with_runs (Some (<[rid := Json data]> (default ∅ (Minimal.runs p)))) p).
Proof.
  unfold Minimal.mkdir_runs, Minimal.write_run. rewrite update_then.
  unfold mbind at 1, Minimal.P_bind at 1. unfold mbind at 1, Minimal.P_bind at 1, Minimal.read.
  destruct (Minimal.runs p) as [files|] eqn:Hruns; mini_fields; rewrite ?Hruns; reflexivity.
Qed.

Lemma mkdir_then {A} (k : Minimal.P A) (p : Minimal.Process) :
  (Minimal.mkdir_runs;; k) p = k (Minimal.with_runs (Some (default ∅ (Minimal.runs p))) p).
Proof.
  unfold Minimal.mkdir_runs. rewrite update_then.
  destruct p as [[files|] ? ? ? ? ? ?]; reflexivity.
Qed.

Lemma write_run_then {A} (rid : string) (data : pyval) (k : Minimal.P A)
    (files : gmap string hist_file) (p : Minimal.Process) :
  Minimal.runs p = Some files ->
  (Minimal.write_run rid data;; k) p = k (Minimal.with_runs (Some (<[rid := Json data]> files)) p).
Proof.
  intros Hruns. unfold Minimal.write_run.
  unfold mbind at 1, Minimal.P_bind at 1. unfold mbind at 1, Minimal.P_bind at 1, Minimal.read.
  by rewrite Hruns.
Qed.

Lemma run_cmd_then {A} (e : Env) (cmd : list string) (k : Minimal.P A) (p : Minimal.Process) :
  (Minimal.run_cmd e cmd true;; k) p
  = if succeeded (next_call e cmd p)
    then k (Minimal.with_call (next_call e cmd p) p)
    else (Minimal.Exited 1, call_failed (next_call e cmd p) p).
Proof.
  unfold mbind, Minimal.P_bind. rewrite mini_run_cmd_eq. cbn [andb].
  by destruct (succeeded _).
Qed.

(** The run when the account check has passed and techniques are listed. *)
Lemma do_run_launched (e : Env) (args : Minimal.RunArgs) (p : Minimal.Process) :
  account_checked e args p ->
  succeeded (listing_call e args p) = true ->
  listing e args p <> [] ->
  Minimal.do_run e args p
  = if succeeded (warmup_of e args p)
    then if succeeded (detonation_of e args p)
         then (Minimal.Returned 0,
               Minimal.with_call (detonation_of e args p)
                 (Minimal.with_call (warmup_of e args p) (announced e args p)))
         else (Minimal.Exited 1,
               call_failed (detonation_of e args p)
                 (Minimal.with_call (warmup_of e args p) (announced e args p)))
    else (Minimal.Exited 1, call_failed (warmup_of e args p) (announced e args p)).
Proof.
  intros (Hok & data & Hdata & Hacct) Hlist Hids.
  unfold Minimal.do_run.
  erewrite bind_returned
    by (rewrite mini_get_aws_account_eq, Hok, Hdata, Hacct; reflexivity).
  cbn [str_eq]. rewrite String.eqb_refl. cbn [negb].
  rewrite !update_then. mini_fields.
  change (Minimal.with_environ _ (Minimal.with_environ _ _)) with (checked e args p).
  erewrite bind_returned
    by (rewrite mini_get_techniques_eq; fold (listing_call e args p); rewrite Hlist;
        reflexivity).
  fold (listing e args p).
  destruct (listing e args p) as [|t0 ts] eqn:Hl; [done|]. rewrite <- Hl.
  rewrite choice_then by (by rewrite Hl).
  change (Minimal.random_at (Minimal.with_call _ (checked e args p))) with (Minimal.random_at p).
  fold (drawn e args p).
  rewrite now_then, mkdir_then, now_then.
  erewrite write_run_then by reflexivity.
  rewrite !echo_then. mini_fields. rewrite <- app_assoc. cbn [app].
  match goal with |- _ ?q = _ => change q with (announced e args p) end.
  rewrite run_cmd_then.
  fold (warmup_of e args p).
  destruct (succeeded (warmup_of e args p)); [|reflexivity].
  rewrite run_cmd_then.
  change (next_call e _ (Minimal.with_call _ _)) with (detonation_of e args p).
  by destruct (succeeded (detonation_of e args p)).
Qed.

Lemma new_child_calls_after (p p' : Minimal.Process) (extra : list proc_call) :
  Minimal.calls p' = (Minimal.calls p ++ extra)%list -> new_child_calls p p' = extra.
Proof. intros H. unfold new_child_calls. rewrite H. apply drop_app_length. Qed.

Lemma new_output_after (p p' : Minimal.Process) (extra : list (stream * string)) :
  Minimal.output p' = (Minimal.output p ++ extra)%list -> new_output p p' = extra.
Proof. intros H. unfold new_output. rewrite H. apply drop_app_length. Qed.

(** X26. The account check of the minimal script: either the identity call
    succeeded and its 'Account' equals --account, or do_run does nothing but
    that one call: no file is written, os.environ is not changed, nothing is
    printed to stdout and the result is not a return of 0. *)
Theorem minimal_do_run_account_check (e : Env) (args : Minimal.RunArgs) (p : Minimal.Process) :
  let r := Minimal.do_run e args p in
  account_checked e args p
  \/ (new_child_calls p (snd r) = [next_call e identity_cmd p]
      /\ Minimal.runs (snd r) = Minimal.runs p
      /\ Minimal.environ (snd r) = Minimal.environ p
      /\ fst r <> Minimal.Returned 0
      /\ on_stream Stdout (new_output p (snd r)) = []).
Proof.
  cbv zeta. unfold account_checked. cbv zeta.
  pose proof (mini_get_aws_account_eq e p) as Hacct. cbv zeta in Hacct.
  set (c := next_call e identity_cmd p) in *.
  unfold Minimal.do_run.
  destruct (succeeded c) eqn:Hok.
  2:{ right. erewrite bind_exited by exact Hacct. cbn [fst snd].
      split; [by apply new_child_calls_after|]. split; [reflexivity|].
      split; [reflexivity|]. split; [discriminate|].
      erewrite new_output_after by reflexivity. reflexivity. }
  destruct (json_loads e (stdout (call_result c))) as [data|] eqn:Hdata.
  2:{ right. erewrite bind_raised by exact Hacct. cbn [fst snd].
      split; [by apply new_child_calls_after|]. split; [reflexivity|].
      split; [reflexivity|]. split; [discriminate|].
      unfold new_output. mini_fields. by rewrite drop_all. }
  destruct (subscript data "Account") as [ex|v] eqn:Hv.
  { right. erewrite bind_raised by exact Hacct. cbn [fst snd].
    split; [by apply new_child_calls_after|]. split; [reflexivity|].
    split; [reflexivity|]. split; [discriminate|].
    unfold new_output. mini_fields. by rewrite drop_all. }
  erewrite bind_returned by exact Hacct.
  destruct (str_eq (Minimal.run_account args) v) eqn:Heq.
  - left. apply str_eq_true in Heq. subst v. split; [reflexivity|]. by exists data.
  - right. cbn [negb]. rewrite echo_then. cbn [fst snd mret Minimal.P_ret].
    split; [by apply new_child_calls_after|]. split; [reflexivity|].
    split; [reflexivity|]. split; [discriminate|].
    erewrite new_output_after by reflexivity. reflexivity.
Qed.

Lemma drawn_listed (e : Env) (args : Minimal.RunArgs) (p : Minimal.Process) :
  listing e args p <> [] ->
  In (drawn e args p) (listing e args p) /\ catalog_id (drawn e args p).
Proof.
  intros Hne. assert (In (drawn e args p) (listing e args p)) as Hin.
  { unfold drawn. cbv zeta. apply nth_In, Nat.mod_upper_bound.
    by destruct (listing e args p). }
  split; [done|]. pose proof (listed_ids_catalog
    (PyStr.splitlines (stdout (call_result (listing_call e args p))))) as Hall.
  rewrite List.Forall_forall in Hall. by apply Hall.
Qed.

(** X27. A run of the minimal script that passed the account check and listed
    a technique: the technique drawn is one of the listing; the record is
    written under the time stamp alone (replacing any file of that name) and
    'RUN_ID' and 'Attack launched' are printed before any tool is started;
    warmup and detonation get the region through os.environ, the detonation
    gets --cleanup exactly when asked; a failed warmup exits with 1 without
    detonating, a failed detonation exits with 1, and the record stays as
    written. *)
Theorem minimal_do_run_launch (e : Env) (args : Minimal.RunArgs) (p : Minimal.Process) :
  account_checked e args p ->
  succeeded (listing_call e args p) = true ->
  listing e args p <> [] ->
  let r := Minimal.do_run e args p in
  let technique := drawn e args p in
  let rid := strftime_compact (clock e (Minimal.clock_at p)) in
  let cw := warmup_of e args p in
  let cd := detonation_of e args p in
  In technique (listing e args p)
  /\ catalog_id technique
  /\ Minimal.runs (snd r)
     = Some (<[rid := Json (run_data e args technique p)]> (default ∅ (Minimal.runs p)))
  /\ on_stream Stdout (new_output p (snd r))
     = ["RUN_ID: " +:+ rid; "Attack launched. Check your detections."]
  /\ new_child_calls p (snd r)
     = ([next_call e identity_cmd p; listing_call e args p; cw]
        ++ (if succeeded cw then [cd] else []))%list
  /\ call_cmd cw = ["stratus"; "warmup"; technique]
  /\ call_cmd cd = (["stratus"; "detonate"; technique]
                    ++ (if Minimal.run_cleanup args then ["--cleanup"] else []))%list
  /\ call_env cw = region_set args p
  /\ call_env cd = region_set args p
  /\ (Minimal.environ p = [] -> region_set args p = region_env (Minimal.run_region args))
  /\ fst r = (if succeeded cw && succeeded cd then Minimal.Returned 0 else Minimal.Exited 1).
Proof.
  intros Hacct Hlist Hids. cbv zeta.
  destruct (drawn_listed e args p Hids) as [Hin Hid].
  split; [exact Hin|]. split; [exact Hid|].
  rewrite (do_run_launched e args p Hacct Hlist Hids).
  assert (region_set args p = region_set args p) as _ by reflexivity.
  split; [by destruct (succeeded (warmup_of e args p)), (succeeded (detonation_of e args p))|].
  split.
  { destruct (succeeded (warmup_of e args p)), (succeeded (detonation_of e args p));
      cbn [snd]; (erewrite new_output_after; [|unfold call_failed, announced; mini_fields;
        rewrite <- ?app_assoc; reflexivity]); reflexivity. }
  split.
  { destruct (succeeded (warmup_of e args p)), (succeeded (detonation_of e args p));
      cbn [snd]; apply new_child_calls_after; unfold call_failed, announced, checked;
      mini_fields; rewrite <- ?app_assoc; reflexivity. }
  split; [reflexivity|]. split; [reflexivity|]. split; [reflexivity|].
  split; [reflexivity|]. split.
  { unfold region_set. intros ->. reflexivity. }
  by destruct (succeeded (warmup_of e args p)), (succeeded (detonation_of e args p)).
Qed.

Lemma value_then {A B} (r : exn + A) (k : A -> Minimal.P B) (p : Minimal.Process) :
  (x ← Minimal.value r; k x) p
  = match r with inl ex => (Minimal.Raised ex, p) | inr a => k a p end.
Proof. by destruct r. Qed.

Lemma reveal_field_then {A} (label : string) (data : pyval) (key : string)
    (k : Minimal.P A) (p : Minimal.Process) :
  (Minimal.reveal_field label data key;; k) p
  = match subscript data key with
    | inl ex => (Minimal.Raised ex, p)
    | inr v => k (Minimal.with_output (Minimal.output p ++ [(Stdout, label +:+ py_str v)]) p)
    end.
Proof.
  unfold Minimal.reveal_field. unfold mbind at 1, Minimal.P_bind at 1.
  unfold mbind at 1, Minimal.P_bind at 1, Minimal.value at 1.
  by destruct (subscript data key).
Qed.

Lemma do_reveal_written (e : Env) (args : Minimal.RunArgs) (technique rid : string)
    (p q : Minimal.Process) (files : gmap string hist_file) :
  Minimal.runs q = Some files ->
  files !! rid = Some (Json (run_data e args technique p)) ->
  Minimal.do_reveal rid q
  = (Minimal.Returned 0,
     Minimal.with_output (Minimal.output q ++ map (pair Stdout) (revealed e args technique p)) q).
Proof.
  intros Hruns Hlook. unfold Minimal.do_reveal. rewrite read_then, Hruns.
  cbn [mbind option_bind]. rewrite Hlook. unfold run_data.
  repeat (rewrite reveal_field_then; cbn [subscript dict_get String.eqb Ascii.eqb Bool.eqb
                                           fst snd py_str]).
  cbn [mret Minimal.P_ret Minimal.output Minimal.with_output]. rewrite <- !app_assoc.
  unfold revealed. cbn [map app py_repr].
  by destruct (Minimal.run_cleanup args).
Qed.

(** X28. After such a run of the minimal script, do_reveal of the run id
    returns 0 and prints the six fields of the record; the technique shown is
    the one the warmup call was started with, whether or not warmup or
    detonation succeeded (the record has no status). *)
Theorem minimal_reveal_after_run (e : Env) (args : Minimal.RunArgs) (p : Minimal.Process) :
  account_checked e args p ->
  succeeded (listing_call e args p) = true ->
  listing e args p <> [] ->
  let q := snd (Minimal.do_run e args p) in
  let rid := strftime_compact (clock e (Minimal.clock_at p)) in
  exists technique,
    call_cmd (warmup_of e args p) = ["stratus"; "warmup"; technique]
    /\ In (warmup_of e args p) (new_child_calls p q)
    /\ Minimal.do_reveal rid q
       = (Minimal.Returned 0,
          Minimal.with_output (Minimal.output q ++ map (pair Stdout) (revealed e args technique p)) q)
    /\ In ("Technique: " +:+ technique) (revealed e args technique p).
Proof.
  intros Hacct Hlist Hids. cbv zeta. exists (drawn e args p).
  split; [reflexivity|].
  rewrite (do_run_launched e args p Hacct Hlist Hids).
  set (q := snd _).
  assert (Minimal.runs q
          = Some (<[strftime_compact (clock e (Minimal.clock_at p))
                    := Json (run_data e args (drawn e args p) p)]>
                    (default ∅ (Minimal.runs p)))) as Hruns.
  { subst q. by destruct (succeeded (warmup_of e args p)),
                         (succeeded (detonation_of e args p)). }
  assert (exists rest, Minimal.calls q
            = (Minimal.calls p ++ [next_call e identity_cmd p; listing_call e args p;
                                warmup_of e args p] ++ rest)%list) as [rest Hcalls].
  { subst q. destruct (succeeded (warmup_of e args p)),
                       (succeeded (detonation_of e args p)); cbn [snd];
      unfold call_failed, announced, checked; mini_fields; rewrite <- ?app_assoc;
      cbn [app]; eexists; f_equal; f_equal; f_equal; f_equal;
      first [reflexivity | symmetry; apply app_nil_r | instantiate (1 := []); reflexivity]. }
  clearbody q. split; [|split].
  - rewrite (new_child_calls_after _ _ _ Hcalls). cbn [app In]. tauto.
  - eapply do_reveal_written; [exact Hruns|]. apply lookup_insert_eq.
  - unfold revealed. cbn [In]. tauto.
Qed.

(** X29. do_reveal of the minimal script: with no such file (or no run
    directory) it prints an error to stderr and returns 1; a file that does
    not decode makes it raise, and one that is not valid text makes it raise
    UnicodeDecodeError; a document without 'run_id' makes it raise before
    printing; a document with 'run_id' but without 'technique' gets its first
    line printed and then raises; otherwise it prints at most six lines, six
    when it returns 0. *)
Theorem minimal_do_reveal_cases (rid : string) (p : Minimal.Process) :
  match Minimal.runs p ≫= (fun files => files !! rid) with
  | None =>
      Minimal.do_reveal rid p
      = (Minimal.Returned 1,
         Minimal.with_output
           (Minimal.output p ++ [(Stderr, "ERROR: Run " +:+ rid +:+ " not found")]) p)
  | Some Undecodable => exists ex, Minimal.do_reveal rid p = (Minimal.Raised ex, p)
  | Some Unreadable =>
      exists msg, Minimal.do_reveal rid p = (Minimal.Raised (Exn UnicodeDecodeError msg), p)
  | Some (Json data) =>
      match subscript data "run_id", subscript data "technique" with
      | inl ex, _ => Minimal.do_reveal rid p = (Minimal.Raised ex, p)
      | inr v, inl ex =>
          Minimal.do_reveal rid p
          = (Minimal.Raised ex,
             Minimal.with_output (Minimal.output p ++ [(Stdout, "Run ID:    " +:+ py_str v)]) p)
      | inr v, inr t =>
          exists lines,
            Minimal.output (snd (Minimal.do_reveal rid p))
            = (Minimal.output p ++ (Stdout, "Run ID:    " +:+ py_str v)
                             :: (Stdout, "Technique: " +:+ py_str t) :: lines)%list
            /\ (length lines <= 4)%nat
            /\ (fst (Minimal.do_reveal rid p) = Minimal.Returned 0 -> length lines = 4%nat)
      end
  end.
Proof.
  unfold Minimal.do_reveal. rewrite read_then.
  destruct (Minimal.runs p ≫= (fun files => files !! rid)) as [[| |data]|].
  - by eexists.
  - by eexists.
  - rewrite reveal_field_then.
    destruct (subscript data "run_id") as [ex|v]; [reflexivity|].
    rewrite reveal_field_then.
    destruct (subscript data "technique") as [ex|t]; [reflexivity|].
    rewrite !reveal_field_then. mini_fields.
    destruct (subscript data "account") as [ex|v3]; cbn [fst snd].
    { exists []. mini_fields. rewrite <- app_assoc. split; [reflexivity|].
      split; [cbn; lia|discriminate]. }
    rewrite reveal_field_then.
    destruct (subscript data "region") as [ex|v4]; cbn [fst snd].
    { eexists [_]. mini_fields. rewrite <- !app_assoc. split; [reflexivity|].
      split; [cbn; lia|discriminate]. }
    rewrite reveal_field_then.
    destruct (subscript data "started_at") as [ex|v5]; cbn [fst snd].
    { eexists [_; _]. mini_fields. rewrite <- !app_assoc. split; [reflexivity|].
      split; [cbn; lia|discriminate]. }
    rewrite reveal_field_then.
    destruct (subscript data "cleanup") as [ex|v6]; cbn [fst snd].
    { eexists [_; _; _]. mini_fields. rewrite <- !app_assoc. split; [reflexivity|].
      split; [cbn; lia|discriminate]. }
    eexists [_; _; _; _]. cbn [mret Minimal.P_ret fst snd]. mini_fields.
    rewrite <- !app_assoc. split; [reflexivity|]. split; [cbn; lia|reflexivity].
  - reflexivity.
Qed.

Lemma echo_all_eq (lines : list string) (p : Minimal.Process) :
  Minimal.echo_all lines p
  = (Minimal.Returned tt, Minimal.with_output (Minimal.output p ++ map (pair Stdout) lines) p).
Proof.
  revert p. induction lines as [|line lines IH]; intros p.
  - cbn. rewrite app_nil_r. by destruct p.
  - cbn [Minimal.echo_all map]. rewrite echo_then, IH. mini_fields.
    by rewrite <- app_assoc.
Qed.

(** X30. list-runs of the minimal script returns 0 and changes only stdout:
    without a run directory it prints 'No runs yet.'; with one (possibly
    empty, then nothing is printed) it prints the stem of each *.json file in
    ascending order of the names (the list printed from is a permutation of
    the names of the directory and is sorted by <= on strings), and when all
    names are plain those stems are exactly the run ids the files were written
    under. *)
Theorem minimal_list_runs (e : Env) (p : Minimal.Process) :
  Minimal.main e Minimal.ListRuns p
  = (Minimal.Returned 0,
     Minimal.with_output
       (Minimal.output p
        ++ map (pair Stdout)
             match Minimal.runs p with
             | None => ["No runs yet."]
             | Some files => map path_stem (sorted (glob_json files))
             end) p)
  /\ forall files,
       Minimal.runs p = Some files ->
       sorted (glob_json files) ≡ₚ glob_json files
       /\ Sorted (fun a b => String.leb a b) (sorted (glob_json files))
       /\ ((forall k, is_Some (files !! k) -> plain_name k) ->
           map path_stem (sorted (glob_json files)) ≡ₚ map fst (map_to_list files)).
Proof.
  split.
  - unfold Minimal.main. rewrite read_then. destruct (Minimal.runs p) as [files|].
    + unfold mbind, Minimal.P_bind. by rewrite echo_all_eq.
    + reflexivity.
  - intros files _. split; [apply merge_sort_Permutation|].
    split; [apply sorted_order|]. intros Hplain.
    unfold sorted. rewrite merge_sort_Permutation. unfold glob_json.
    assert (forall k, In k (map fst (map_to_list files)) -> plain_name k) as Hkeys.
    { intros k Hk. apply in_map_iff in Hk as ([k' f] & <- & Hk).
      apply Hplain. exists f. apply elem_of_map_to_list. by apply list_elem_of_In. }
    revert Hkeys. generalize (map fst (map_to_list files)). intros keys Hkeys.
    induction keys as [|k keys IH]; [reflexivity|]. cbn [List.filter].
    destruct (Hkeys k (or_introl eq_refl)) as [Hne Hslash]. rewrite Hslash. cbn [negb map].
    rewrite path_stem_json by done. constructor. apply IH.
    intros k' Hk'. apply Hkeys. by right.
Qed.

(** * Further concrete runs *)

Lemma acquire_excludes_second_witness :
  exists s1 s2,
    acquire (sample_env 1 0 0) initial_state = (inr true, s1)
    /\ acquire (sample_env 2 0 0) (other_process s1) = (inr false, s2)
    /\ get_holder_pid s2 = (inr (Some 1), s2).
Proof.
  destruct (acquire_excludes_second (sample_env 1 0 0) (sample_env 2 0 0) initial_state
              eq_refl) as (s1 & H1 & _ & s2 & H2 & _ & _ & Hpid & _).
  exists s1, s2. split; [exact H1|]. split; [exact H2|exact Hpid].
Defined.

Lemma release_frees_lock_witness :
  let s2 := snd (release (snd (acquire (sample_env 1 0 0) initial_state))) in
  lock_owner s2 = None
  /\ get_holder_pid s2 = (inr (Some 1), s2)
  /\ fst (acquire (sample_env 2 0 0) (other_process s2)) = inr true.
Proof.
  cbv zeta.
  destruct (release_frees_lock (sample_env 1 0 0) (sample_env 2 0 0) initial_state eq_refl)
    as (Hown & _ & Hpid & _ & s3 & H3 & _).
  split; [exact Hown|]. split; [exact Hpid|]. rewrite H3. reflexivity.
Defined.

Lemma save_history_load_history_witness :
  let s' := snd (save_history (map PStr ["a"; "b"; "c"]) 2 initial_state) in
  load_history s' = (inr (PList (last_entries 2 (map PStr ["a"; "b"; "c"]))), s').
Proof.
  cbv zeta.
  destruct (save_history_load_history (map PStr ["a"; "b"; "c"]) 2 initial_state)
    as [Hload _]; [lia|exact Hload].
Defined.

Lemma select_technique_avoids_recent_witness :
  let s := with_history ["aws.persistence.iam-backdoor-user"] initial_state in
  exists t s',
    select_technique (sample_env 1 0 0) sample_catalog true 5 s = (inr t, s')
    /\ In t sample_catalog
    /\ ~ In (tech_id t) (PyStr.slice_from (- 5) ["aws.persistence.iam-backdoor-user"]).
Proof.
  cbv zeta.
  destruct (select_technique_avoids_recent (sample_env 1 0 0) sample_catalog 5
              (with_history ["aws.persistence.iam-backdoor-user"] initial_state)
              ["aws.persistence.iam-backdoor-user"]
              {| tech_id := "aws.discovery.ec2-enumerate"; tech_name := "Enumerate EC2" |})
    as [Hsel _].
  - reflexivity.
  - right. left. reflexivity.
  - vm_compute. intros [H|[]]. discriminate.
  - exact Hsel.
Defined.

Lemma select_technique_ignores_history_witness :
  exists t,
    select_technique (sample_env 1 0 0) sample_catalog false 5
      (with_history ["aws.persistence.iam-backdoor-user"] initial_state)
    = (inr t, with_random_pos 1
                (with_history ["aws.persistence.iam-backdoor-user"] initial_state))
    /\ In t sample_catalog.
Proof.
  destruct (select_technique_ignores_history (sample_env 1 0 0) sample_catalog 5
              (with_history ["aws.persistence.iam-backdoor-user"] initial_state))
    as [Hsel _]; [discriminate|exact Hsel].
Defined.

Lemma bad_dwell_range_witness :
  let r := cmd_run (sample_env 1 0 0) hasty_args initial_state in
  fst r = inr 1
  /\ slept (snd r) = []
  /\ forall c, In c (new_calls initial_state (snd r)) -> ~ detonate_invocation c.
Proof.
  cbv zeta.
  destruct (bad_dwell_range_never_detonates (sample_env 1 0 0) hasty_args initial_state)
    as (Hcode & Hslept & _ & Hcalls & _).
  - reflexivity.
  - split; [exact Hcode|]. split; [exact Hslept|exact Hcalls].
Defined.

Lemma cmd_cleanup_spec_witness :
  plain_name (run_id sample_record)
  /\ exists s' r',
       cmd_cleanup (sample_env 1 0 0) (run_id sample_record) stored_state = (inr 0, s')
       /\ runs_dir s' !! run_id sample_record = Some (Stored r')
       /\ status r' = "cleaned"
       /\ cleaned_at r' = Some "2024-01-15T12:00:00.001000+00:00".
Proof.
  assert (plain_name (run_id sample_record)) as Hplain by (split; [discriminate|reflexivity]).
  split; [exact Hplain|].
  pose proof (cmd_cleanup_spec (sample_env 1 0 0) (run_id sample_record) stored_state Hplain)
    as H.
  assert (runs_dir stored_state !! run_id sample_record = Some (Stored sample_record))
    as Hlook by (vm_compute; reflexivity).
  rewrite Hlook in H. change (status sample_record =? RunStatus_value CLEANED)%string
    with false in H. cbv iota in H.
  destruct (H Hplain) as (s' & r' & Heq & _ & Hst & Hat & _ & Hdir & _).
  exists s', r'. split; [exact Heq|]. split; [by rewrite Hdir, lookup_insert_eq|].
  split; [exact Hst|]. rewrite Hat. vm_compute. reflexivity.
Defined.

Lemma cmd_cleanup_twice_witness :
  let s1 := snd (cmd_cleanup (sample_env 1 0 0) (run_id sample_record) stored_state) in
  let s2 := snd (cmd_cleanup (sample_env 2 0 0) (run_id sample_record) s1) in
  fst (cmd_cleanup (sample_env 2 0 0) (run_id sample_record) s1) = inr 0
  /\ procs s2 = procs s1.
Proof.
  cbv zeta.
  destruct (cmd_cleanup_twice (sample_env 1 0 0) (sample_env 2 0 0) (run_id sample_record)
              stored_state sample_record) as (_ & Hcode & Hsame & _).
  - reflexivity.
  - split; [discriminate|reflexivity].
  - split; [discriminate|reflexivity].
  - split; [exact Hcode|]. apply Hsame. reflexivity.
Defined.

Lemma cleanup_after_run_witness :
  let s1 := snd (cmd_run (sample_env 1 0 0) (sample_args TRAIN) initial_state) in
  exists r,
    last (new_saves initial_state s1) = Some r
    /\ fst (cmd_cleanup (sample_env 2 0 0) (run_id r) s1) = inr 0.
Proof.
  cbv zeta.
  destruct (cleanup_after_run (sample_env 1 0 0) (sample_env 2 0 0) (sample_args TRAIN)
              initial_state) as (r & cd & Hlast & _ & _ & _ & Hcode & _).
  - vm_compute. reflexivity.
  - exists r. split; [exact Hlast|exact Hcode].
Defined.

Lemma cmd_list_runs_witness :
  cmd_list (sample_env 1 0 0) runs_only initial_state
  = (inr 0, printing Stdout ["No runs yet."] initial_state).
Proof.
  destruct (cmd_list_runs (sample_env 1 0 0) runs_only initial_state) as [Heq _].
  - left. reflexivity.
  - exact Heq.
Defined.

Lemma cmd_list_techniques_witness :
  fst (cmd_list (sample_env 1 0 0) techniques_only initial_state) = inr 0.
Proof.
  rewrite (cmd_list_techniques (sample_env 1 0 0) techniques_only initial_state eq_refl
             eq_refl).
  reflexivity.
Defined.

Lemma stored_run_is_listed_witness :
  cmd_reveal (run_id sample_record) stored_state
  = (inr 0, printing Stdout (reveal_lines sample_record) stored_state)
  /\ exists lines,
       cmd_list (sample_env 1 0 0) runs_only stored_state
       = (inr 0, printing Stdout lines stored_state)
       /\ In (ljust 30 (run_id sample_record) +:+ " " +:+
              ljust 15 (status sample_record) +:+ " " +:+ ljust 10 (mode sample_record))
            lines.
Proof.
  apply (stored_run_is_listed (sample_env 1 0 0) runs_only sample_record initial_state).
  - left. reflexivity.
  - split; [discriminate|reflexivity].
  - vm_compute. lia.
Defined.

Lemma run_is_revealed_witness :
  let s1 := snd (cmd_run (sample_env 1 0 0) (sample_args TRAIN) initial_state) in
  let r := default sample_record (last (new_saves initial_state s1)) in
  cmd_reveal (run_id r) s1 = (inr 0, printing Stdout (reveal_lines r) s1).
Proof.
  cbv zeta.
  destruct (run_is_revealed_and_listed (sample_env 1 0 0) (sample_env 1 0 0)
              (sample_args TRAIN) runs_only initial_state
              (default sample_record
                 (last (new_saves initial_state
                          (snd (cmd_run (sample_env 1 0 0) (sample_args TRAIN)
                                  initial_state))))))
    as [Hrev _].
  - vm_compute. reflexivity.
  - exact Hrev.
Defined.

Lemma minimal_do_run_launch_witness :
  let r := Minimal.do_run (sample_env 1 0 0) minimal_args new_process in
  In (drawn (sample_env 1 0 0) minimal_args new_process)
     (listing (sample_env 1 0 0) minimal_args new_process)
  /\ on_stream Stdout (new_output new_process (snd r))
     = ["RUN_ID: 20240115T120000Z"; "Attack launched. Check your detections."]
  /\ region_set minimal_args new_process = region_env "us-east-1".
Proof.
  cbv zeta.
  destruct (minimal_do_run_launch (sample_env 1 0 0) minimal_args new_process)
    as (Hin & _ & _ & Hout & _ & _ & _ & _ & _ & Henv & _).
  - split; [reflexivity|].
    exists (PDict [("UserId", PStr "AIDAEXAMPLE");
                   ("Account", PStr "123456789012");
                   ("Arn", PStr "arn:aws:iam::123456789012:user/responder")]).
    split; reflexivity.
  - reflexivity.
  - vm_compute. discriminate.
  - split; [exact Hin|]. split; [|apply Henv; reflexivity].
    rewrite Hout. vm_compute. reflexivity.
Defined.

Lemma minimal_reveal_after_run_witness :
  let q := snd (Minimal.do_run (sample_env 1 0 0) minimal_args new_process) in
  exists technique,
    Minimal.do_reveal "20240115T120000Z" q
    = (Minimal.Returned 0,
       Minimal.with_output
         (Minimal.output q
          ++ map (pair Stdout) (revealed (sample_env 1 0 0) minimal_args technique new_process))
         q).
Proof.
  cbv zeta.
  destruct (minimal_reveal_after_run (sample_env 1 0 0) minimal_args new_process)
    as (technique & _ & _ & Hreveal & _).
  - split; [reflexivity|].
    exists (PDict [("UserId", PStr "AIDAEXAMPLE");
                   ("Account", PStr "123456789012");
                   ("Arn", PStr "arn:aws:iam::123456789012:user/responder")]).
    split; reflexivity.
  - reflexivity.
  - vm_compute. discriminate.
  - exists technique.
    change "20240115T120000Z"
      with (strftime_compact (clock (sample_env 1 0 0) (Minimal.clock_at new_process))).
    exact Hreveal.
Defined.
